(** * let_them_review: ReviewBot and FixBot

    A shallow embedding of the orchestration code of the repository
    (src/fix-bot/fixBot.js, src/review-bot/reviewBot.js, src/mcp/client.js,
    src/utils/github.js, src/config/config.js and the entry points) and the
    properties of its specification.

    Conventions of the embedding.
    - A JavaScript string is a [string]: one [ascii] per code unit, so the
      texts covered are those whose code units fit in eight bits.
      [toLowerCase] and [trim] are the built-ins restricted to that range.
    - [null] and [undefined] are [None]; an object with fixed fields is a
      record.
    - An exception is the message of the thrown [Error].
    - Calls that leave the process (GitHub, the model API, the file system)
      are answered by an environment that sees the calls made so far; every
      such call is appended to a trace. *)

From Stdlib Require Import String Ascii List Bool Arith PeanoNat NArith Lia.
From Stdlib Require Import DecimalString.
Import ListNotations.
Open Scope string_scope.
Open Scope nat_scope.

(** ** String built-ins *)

Module Str.

(** The code units below 256 with a lower-case counterpart: A to Z, and
    the Latin-1 capitals from 192 to 222 apart from the multiplication sign;
    the counterpart is 32 above. *)
Definition isUpper (c : ascii) : bool :=
  let n := nat_of_ascii c in
  (((65 <=? n) && (n <=? 90))
   || ((192 <=? n) && (n <=? 222) && negb (n =? 215)))%nat.

Definition lowerChar (c : ascii) : ascii :=
  if isUpper c then ascii_of_nat (nat_of_ascii c + 32) else c.

(** [s.toLowerCase()] *)
Fixpoint toLowerCase (s : string) : string :=
  match s with
  | EmptyString => EmptyString
  | String c r => String (lowerChar c) (toLowerCase r)
  end.

(** [s.startsWith(t)] *)
Fixpoint startsWith (s t : string) {struct t} : bool :=
  match t, s with
  | EmptyString, _ => true
  | String _ _, EmptyString => false
  | String b t', String a s' => Ascii.eqb a b && startsWith s' t'
  end.

(** [s.includes(t)]: [t] occurs in [s] as a substring. *)
Fixpoint includes (s t : string) : bool :=
  startsWith s t ||
  match s with
  | EmptyString => false
  | String _ r => includes r t
  end.

(** The substring relation the built-in decides. *)
Definition Contains (s t : string) : Prop :=
  exists a b, s = a ++ t ++ b.

(** [s.substring(0, n)] *)
Fixpoint substring0 (n : nat) (s : string) : string :=
  match n, s with
  | S n', String c r => String c (substring0 n' r)
  | _, _ => EmptyString
  end.

(** White space of [String.prototype.trim] among eight-bit code units:
    TAB, LF, VT, FF, CR, SPACE and NBSP. *)
Definition isSpace (c : ascii) : bool :=
  let n := nat_of_ascii c in
  (((9 <=? n) && (n <=? 13)) || (n =? 32) || (n =? 160))%nat.

Fixpoint trimStart (s : string) : string :=
  match s with
  | EmptyString => EmptyString
  | String c r => if isSpace c then trimStart r else s
  end.

Fixpoint trimEnd (s : string) : string :=
  match s with
  | EmptyString => EmptyString
  | String c r =>
      match trimEnd r with
      | EmptyString => if isSpace c then EmptyString else String c EmptyString
      | r' => String c r'
      end
  end.

(** [s.trim()] *)
Definition trim (s : string) : string := trimEnd (trimStart s).

(** JavaScript truthiness of a string. *)
Definition truthy (s : string) : bool :=
  match s with EmptyString => false | _ => true end.

(** Truthiness of a value that is a string or [null]/[undefined]. *)
Definition truthyOpt (o : option string) : bool :=
  match o with Some s => truthy s | None => false end.

End Str.

(** ** Data model *)

(** The message of a thrown [Error]. *)
Definition Exn := string.

(** Outcome of a call that may throw. *)
Inductive Result (A : Type) : Type :=
| Ok (a : A)
| Throw (e : Exn).
Arguments Ok {A} a.
Arguments Throw {A} e.

(** An issue object. Issues that come out of an analysis carry no
    [filename]; the ones the fixer groups by file do. *)
Record Issue := {
  issue_filename : option string;
  issue_type : string;
  issue_severity : string;
  issue_line : option nat;
  issue_description : string;
  issue_suggestion : string
}.

Record AnalysisResult := {
  summary : string;
  issues : list Issue;
  overallRating : string;
  recommendations : list string
}.

(** An entry of [pulls.listFiles]. *)
Record File := {
  filename : string;
  status : string;
  additions : nat;
  deletions : nat;
  patch : option string
}.

Record PullRequest := {
  number : nat;
  title : string;
  body : option string
}.

(** What [parseFixRequest] returns: [{ shouldFix, type, scope }]. *)
Record FixRequest := {
  shouldFix : bool;
  req_type : option string;
  scope : option string
}.

(** What the per-file fixers return: [{ success, fixesApplied }]. *)
Record FixOutcome := {
  success : bool;
  fixesApplied : nat
}.

Definition failed : FixOutcome := {| success := false; fixesApplied := 0 |}.

(** [arr.includes(x)] on an array of strings. *)
Definition Array_includes (arr : list string) (x : string) : bool :=
  existsb (String.eqb x) arr.

(** ** Trigger parsing (fixBot.js, parseFixRequest) *)

Definition parseFixRequest (commentBody : string) : FixRequest :=
  let normalizedComment := Str.toLowerCase commentBody in
  if negb (Str.includes normalizedComment "@fixbot") then
    {| shouldFix := false; req_type := None; scope := None |}
  else if Str.includes normalizedComment "apply"
          || Str.includes normalizedComment "fix" then
    if Str.includes normalizedComment "all" then
      {| shouldFix := true; req_type := Some "general"; scope := Some "all" |}
    else
      {| shouldFix := true; req_type := Some "specific"; scope := Some "targeted" |}
  else
    {| shouldFix := true; req_type := Some "general"; scope := Some "suggested" |}.

(** The intents of the specification, read off a request the way
    [processFixRequest] dispatches on it. *)
Inductive Intent := IntentNone | Targeted | Blanket.

Definition intentOf (r : FixRequest) : Intent :=
  if negb (shouldFix r) then IntentNone
  else match req_type r with
       | Some t => if String.eqb t "specific" then Targeted
                   else if String.eqb t "general" then Blanket
                   else IntentNone
       | None => IntentNone
       end.

(** ** Risk policy (fixBot.js, the filter of analyzeAndFixFile) *)

(** The arrow function handed to [analysis.issues.filter]. *)
Definition isAutoFixable (issue : Issue) : bool :=
  Array_includes ["style"; "performance"; "refactor"] (issue_type issue)
  && negb (String.eqb (issue_severity issue) "high").

Definition fixableIssuesOf (analysis : AnalysisResult) : list Issue :=
  filter isAutoFixable (issues analysis).

(** ** Plain objects used as dictionaries *)

Module JsObject.

(** The names a fresh [{}] inherits from [Object.prototype]. Every one of
    them is a function, except [__proto__], which is the prototype object
    itself: all are truthy and none has a [push] method. *)
Definition objectPrototypeKeys : list string :=
  [ "constructor"; "__defineGetter__"; "__defineSetter__"; "hasOwnProperty";
    "__lookupGetter__"; "__lookupSetter__"; "isPrototypeOf";
    "propertyIsEnumerable"; "toString"; "valueOf"; "__proto__";
    "toLocaleString" ].

(** Own properties, in the order they were created. *)
Definition t (V : Type) := list (string * V).

(** What [obj[key]] evaluates to. *)
Inductive Lookup (V : Type) : Type :=
| Own (v : V)
| Inherited
| Undefined.
Arguments Own {V} v.
Arguments Inherited {V}.
Arguments Undefined {V}.

Fixpoint own {V} (obj : t V) (key : string) : option V :=
  match obj with
  | [] => None
  | (k, v) :: rest => if String.eqb k key then Some v else own rest key
  end.

Definition get {V} (obj : t V) (key : string) : Lookup V :=
  match own obj key with
  | Some v => Own v
  | None => if Array_includes objectPrototypeKeys key then Inherited else Undefined
  end.

(** [obj[key] = v] for a key that is not [__proto__]: an existing own
    property keeps its place, a new one goes last. *)
Fixpoint set {V} (obj : t V) (key : string) (v : V) : t V :=
  match obj with
  | [] => [(key, v)]
  | (k, w) :: rest =>
      if String.eqb k key then (k, v) :: rest else (k, w) :: set rest key v
  end.

Definition isDigit (c : ascii) : bool :=
  ((48 <=? nat_of_ascii c) && (nat_of_ascii c <=? 57))%nat.

Fixpoint digitsValue (s : string) (acc : N) : option N :=
  match s with
  | EmptyString => Some acc
  | String c r =>
      if isDigit c
      then digitsValue r (10 * acc + N.of_nat (nat_of_ascii c - 48))%N
      else None
  end.

(** An array index: a canonical decimal numeral below 2^32 - 1. *)
Definition arrayIndex (key : string) : option N :=
  match key with
  | EmptyString => None
  | String c r =>
      if Ascii.eqb c "0" && Str.truthy r then None
      else match digitsValue key 0%N with
           | Some n => if (n <? 4294967295)%N then Some n else None
           | None => None
           end
  end.

Fixpoint insertIndexed {V} (n : N) (e : string * V)
    (l : list (N * (string * V))) : list (N * (string * V)) :=
  match l with
  | [] => [(n, e)]
  | (m, f) :: rest =>
      if (n <? m)%N then (n, e) :: l else (m, f) :: insertIndexed n e rest
  end.

Fixpoint indexed {V} (obj : t V) : list (N * (string * V)) :=
  match obj with
  | [] => []
  | (k, v) :: rest =>
      match arrayIndex k with
      | Some n => insertIndexed n (k, v) (indexed rest)
      | None => indexed rest
      end
  end.

Definition named {V} (obj : t V) : list (string * V) :=
  filter (fun e => match arrayIndex (fst e) with Some _ => false | None => true end) obj.

(** [Object.entries(obj)]: array-index keys in ascending order, then the
    other keys in creation order. *)
Definition entries {V} (obj : t V) : list (string * V) :=
  (map snd (indexed obj) ++ named obj)%list.

(** [Object.keys(obj)] *)
Definition keys {V} (obj : t V) : list string := map fst (entries obj).

End JsObject.

(** ** Grouping issues by file (fixBot.js, groupIssuesByFile) *)

(** The property key [issue.filename] turns into. *)
Definition propertyKey (o : option string) : string :=
  match o with Some s => s | None => "undefined" end.

(** [arr.reduce(f, init)] with a callback that may throw. *)
Fixpoint reduce {A B} (f : B -> A -> Result B) (arr : list A) (init : B) : Result B :=
  match arr with
  | [] => Ok init
  | x :: rest =>
      match f init x with
      | Ok acc => reduce f rest acc
      | Throw e => Throw e
      end
  end.

(** The callback of [groupIssuesByFile]. When [groups[filename]] is an
    inherited member, [!groups[filename]] is false and the call of its
    missing [push] throws a [TypeError]. *)
Definition groupStep (groups : JsObject.t (list Issue)) (issue : Issue)
  : Result (JsObject.t (list Issue)) :=
  let filename := propertyKey (issue_filename issue) in
  match JsObject.get groups filename with
  | JsObject.Undefined => Ok (JsObject.set groups filename [issue])
  | JsObject.Own arr => Ok (JsObject.set groups filename (arr ++ [issue])%list)
  | JsObject.Inherited => Throw "groups[filename].push is not a function"
  end.

Definition groupIssuesByFile (issues : list Issue) : Result (JsObject.t (list Issue)) :=
  reduce groupStep issues [].

(** ** Configuration (config/config.js) *)

Module config.

Module reviewBot.
Definition maxFilesPerReview : nat := 50.
Definition excludePatterns : list string :=
  [ "node_modules/**"; "dist/**"; "build/**"; "*.min.js"; "*.min.css";
    "package-lock.json"; "yarn.lock" ].
End reviewBot.

Module fixBot.
Definition maxChangesPerRun : nat := 10.
Definition supportedLanguages : list string :=
  [ "javascript"; "typescript"; "python"; "java"; "go"; "rust"; "cpp"; "csharp" ].
End fixBot.

End config.

(** ** Exclusion patterns as regular expressions (utils/github.js, filterFiles) *)

Module Glob.

(** [pattern.replace(/\*\*/g, '.*')]: pairs of stars, left to right. *)
Fixpoint replaceStarStar (s : string) : string :=
  match s with
  | EmptyString => EmptyString
  | String c r =>
      match r with
      | String d r' =>
          if Ascii.eqb c "*" && Ascii.eqb d "*"
          then ".*" ++ replaceStarStar r'
          else String c (replaceStarStar r)
      | EmptyString => String c EmptyString
      end
  end.

(** [s.replace(/\*/g, '[^/]*')]: every star, including the ones the first
    replacement has just written. *)
Fixpoint replaceStar (s : string) : string :=
  match s with
  | EmptyString => EmptyString
  | String c r =>
      if Ascii.eqb c "*" then "[^/]*" ++ replaceStar r
      else String c (replaceStar r)
  end.

(** The source text handed to [new RegExp]. *)
Definition regexSource (pattern : string) : string :=
  replaceStar (replaceStarStar pattern).

(** The regular expressions such a source can denote when the pattern is
    made of ordinary characters, dots and stars. *)
Inductive Atom :=
| Lit (c : ascii)        (* a character that stands for itself *)
| AnyChar                (* [.]: any character but a line terminator *)
| NotSlash               (* [[^/]] *)
| NotSlashStar.          (* [[^/]*] *)

Definition Regex := list Atom.

(** The syntax characters of a pattern. *)
Definition isSyntaxCharacter (c : ascii) : bool :=
  Str.includes "\^$.*+?()[]{}|" (String c EmptyString).

Definition drop (n : nat) (s : string) : string :=
  String.substring n (String.length s - n) s.

(** [new RegExp(source)] on that fragment; [None] for a source with any
    other syntax character, which this embedding does not interpret. *)
Fixpoint parseRegex (fuel : nat) (source : string) : option Regex :=
  match fuel with
  | O => None
  | S fuel' =>
      match source with
      | EmptyString => Some []
      | String c r =>
          if Str.startsWith source "[^/]*" then
            option_map (cons NotSlashStar) (parseRegex fuel' (drop 5 source))
          else if Str.startsWith source "[^/]" then
            option_map (cons NotSlash) (parseRegex fuel' (drop 4 source))
          else if Ascii.eqb c "." then
            option_map (cons AnyChar) (parseRegex fuel' r)
          else if isSyntaxCharacter c then None
          else option_map (cons (Lit c)) (parseRegex fuel' r)
      end
  end.

Definition RegExp (source : string) : option Regex :=
  parseRegex (S (String.length source)) source.

(** Line terminators among eight-bit code units: LF and CR. *)
Definition isLineTerminator (c : ascii) : bool :=
  Ascii.eqb c "010" || Ascii.eqb c "013".

(** The regular expression matches a prefix of [s]. *)
Fixpoint matchHere (regex : Regex) (s : string) : bool :=
  match regex with
  | [] => true
  | Lit c :: regex' =>
      match s with
      | String a s' => Ascii.eqb a c && matchHere regex' s'
      | EmptyString => false
      end
  | AnyChar :: regex' =>
      match s with
      | String a s' => negb (isLineTerminator a) && matchHere regex' s'
      | EmptyString => false
      end
  | NotSlash :: regex' =>
      match s with
      | String a s' => negb (Ascii.eqb a "/") && matchHere regex' s'
      | EmptyString => false
      end
  | NotSlashStar :: regex' =>
      (fix star (s : string) : bool :=
         matchHere regex' s ||
         match s with
         | String a s' => negb (Ascii.eqb a "/") && star s'
         | EmptyString => false
         end) s
  end.

(** [regex.test(s)]: the expression is not anchored, so it may match
    anywhere in [s]. *)
Fixpoint test (regex : Regex) (s : string) : bool :=
  matchHere regex s ||
  match s with
  | String _ s' => test regex s'
  | EmptyString => false
  end.

End Glob.

(** [all f l]: the results of [f] when every one is defined. *)
Fixpoint all {A B} (f : A -> option B) (l : list A) : option (list B) :=
  match l with
  | [] => Some []
  | x :: rest =>
      match f x, all f rest with
      | Some y, Some ys => Some (y :: ys)
      | _, _ => None
      end
  end.

(** [excludePatterns.some(pattern => regex.test(file.filename))] *)
Definition excluded (regexes : list Glob.Regex) (file : File) : bool :=
  existsb (fun regex => Glob.test regex (filename file)) regexes.

Definition filterFilesBy (regexes : list Glob.Regex) (files : list File) : list File :=
  filter (fun file => negb (excluded regexes file)) files.

(** [filterFiles] for a given list of exclusion patterns; [None] when a
    pattern is outside the fragment of [Glob.RegExp]. *)
Definition filterFilesWith (excludePatterns : list string) (files : list File)
  : option (list File) :=
  option_map (fun regexes => filterFilesBy regexes files)
             (all (fun pattern => Glob.RegExp (Glob.regexSource pattern)) excludePatterns).

(** The expressions of the configured patterns. *)
Definition configRegexes : list Glob.Regex :=
  match all (fun pattern => Glob.RegExp (Glob.regexSource pattern))
            config.reviewBot.excludePatterns with
  | Some regexes => regexes
  | None => []
  end.

(** [filterFiles(files)], which reads [config.reviewBot.excludePatterns]. *)
Definition filterFiles (files : list File) : list File :=
  filterFilesBy configRegexes files.

(** [arr.slice(0, n)] *)
Definition slice0 {A} (n : nat) (arr : list A) : list A := firstn n arr.

(** ** Language detection (utils/github.js, detectLanguage) *)

(** The value [detectLanguage] returns: a language name or, for an
    extension that names a member of [Object.prototype], that member. *)
Inductive Language :=
| Lang (name : string)
| PrototypeMember (key : string).

Definition languageMap : JsObject.t string :=
  [ ("js", "javascript"); ("jsx", "javascript"); ("ts", "typescript");
    ("tsx", "typescript"); ("py", "python"); ("java", "java"); ("go", "go");
    ("rs", "rust"); ("cpp", "cpp"); ("cc", "cpp"); ("cxx", "cpp"); ("c", "c");
    ("cs", "csharp"); ("php", "php"); ("rb", "ruby"); ("swift", "swift");
    ("kt", "kotlin"); ("scala", "scala"); ("sh", "bash"); ("sql", "sql");
    ("html", "html"); ("css", "css"); ("scss", "scss"); ("sass", "sass");
    ("json", "json"); ("yaml", "yaml"); ("yml", "yaml"); ("xml", "xml");
    ("md", "markdown") ].

(** [s.split('.').pop()] *)
Fixpoint lastDotSegment (s : string) : string :=
  match s with
  | EmptyString => EmptyString
  | String c r =>
      if Str.includes r "." then lastDotSegment r
      else if Ascii.eqb c "." then r
      else s
  end.

Definition detectLanguage (filename : string) : Language :=
  let extension := Str.toLowerCase (lastDotSegment filename) in
  match JsObject.get languageMap extension with
  | JsObject.Own name => if Str.truthy name then Lang name else Lang "text"
  | JsObject.Inherited => PrototypeMember extension
  | JsObject.Undefined => Lang "text"
  end.

(** [config.fixBot.supportedLanguages.includes(language)] *)
Definition supportedLanguage (language : Language) : bool :=
  match language with
  | Lang name => Array_includes config.fixBot.supportedLanguages name
  | PrototypeMember _ => false
  end.

(** ** Calls that leave the process *)

(** The [context] object handed to the model client. *)
Record Context := {
  ctx_filename : string;
  ctx_language : Language;
  ctx_pullRequestContext : string;
  ctx_fileStatus : option string;
  ctx_additions : option nat;
  ctx_deletions : option nat
}.

(** A prompt. Its text is a fixed template around the interpolated values
    ([buildAnalysisPrompt], [buildFixPrompt], the health-check sentence);
    the embedding keeps the values. *)
Inductive Prompt :=
| AnalysisPrompt (code : string) (context : Context)
| FixPrompt (issues : list Issue) (originalCode : string) (context : Context)
| HealthPrompt.

Record ContentBlock := { text : option string }.

(** The reply of [anthropic.messages.create]. *)
Record Response := { content : list ContentBlock }.

(** One entry of [reviews]: [{ file, analysis, context }]. *)
Record Review := {
  file : File;
  analysis : AnalysisResult;
  context : Context
}.

(** The body of a posted comment or review: literal text, or one of the
    longer templates kept as the values it is rendered from. *)
Inductive Body :=
| Text (s : string)
| SummaryComment (reviews : list Review) (pullRequest : PullRequest)
    (overallAssessment emoji : string) (totalIssues highSeverityIssues : nat)
| IssueComment (issue : Issue) (filename : string)
| FixSummary (fixedFiles totalFixes totalFiles : nat).

Inductive Event :=
| MessagesCreate (prompt : Prompt)
| PullsGet (prNumber : string)
| PullsListFiles (prNumber : string)
| IssuesCreateComment (issueNumber : string) (body : Body)
| PullsCreateReview (prNumber : string) (body : Body) (event : string)
| FsReadFile (path : string)
| FsWriteFile (path : string) (data : string).

Definition Trace := list Event.

(** How the outside answers: each answer may depend on every call made
    before it. [JSON_parse] is the built-in, [None] when it throws; what
    it returns is trusted to follow the analysis schema. *)
Record Env := {
  messages_create : Trace -> Prompt -> Result Response;
  pulls_get : Trace -> string -> Result PullRequest;
  pulls_listFiles : Trace -> string -> Result (list File);
  issues_createComment : Trace -> string -> Body -> Result unit;
  pulls_createReview : Trace -> string -> Body -> string -> Result unit;
  fs_readFile : Trace -> string -> Result string;
  fs_writeFile : Trace -> string -> string -> Result unit;
  JSON_parse : string -> option AnalysisResult
}.

(** An asynchronous method: it extends the trace and returns or throws. *)
Definition M (A : Type) : Type := Trace -> Result A * Trace.

Definition ret {A} (a : A) : M A := fun tr => (Ok a, tr).

Definition throw {A} (e : Exn) : M A := fun tr => (Throw e, tr).

Definition bind {A B} (m : M A) (k : A -> M B) : M B :=
  fun tr =>
    match m tr with
    | (Ok a, tr') => k a tr'
    | (Throw e, tr') => (Throw e, tr')
    end.

(** [try { m } catch (error) { handler(error) }] *)
Definition tryCatch {A} (m : M A) (handler : Exn -> M A) : M A :=
  fun tr =>
    match m tr with
    | (Ok a, tr') => (Ok a, tr')
    | (Throw e, tr') => handler e tr'
    end.

(** An external call: the environment answers on the trace so far and the
    call is recorded. *)
Definition call {A} (answer : Trace -> Result A) (ev : Event) : M A :=
  fun tr => (answer tr, (tr ++ [ev])%list).

(** A synchronous computation that may throw, run inside a method. *)
Definition lift {A} (r : Result A) : M A := fun tr => (r, tr).

Declare Scope js_scope.
Delimit Scope js_scope with js.
Notation "x <- m ;; k" := (bind m (fun x => k))
  (at level 61, m at next level, right associativity) : js_scope.
Notation "m ;; k" := (bind m (fun _ => k))
  (at level 61, right associativity) : js_scope.
Open Scope js_scope.

(** [for (const x of arr) { body(x) }] *)
Fixpoint forOf {A} (arr : list A) (body : A -> M unit) : M unit :=
  match arr with
  | [] => ret tt
  | x :: rest => body x ;; forOf rest body
  end.

(** A loop that updates local variables [acc]. *)
Fixpoint forOfAcc {A S} (arr : list A) (acc : S) (body : S -> A -> M S) : M S :=
  match arr with
  | [] => ret acc
  | x :: rest => acc' <- body acc x ;; forOfAcc rest acc' body
  end.

(** The events of one kind in a trace. *)
Definition isWrite (ev : Event) : bool :=
  match ev with FsWriteFile _ _ => true | _ => false end.

Definition isInference (ev : Event) : bool :=
  match ev with MessagesCreate _ => true | _ => false end.

Definition writes (tr : Trace) : list Event := filter isWrite tr.

Definition inferences (tr : Trace) : list Event := filter isInference tr.

(** A line feed. *)
Definition nl : string := String "010" EmptyString.

(** A number interpolated into a template literal. *)
Definition decimal (n : nat) : string := NilZero.string_of_uint (Nat.to_uint n).

(** [bind] and [try]/[catch] for synchronous code. *)
Definition andThen {A B} (r : Result A) (k : A -> Result B) : Result B :=
  match r with
  | Ok a => k a
  | Throw e => Throw e
  end.

Definition catch {A} (r : Result A) (handler : Exn -> Result A) : Result A :=
  match r with
  | Ok a => Ok a
  | Throw e => handler e
  end.

(** ** The model client (mcp/client.js) *)

Module MCPClient.

(** [response.content[0].text], read as the string a method is then called
    on: a [TypeError] when there is no first block or it has no text. *)
Definition firstText (response : Response) : Result string :=
  match content response with
  | [] => Throw "Cannot read properties of undefined (reading 'text')"
  | block :: _ =>
      match text block with
      | Some s => Ok s
      | None => Throw "Cannot read properties of undefined"
      end
  end.

(** The longest prefix that ends with a closing brace. *)
Fixpoint uptoLastBrace (s : string) : option string :=
  match s with
  | EmptyString => None
  | String c r =>
      match uptoLastBrace r with
      | Some p => Some (String c p)
      | None => if Ascii.eqb c "}" then Some (String c EmptyString) else None
      end
  end.

(** [content.match(/\{[\s\S]*\}/)]: from the first opening brace to the
    last closing brace after it. *)
Fixpoint jsonMatch (s : string) : option string :=
  match s with
  | EmptyString => None
  | String c r =>
      if Ascii.eqb c "{" then
        match uptoLastBrace r with
        | Some p => Some (String c p)
        | None => jsonMatch r
        end
      else jsonMatch r
  end.

(** Fallback text response parser. *)
Definition parseTextResponse (content : string) : AnalysisResult :=
  {| summary := Str.substring0 200 content ++ "...";
     issues := [];
     overallRating := "unknown";
     recommendations := ["Manual review recommended"] |}.

(** The object the [catch] of [parseResponse] returns. *)
Definition errorParsingResponse : AnalysisResult :=
  {| summary := "Error parsing response";
     issues := [];
     overallRating := "unknown";
     recommendations := [] |}.

(** [\w] *)
Definition isWord (c : ascii) : bool :=
  let n := nat_of_ascii c in
  (((48 <=? n) && (n <=? 57)) || ((65 <=? n) && (n <=? 90))
   || ((97 <=? n) && (n <=? 122)) || (n =? 95))%nat.

Fixpoint skipWord (s : string) : string :=
  match s with
  | EmptyString => EmptyString
  | String c r => if isWord c then skipWord r else s
  end.

(** The text before the first occurrence of [delim]. *)
Fixpoint beforeFirst (delim s : string) : option string :=
  if Str.startsWith s delim then Some EmptyString
  else match s with
       | EmptyString => None
       | String c r => option_map (String c) (beforeFirst delim r)
       end.

(** What follows an opening fence: an optional word, a line feed, then the
    captured text up to the first line feed followed by a fence. *)
Definition fenced (s : string) : option string :=
  match skipWord s with
  | String c r => if Ascii.eqb c "010" then beforeFirst (nl ++ "```") r else None
  | EmptyString => None
  end.

(** Group 1 of [content.match(/```(?:\w+)?\n([\s\S]*?)\n```/)]. *)
Fixpoint codeMatch (s : string) : option string :=
  match s with
  | EmptyString => None
  | String _ r =>
      if Str.startsWith s "```" then
        match fenced (Glob.drop 3 s) with
        | Some code => Some code
        | None => codeMatch r
        end
      else codeMatch r
  end.

Section Client.
Variable env : Env.

(** Its result is not used by the callers. *)
Definition initialize : M unit := ret tt.

(** Parse Claude's response for code analysis. *)
Definition parseResponse (response : Response) : Result AnalysisResult :=
  catch
    (andThen (firstText response) (fun content =>
       match jsonMatch content with
       | Some json =>
           match JSON_parse env json with
           | Some parsed => Ok parsed
           | None => Throw "Unexpected token in JSON"
           end
       | None => Ok (parseTextResponse content)
       end))
    (fun _ => Ok errorParsingResponse).

(** Parse Claude's response for code fixes. *)
Definition parseFixes (response : Response) : Result (option string) :=
  catch
    (andThen (firstText response) (fun content =>
       match codeMatch content with
       | Some code => Ok (Some code)
       | None => Ok (Some content)
       end))
    (fun _ => Ok None).

(** Analyze code using Claude. *)
Definition analyzeCode (code : string) (context : Context) : M AnalysisResult :=
  tryCatch
    (response <- call (fun tr => messages_create env tr (AnalysisPrompt code context))
                      (MessagesCreate (AnalysisPrompt code context)) ;;
     lift (parseResponse response))
    (fun error => throw error).

(** Generate code fixes using Claude. *)
Definition generateFixes (issues : list Issue) (originalCode : string)
    (context : Context) : M (option string) :=
  tryCatch
    (response <- call (fun tr => messages_create env tr (FixPrompt issues originalCode context))
                      (MessagesCreate (FixPrompt issues originalCode context)) ;;
     lift (parseFixes response))
    (fun error => throw error).

(** Health check for the connection. *)
Definition healthCheck : M bool :=
  tryCatch
    (response <- call (fun tr => messages_create env tr HealthPrompt)
                      (MessagesCreate HealthPrompt) ;;
     content <- lift (firstText response) ;;
     ret (Str.includes content "healthy"))
    (fun _ => ret false).

End Client.
End MCPClient.

(** ** The GitHub client (utils/github.js) *)

Module GitHubClient.
Section Client.
Variable env : Env.

(** Each wrapper logs and rethrows what the API call throws. *)
Definition getPullRequest (prNumber : string) : M PullRequest :=
  tryCatch (call (fun tr => pulls_get env tr prNumber) (PullsGet prNumber))
           (fun error => throw error).

Definition getPullRequestFiles (prNumber : string) : M (list File) :=
  tryCatch (call (fun tr => pulls_listFiles env tr prNumber) (PullsListFiles prNumber))
           (fun error => throw error).

Definition createComment (issueNumber : string) (body : Body) : M unit :=
  tryCatch (call (fun tr => issues_createComment env tr issueNumber body)
                 (IssuesCreateComment issueNumber body))
           (fun error => throw error).

Definition createReview (prNumber : string) (body : Body) (event : string) : M unit :=
  tryCatch (call (fun tr => pulls_createReview env tr prNumber body event)
                 (PullsCreateReview prNumber body event))
           (fun error => throw error).

End Client.
End GitHubClient.

(** ** ReviewBot (review-bot/reviewBot.js) *)

Module ReviewBot.

(** The two sums of [generateSummary]. *)
Definition totalIssuesOf (reviews : list Review) : nat :=
  fold_left (fun sum review => sum + length (issues (analysis review))) reviews 0.

Definition highSeverityIssuesOf (reviews : list Review) : nat :=
  fold_left
    (fun sum review =>
       sum + length (filter (fun issue => String.eqb (issue_severity issue) "high")
                            (issues (analysis review))))
    reviews 0.

(** [overallAssessment] and [emoji] after the chain of conditions. *)
Definition assessment (totalIssues highSeverityIssues : nat) : string * string :=
  if 0 <? highSeverityIssues then
    ("❌ **CHANGES REQUESTED** - High severity issues found", "❌")
  else if 5 <? totalIssues then
    ("⚠️ **NEEDS IMPROVEMENT** - Multiple issues found", "⚠️")
  else if 0 <? totalIssues then
    ("📝 **APPROVED WITH SUGGESTIONS** - Minor issues found", "📝")
  else
    ("✅ **APPROVED** - Code looks good!", "✅").

(** [event] of the posted review. *)
Definition reviewEvent (highSeverityIssues : nat) : string :=
  if 0 <? highSeverityIssues then "REQUEST_CHANGES" else "COMMENT".

(** The [context] object [analyzeFile] prepares. *)
Definition reviewContext (file : File) (language : Language)
    (pullRequest : PullRequest) : Context :=
  {| ctx_filename := filename file;
     ctx_language := language;
     ctx_pullRequestContext :=
       "PR #" ++ decimal (number pullRequest) ++ ": " ++ title pullRequest
       ++ nl ++ match body pullRequest with
                | Some b => b
                | None => EmptyString
                end;
     ctx_fileStatus := Some (status file);
     ctx_additions := Some (additions file);
     ctx_deletions := Some (deletions file) |}.

(** The text of the error comment. *)
Definition errorComment (errorMessage : string) : string :=
  "## ❌ ReviewBot Error" ++ nl ++ nl ++
  "An error occurred during the analysis:" ++ nl ++ nl ++
  "```" ++ nl ++ errorMessage ++ nl ++ "```" ++ nl ++ nl ++
  "Please check the action logs for more details.".

Section Bot.
Variable env : Env.
Variable prNumber : string.

(** Post error comment. *)
Definition postErrorComment (errorMessage : string) : M unit :=
  let comment := errorComment errorMessage in
  tryCatch (GitHubClient.createComment env prNumber (Text comment))
           (fun _ => ret tt).

(** Post summary comment. *)
Definition postSummaryComment (message : string) : M unit :=
  let comment := "## 🤖 ReviewBot" ++ nl ++ nl ++ message in
  tryCatch (GitHubClient.createComment env prNumber (Text comment))
           (fun _ => ret tt).

(** Analyze a single file. *)
Definition analyzeFile (file : File) (pullRequest : PullRequest) : M (option Review) :=
  tryCatch
    (if 1000 <? additions file + deletions file then ret None
     else
       let language := detectLanguage (filename file) in
       let content :=
         if String.eqb (status file) "added" || String.eqb (status file) "modified"
         then Some (match patch file with Some p => p | None => EmptyString end)
         else if String.eqb (status file) "removed"
         then None                       (* return null *)
         else Some EmptyString in
       match content with
       | None => ret None
       | Some content =>
           if negb (Str.truthy (Str.trim content)) then ret None
           else
             let context := reviewContext file language pullRequest in
             analysis <- MCPClient.analyzeCode env content context ;;
             ret (Some {| file := file; analysis := analysis; context := context |})
       end)
    (fun _ => ret None).

(** Generate overall PR summary. On analyses of the schema the two sums
    and [buildSummaryComment] do not throw, so the only exception left inside
    the [try] is the one of the call. *)
Definition generateSummary (reviews : list Review) (pullRequest : PullRequest) : M unit :=
  tryCatch
    (let totalIssues := totalIssuesOf reviews in
     let highSeverityIssues := highSeverityIssuesOf reviews in
     let '(overallAssessment, emoji) := assessment totalIssues highSeverityIssues in
     let summary :=
       SummaryComment reviews pullRequest overallAssessment emoji
                      totalIssues highSeverityIssues in
     let event := reviewEvent highSeverityIssues in
     GitHubClient.createReview env prNumber summary event)
    (fun _ => ret tt).

(** Post individual file comments. The analyses are those of the schema,
    each with its list of issue objects: on these neither the read of
    [issues.length], which stands before the inner [try], nor
    [buildIssueComment] inside it throws, so the only exception left is the
    one of the call. The comment is kept as the values it is rendered from. *)
Definition postFileComments (reviews : list Review) : M unit :=
  forOf reviews (fun review =>
    if length (issues (analysis review)) =? 0 then ret tt
    else
      forOf (issues (analysis review)) (fun issue =>
        tryCatch
          (GitHubClient.createComment env prNumber
             (IssueComment issue (filename (file review))))
          (fun _ => ret tt))).

(** Main entry point for reviewing a pull request. *)
Definition reviewPullRequest : M unit :=
  tryCatch
    (MCPClient.initialize ;;
     isHealthy <- MCPClient.healthCheck env ;;
     if negb isHealthy then throw "MCP connection health check failed"
     else
       pullRequest <- GitHubClient.getPullRequest env prNumber ;;
       files <- GitHubClient.getPullRequestFiles env prNumber ;;
       let filteredFiles := filterFiles files in
       if length filteredFiles =? 0 then
         postSummaryComment "No reviewable files found in this PR."
       else
         let filesToReview := slice0 config.reviewBot.maxFilesPerReview filteredFiles in
         reviews <- forOfAcc filesToReview []
                      (fun reviews file =>
                         review <- analyzeFile file pullRequest ;;
                         ret (match review with
                              | Some r => (reviews ++ [r])%list
                              | None => reviews
                              end)) ;;
         generateSummary reviews pullRequest ;;
         postFileComments reviews)
    (fun error => postErrorComment error).

End Bot.
End ReviewBot.

(** ** FixBot (fix-bot/fixBot.js) *)

Module FixBot.

(** The issues [extractIssuesFromComments] returns. *)
Definition mockIssues : list Issue :=
  [ {| issue_filename := Some "example.js";
       issue_type := "style";
       issue_severity := "low";
       issue_line := Some 10;
       issue_description := "Missing semicolon";
       issue_suggestion := "Add semicolon at end of statement" |} ].

Definition fixContext (filename : string) (pullRequest : PullRequest) : Context :=
  {| ctx_filename := filename;
     ctx_language := detectLanguage filename;
     ctx_pullRequestContext :=
       "PR #" ++ decimal (number pullRequest) ++ ": " ++ title pullRequest;
     ctx_fileStatus := None;
     ctx_additions := None;
     ctx_deletions := None |}.

(** The text of a fix comment. *)
Definition fixComment (message : string) : string :=
  "## 🔧 FixBot" ++ nl ++ nl ++ message.

(** The message posted when there is no issue to fix. *)
Definition noIssuesMessage : string :=
  "No specific issues found to fix. Please ensure ReviewBot has analyzed the PR first.".

Section Bot.
Variable env : Env.
Variable prNumber : string.
Variable commentBody : string.

(** Get current file content from the local file system. *)
Definition getCurrentFileContent (filename : string) : M (option string) :=
  tryCatch
    (content <- call (fun tr => fs_readFile env tr filename) (FsReadFile filename) ;;
     ret (Some content))
    (fun _ => ret None).

(** Write fixed content to file. *)
Definition writeFileContent (filename content : string) : M unit :=
  tryCatch
    (call (fun tr => fs_writeFile env tr filename content) (FsWriteFile filename content))
    (fun error => throw error).

(** Post fix summary comment. *)
Definition postFixSummary (fixedFiles totalFixes totalFiles : nat) : M unit :=
  tryCatch
    (GitHubClient.createComment env prNumber (FixSummary fixedFiles totalFixes totalFiles))
    (fun _ => ret tt).

(** Post fix comment. *)
Definition postFixComment (message : string) : M unit :=
  let comment := fixComment message in
  tryCatch (GitHubClient.createComment env prNumber (Text comment))
           (fun _ => ret tt).

(** Post error comment. *)
Definition postErrorComment (errorMessage : string) : M unit :=
  let comment :=
    "## ❌ FixBot Error" ++ nl ++ nl ++
    "An error occurred while applying fixes:" ++ nl ++ nl ++
    "```" ++ nl ++ errorMessage ++ nl ++ "```" ++ nl ++ nl ++
    "Please check the action logs for more details." in
  tryCatch (GitHubClient.createComment env prNumber (Text comment))
           (fun _ => ret tt).

(** Extract issues from recent ReviewBot comments: a simplified
    implementation that returns mock issues. *)
Definition extractIssuesFromComments : M (list Issue) :=
  tryCatch (ret mockIssues) (fun _ => ret []).

(** [!fixedContent || fixedContent === currentContent] *)
Definition noFix (fixedContent : option string) (currentContent : string) : bool :=
  negb (Str.truthyOpt fixedContent)
  || match fixedContent with
     | Some fixed => String.eqb fixed currentContent
     | None => false
     end.

(** Fix issues in a specific file. *)
Definition fixFileIssues (filename : string) (issues : list Issue)
    (pullRequest : PullRequest) : M FixOutcome :=
  tryCatch
    (currentContent <- getCurrentFileContent filename ;;
     match currentContent with
     | None => ret failed
     | Some currentContent =>
         if negb (Str.truthy currentContent) then ret failed
         else
           let context := fixContext filename pullRequest in
           fixedContent <- MCPClient.generateFixes env issues currentContent context ;;
           match fixedContent with
           | None => ret failed
           | Some fixed =>
               if noFix fixedContent currentContent then ret failed
               else
                 writeFileContent filename fixed ;;
                 ret {| success := true; fixesApplied := length issues |}
           end
     end)
    (fun _ => ret failed).

(** Analyze and fix a file generally. *)
Definition analyzeAndFixFile (file : File) (pullRequest : PullRequest) : M FixOutcome :=
  tryCatch
    (if 500 <? additions file + deletions file then ret failed
     else
       content <- getCurrentFileContent (filename file) ;;
       match content with
       | None => ret failed
       | Some content =>
           if negb (Str.truthy content) then ret failed
           else
             let language := detectLanguage (filename file) in
             if negb (supportedLanguage language) then ret failed
             else
               let context := fixContext (filename file) pullRequest in
               analysis <- MCPClient.analyzeCode env content context ;;
               if length (issues analysis) =? 0 then ret failed
               else
                 let fixableIssues := filter isAutoFixable (issues analysis) in
                 if length fixableIssues =? 0 then ret failed
                 else
                   fixedContent <- MCPClient.generateFixes env fixableIssues content context ;;
                   match fixedContent with
                   | None => ret failed
                   | Some fixed =>
                       if noFix fixedContent content then ret failed
                       else
                         writeFileContent (filename file) fixed ;;
                         ret {| success := true; fixesApplied := length fixableIssues |}
                   end
       end)
    (fun _ => ret failed).

(** The counters [fixedFiles] and [totalFixes] after one more outcome. *)
Definition tally (counts : nat * nat) (result : FixOutcome) : nat * nat :=
  let '(fixedFiles, totalFixes) := counts in
  if success result then (fixedFiles + 1, totalFixes + fixesApplied result)
  else counts.

(** [applySpecificFixes] once [issues] is bound. *)
Definition applySpecificFixesOn (issues : list Issue) (pullRequest : PullRequest) : M unit :=
  if length issues =? 0 then
    postFixComment noIssuesMessage
  else
    issuesByFile <- lift (groupIssuesByFile issues) ;;
    counts <- forOfAcc (JsObject.entries issuesByFile) (0, 0)
                (fun counts entry =>
                   let '(filename, fileIssues) := entry in
                   result <- fixFileIssues filename fileIssues pullRequest ;;
                   ret (tally counts result)) ;;
    postFixSummary (fst counts) (snd counts) (length (JsObject.keys issuesByFile)).

(** Apply specific fixes based on targeted issues. *)
Definition applySpecificFixes (fixRequest : FixRequest) (pullRequest : PullRequest) : M unit :=
  tryCatch
    (issues <- extractIssuesFromComments ;;
     applySpecificFixesOn issues pullRequest)
    (fun error => throw error).

(** Apply general fixes to all files in the PR. *)
Definition applyGeneralFixes (pullRequest : PullRequest) : M unit :=
  tryCatch
    (files <- GitHubClient.getPullRequestFiles env prNumber ;;
     let filteredFiles := filterFiles files in
     counts <- forOfAcc (slice0 config.fixBot.maxChangesPerRun filteredFiles) (0, 0)
                 (fun counts file =>
                    result <- analyzeAndFixFile file pullRequest ;;
                    ret (tally counts result)) ;;
     postFixSummary (fst counts) (snd counts) (length filteredFiles))
    (fun error => throw error).

(** Main entry point for processing fix requests. *)
Definition processFixRequest : M unit :=
  tryCatch
    (MCPClient.initialize ;;
     isHealthy <- MCPClient.healthCheck env ;;
     if negb isHealthy then throw "MCP connection health check failed"
     else
       let fixRequest := parseFixRequest commentBody in
       if negb (shouldFix fixRequest) then ret tt
       else
         pullRequest <- GitHubClient.getPullRequest env prNumber ;;
         match req_type fixRequest with
         | Some type =>
             if String.eqb type "specific" then applySpecificFixes fixRequest pullRequest
             else if String.eqb type "general" then applyGeneralFixes pullRequest
             else ret tt
         | None => ret tt
         end)
    (fun error => postErrorComment error).

End Bot.
End FixBot.

(** ** Entry points (review-bot/index.js, fix-bot/index.js, src/index.js) *)

(** The environment variables the constructors read. *)
Record ProcessEnv := {
  PR_NUMBER : option string;
  COMMENT_BODY : option string;
  GITHUB_TOKEN : option string;
  CLAUDE_API_KEY : option string
}.

(** [new MCPClient()], [new GitHubClient()] and the check of [PR_NUMBER]:
    the value of [this.prNumber], or the error a constructor throws. *)
Definition construct (penv : ProcessEnv) : Result string :=
  if negb (Str.truthyOpt (CLAUDE_API_KEY penv)) then
    Throw "CLAUDE_API_KEY environment variable is required"
  else if negb (Str.truthyOpt (GITHUB_TOKEN penv)) then
    Throw "GITHUB_TOKEN environment variable is required"
  else match PR_NUMBER penv with
       | Some prNumber =>
           if Str.truthy prNumber then Ok prNumber
           else Throw "PR_NUMBER environment variable is required"
       | None => Throw "PR_NUMBER environment variable is required"
       end.

(** The code the process exits with. *)
Definition exitCode {A} (outcome : Result A * Trace) : nat * Trace :=
  match outcome with
  | (Ok _, tr) => (0, tr)
  | (Throw _, tr) => (1, tr)
  end.

Module ReviewMain.
(** [main] of review-bot/index.js. *)
Definition main (env : Env) (penv : ProcessEnv) (tr : Trace) : nat * Trace :=
  exitCode ((prNumber <- lift (construct penv) ;;
             ReviewBot.reviewPullRequest env prNumber) tr).
End ReviewMain.

Module FixMain.
(** [main] of fix-bot/index.js. *)
Definition main (env : Env) (penv : ProcessEnv) (tr : Trace) : nat * Trace :=
  exitCode ((prNumber <- lift (construct penv) ;;
             FixBot.processFixRequest env prNumber
               (match COMMENT_BODY penv with
                | Some c => if Str.truthy c then c else EmptyString
                | None => EmptyString
                end)) tr).
End FixMain.

Module LetThemReview.
(** Run ReviewBot for code analysis: what it catches it throws again. *)
Definition runReviewBot (env : Env) (penv : ProcessEnv) : M unit :=
  tryCatch
    (prNumber <- lift (construct penv) ;;
     ReviewBot.reviewPullRequest env prNumber)
    (fun error => throw error).

(** [runCommand] for the command [review]: the process ends with code 0
    unless the [catch] calls [process.exit(1)]. *)
Definition runCommandReview (env : Env) (penv : ProcessEnv) (tr : Trace) : nat * Trace :=
  exitCode (runReviewBot env penv tr).
End LetThemReview.

(** ** Vocabulary of the properties *)

(** The four requests [parseFixRequest] can return. *)
Definition noRequest : FixRequest :=
  {| shouldFix := false; req_type := None; scope := None |}.
Definition generalAll : FixRequest :=
  {| shouldFix := true; req_type := Some "general"; scope := Some "all" |}.
Definition specificTargeted : FixRequest :=
  {| shouldFix := true; req_type := Some "specific"; scope := Some "targeted" |}.
Definition generalSuggested : FixRequest :=
  {| shouldFix := true; req_type := Some "general"; scope := Some "suggested" |}.

(** The issues of a list filed under a key, in their order. *)
Definition filedUnder (key : string) (issues : list Issue) : list Issue :=
  filter (fun issue => String.eqb (propertyKey (issue_filename issue)) key) issues.

(** A key that names a member of [Object.prototype]. *)
Definition inheritedKey (issue : Issue) : bool :=
  Array_includes JsObject.objectPrototypeKeys (propertyKey (issue_filename issue)).

(** The groups hold exactly the issues seen so far. *)
Definition groupsOf (groups : JsObject.t (list Issue)) (seen : list Issue) : Prop :=
  NoDup (map fst groups) /\
  forall key,
    JsObject.own groups key =
    match filedUnder key seen with
    | [] => None
    | group => Some group
    end.

(** An issue of the file [name]. *)
Definition issueIn (name : string) : Issue :=
  {| issue_filename := Some name;
     issue_type := "style";
     issue_severity := "low";
     issue_line := Some 1;
     issue_description := "Missing semicolon";
     issue_suggestion := "Add semicolon at end of statement" |}.

(** The glob semantics the specification words: a pattern matches a whole
    path, [**] stands for any run of characters, [*] for any run of
    characters other than the separator, any other character for itself. *)
Module GlobSpec.

Inductive Token := AnyRun | SegmentRun | Char (c : ascii).

Fixpoint tokens (pattern : string) : list Token :=
  match pattern with
  | EmptyString => []
  | String c r =>
      match r with
      | String d r' =>
          if Ascii.eqb c "*" && Ascii.eqb d "*" then AnyRun :: tokens r'
          else (if Ascii.eqb c "*" then SegmentRun else Char c) :: tokens r
      | EmptyString => [if Ascii.eqb c "*" then SegmentRun else Char c]
      end
  end.

Fixpoint matchTokens (ts : list Token) (path : string) : bool :=
  match ts with
  | [] => match path with EmptyString => true | _ => false end
  | Char c :: ts' =>
      match path with
      | String a path' => Ascii.eqb a c && matchTokens ts' path'
      | EmptyString => false
      end
  | SegmentRun :: ts' =>
      (fix run (path : string) : bool :=
         matchTokens ts' path ||
         match path with
         | String a path' => negb (Ascii.eqb a "/") && run path'
         | EmptyString => false
         end) path
  | AnyRun :: ts' =>
      (fix run (path : string) : bool :=
         matchTokens ts' path ||
         match path with
         | String _ path' => run path'
         | EmptyString => false
         end) path
  end.

Definition matches (pattern path : string) : bool :=
  matchTokens (tokens pattern) path.

End GlobSpec.

(** A modified file at [path]. *)
Definition fileAt (path : string) : File :=
  {| filename := path; status := "modified"; additions := 1; deletions := 1;
     patch := Some "+x" |}.

(** An issue of high severity. *)
Definition isHigh (issue : Issue) : bool := String.eqb (issue_severity issue) "high".

(** All issues of all results. *)
Definition allIssues (reviews : list Review) : list Issue :=
  flat_map (fun review => issues (analysis review)) reviews.

(** [file.patch || ''] *)
Definition patchText (file : File) : string :=
  match patch file with Some p => p | None => EmptyString end.

(** Unfolding of the combinators of [M]. *)
Ltac unfold_js :=
  unfold bind, tryCatch, call, lift, ret, throw in *.

(** ** A stub environment for the examples *)

Module Stub.

(** The double quote. *)
Definition dq : string := String (ascii_of_nat 34) EmptyString.

Definition q (s : string) : string := dq ++ s ++ dq.

(** A reply with one text block. *)
Definition reply (s : string) : Response := {| content := [ {| text := Some s |} ] |}.

Definition finding : Issue :=
  {| issue_filename := None;
     issue_type := "style";
     issue_severity := "low";
     issue_line := Some 1;
     issue_description := "d";
     issue_suggestion := "g" |}.

Definition analysisObject : AnalysisResult :=
  {| summary := "s";
     issues := [finding];
     overallRating := "good";
     recommendations := [] |}.

(** The JSON text of [analysisObject]. *)
Definition analysisJson : string :=
  "{" ++ q "summary" ++ ":" ++ q "s" ++ "," ++
  q "issues" ++ ":[{" ++ q "type" ++ ":" ++ q "style" ++ "," ++
  q "severity" ++ ":" ++ q "low" ++ "," ++ q "line" ++ ":1," ++
  q "description" ++ ":" ++ q "d" ++ "," ++ q "suggestion" ++ ":" ++ q "g" ++ "}]," ++
  q "overallRating" ++ ":" ++ q "good" ++ "," ++ q "recommendations" ++ ":[]}".

(** [JSON.parse] on the texts the examples hand to it: the text above, and
    texts that are not JSON, on which it throws. *)
Definition parse (s : string) : option AnalysisResult :=
  if String.eqb s analysisJson then Some analysisObject else None.

(** An environment in which the model is healthy, every file reads as
    [let a = 1], and comments, reviews and writes succeed. *)
Definition env (pullRequest : Result PullRequest) (files : Result (list File))
    (analysisReply : Result Response) (fixReply : string -> Result Response) : Env :=
  {| messages_create := fun _ prompt =>
       match prompt with
       | HealthPrompt => Ok (reply "MCP connection healthy")
       | AnalysisPrompt _ _ => analysisReply
       | FixPrompt _ originalCode _ => fixReply originalCode
       end;
     pulls_get := fun _ _ => pullRequest;
     pulls_listFiles := fun _ _ => files;
     issues_createComment := fun _ _ _ => Ok tt;
     pulls_createReview := fun _ _ _ _ => Ok tt;
     fs_readFile := fun _ _ => Ok "let a = 1";
     fs_writeFile := fun _ _ _ => Ok tt;
     JSON_parse := parse |}.

Definition pr7 : PullRequest := {| number := 7; title := "Tidy"; body := None |}.

Definition penv : ProcessEnv :=
  {| PR_NUMBER := Some "7"; COMMENT_BODY := Some "@fixbot apply";
     GITHUB_TOKEN := Some "t"; CLAUDE_API_KEY := Some "k" |}.

(** The model adds a semicolon. *)
Definition fixing (originalCode : string) : Result Response :=
  Ok (reply (originalCode ++ ";")).

(** The model returns the code as it is. *)
Definition unchanged (originalCode : string) : Result Response :=
  Ok (reply originalCode).

Definition env0 : Env := env (Ok pr7) (Ok []) (Ok (reply analysisJson)) fixing.

Definition envUnchanged : Env := env (Ok pr7) (Ok []) (Ok (reply analysisJson)) unchanged.

(** GitHub fails to return the pull request. *)
Definition envNoPullRequest : Env :=
  env (Throw "boom") (Ok []) (Ok (reply analysisJson)) fixing.

(** A file the pull request removes. *)
Definition gone : File :=
  {| filename := "gone.js"; status := "removed"; additions := 0; deletions := 3;
     patch := None |}.

(** A file the pull request modifies. *)
Definition touched : File :=
  {| filename := "a.js"; status := "modified"; additions := 1; deletions := 1;
     patch := Some "+let a = 1" |}.

(** [env0] with a working tree in which no file can be read. *)
Definition envEmptyTree : Env :=
  {| messages_create := messages_create env0;
     pulls_get := pulls_get env0;
     pulls_listFiles := pulls_listFiles env0;
     issues_createComment := issues_createComment env0;
     pulls_createReview := pulls_createReview env0;
     fs_readFile := fun _ _ => Throw "ENOENT: no such file or directory";
     fs_writeFile := fs_writeFile env0;
     JSON_parse := JSON_parse env0 |}.

(** A finding of high severity and a review that holds it alone. *)
Definition severe : Issue :=
  {| issue_filename := None;
     issue_type := "security";
     issue_severity := "high";
     issue_line := None;
     issue_description := "d";
     issue_suggestion := "g" |}.

Definition severeReview : Review :=
  {| file := touched;
     analysis := {| summary := "s"; issues := [severe]; overallRating := "fair";
                    recommendations := [] |};
     context := ReviewBot.reviewContext touched (Lang "javascript") pr7 |}.

(** The model is healthy but fails on every analysis. *)
Definition envModelDown : Env :=
  env (Ok pr7) (Ok [touched]) (Throw "overloaded") fixing.

End Stub.

(** ** Further vocabulary *)

(** The characters of a string. *)
Fixpoint chars (s : string) : list ascii :=
  match s with
  | EmptyString => []
  | String c r => c :: chars r
  end.

(** A pattern without any syntax character of regular expressions, so
    also without a star. *)
Definition plainPattern (pattern : string) : bool :=
  forallb (fun c => negb (Glob.isSyntaxCharacter c)) (chars pattern).

(** A word in the sense of [\w+], or nothing. *)
Definition wordOrEmpty (s : string) : bool := forallb MCPClient.isWord (chars s).

(** The fence that opens a block of code and the line feed and fence that
    close it. *)
Definition openingFence : string := "```".
Definition closingFence : string := nl ++ "```".

(** ** The text of an issue comment (review-bot/reviewBot.js) *)

Module IssueText.

Definition ratingEmojiMap : JsObject.t string :=
  [ ("excellent", "🟢"); ("good", "🔵"); ("fair", "🟡");
    ("needs-improvement", "🔴"); ("unknown", "⚪") ].

Definition typeEmojiMap : JsObject.t string :=
  [ ("bug", "🐛"); ("security", "🔒"); ("performance", "⚡"); ("style", "🎨");
    ("refactor", "♻️"); ("architecture", "🏗️"); ("documentation", "📚") ].

Definition severityEmojiMap : JsObject.t string :=
  [ ("high", "🔴"); ("medium", "🟡"); ("low", "🟢") ].

(** The last line of every issue comment. *)
Definition fixHint : string :=
  "🤖 *To apply an automated fix, reply with `@fixbot apply`*".

Section Text.

(** Two built-ins the embedding does not fix: [toUpperCase], whose results
    leave the eight-bit code units, and the text that a member of
    [Object.prototype] turns into when it is interpolated. *)
Variable toUpperCase : string -> string.
Variable memberText : string -> string.

(** [emojiMap[key] || fallback], as interpolated into a template. *)
Definition emojiOr (emojiMap : JsObject.t string) (key fallback : string) : string :=
  match JsObject.get emojiMap key with
  | JsObject.Own emoji => if Str.truthy emoji then emoji else fallback
  | JsObject.Inherited => memberText key
  | JsObject.Undefined => fallback
  end.

(** Get emoji for rating. *)
Definition getRatingEmoji (rating : string) : string :=
  emojiOr ratingEmojiMap rating "⚪".

(** Get emoji for issue type. *)
Definition getTypeEmoji (type : string) : string :=
  emojiOr typeEmojiMap type "⚠️".

(** Get emoji for severity. *)
Definition getSeverityEmoji (severity : string) : string :=
  emojiOr severityEmojiMap severity "⚪".

(** Build issue comment text. *)
Definition buildIssueComment (issue : Issue) (filename : string) : string :=
  let typeEmoji := getTypeEmoji (issue_type issue) in
  let severityEmoji := getSeverityEmoji (issue_severity issue) in
  let comment :=
    "## " ++ typeEmoji ++ " " ++ toUpperCase (issue_type issue) ++ " "
    ++ severityEmoji ++ nl ++ nl in
  let comment := comment ++ ("**File:** `" ++ filename ++ "`" ++ nl) in
  let comment :=
    match issue_line issue with
    | Some (S n) => comment ++ ("**Line:** " ++ decimal (S n) ++ nl)
    | _ => comment
    end in
  let comment := comment ++ ("**Severity:** " ++ issue_severity issue ++ nl ++ nl) in
  let comment := comment ++ ("**Issue:** " ++ issue_description issue ++ nl ++ nl) in
  let comment := comment ++ ("**Suggestion:** " ++ issue_suggestion issue ++ nl ++ nl) in
  let comment := comment ++ ("---" ++ nl) in
  comment ++ fixHint.

End Text.
End IssueText.

(** An issue with another [line]. *)
Definition withLine (line : option nat) (issue : Issue) : Issue :=
  {| issue_filename := issue_filename issue;
     issue_type := issue_type issue;
     issue_severity := issue_severity issue;
     issue_line := line;
     issue_description := issue_description issue;
     issue_suggestion := issue_suggestion issue |}.

(** ** Vocabulary of the runs *)

(** The comments [postFileComments] posts: one for each issue of each
    review, file by file. *)
Definition issueComments (prNumber : string) (reviews : list Review) : list Event :=
  flat_map
    (fun review =>
       map (fun issue =>
              IssuesCreateComment prNumber
                (IssueComment issue (filename (file review))))
           (issues (analysis review)))
    reviews.

(** The text [postSummaryComment] posts. *)
Definition summaryNote (message : string) : string :=
  "## 🤖 ReviewBot" ++ nl ++ nl ++ message.

(** The text of the error comment of FixBot. *)
Definition fixErrorComment (errorMessage : string) : string :=
  "## ❌ FixBot Error" ++ nl ++ nl ++
  "An error occurred while applying fixes:" ++ nl ++ nl ++
  "```" ++ nl ++ errorMessage ++ nl ++ "```" ++ nl ++ nl ++
  "Please check the action logs for more details.".

(** ** More stub environments *)

Module Stub2.

(** A pull request that touches vendored and generated files only. *)
Definition envVendored : Env :=
  Stub.env (Ok Stub.pr7)
           (Ok [fileAt "node_modules/left-pad/index.js"; fileAt "yarn.lock"])
           (Ok (Stub.reply Stub.analysisJson)) Stub.fixing.

(** The model does not answer. *)
Definition envUnhealthy : Env :=
  {| messages_create := fun _ _ => Throw "connect ETIMEDOUT";
     pulls_get := pulls_get Stub.env0;
     pulls_listFiles := pulls_listFiles Stub.env0;
     issues_createComment := issues_createComment Stub.env0;
     pulls_createReview := pulls_createReview Stub.env0;
     fs_readFile := fs_readFile Stub.env0;
     fs_writeFile := fs_writeFile Stub.env0;
     JSON_parse := JSON_parse Stub.env0 |}.

End Stub2.

(** ** Kinds of events and what a fix of one file may do *)

Definition isRead (ev : Event) : bool :=
  match ev with FsReadFile _ => true | _ => false end.

Definition isReview (ev : Event) : bool :=
  match ev with PullsCreateReview _ _ _ => true | _ => false end.

(** The number of events of one kind. *)
Definition count (p : Event -> bool) (events : list Event) : nat :=
  length (filter p events).

(** The events the blanket fix of [file] may add: a read or a write of
    that file, an analysis of it, or a request to fix issues of it that are
    all auto-fixable; and none at all for a file with more than 500 changed
    lines, and nothing but the read for a language that is not supported. *)
Definition fixEventOf (pullRequest : PullRequest) (file : File) (ev : Event) : Prop :=
  additions file + deletions file <= 500 /\
  match ev with
  | FsReadFile path => path = filename file
  | MessagesCreate (AnalysisPrompt _ context) =>
      context = FixBot.fixContext (filename file) pullRequest /\
      supportedLanguage (detectLanguage (filename file)) = true
  | MessagesCreate (FixPrompt issues _ context) =>
      context = FixBot.fixContext (filename file) pullRequest /\
      supportedLanguage (detectLanguage (filename file)) = true /\
      issues <> [] /\ forallb isAutoFixable issues = true
  | FsWriteFile path _ =>
      path = filename file /\
      supportedLanguage (detectLanguage (filename file)) = true
  | _ => False
  end.

(** The loop of [applyGeneralFixes]. *)
Definition generalFixLoop (env : Env) (pullRequest : PullRequest)
    (files : list File) (counts : nat * nat) : M (nat * nat) :=
  forOfAcc files counts
    (fun counts file =>
       result <- FixBot.analyzeAndFixFile env file pullRequest ;;
       ret (FixBot.tally counts result)).

(** A fifth stub: one file to fix and one vendored file. *)
Module Stub3.
Definition envMixed : Env :=
  Stub.env (Ok Stub.pr7) (Ok [Stub.touched; fileAt "node_modules/x.js"])
           (Ok (Stub.reply Stub.analysisJson)) Stub.fixing.
End Stub3.

(** ** What a review of one file may do *)

(** A file that [analyzeFile] sends to the model. *)
Definition eligible (file : File) : Prop :=
  additions file + deletions file <= 1000 /\
  (status file = "added" \/ status file = "modified") /\
  Str.trim (patchText file) <> EmptyString.

(** The request [analyzeFile] makes for a file. *)
Definition reviewPrompt (pullRequest : PullRequest) (file : File) : Prompt :=
  AnalysisPrompt (patchText file)
    (ReviewBot.reviewContext file (detectLanguage (filename file)) pullRequest).

(** The loop of [reviewPullRequest]. *)
Definition reviewLoop (env : Env) (pullRequest : PullRequest)
    (files : list File) (reviews : list Review) : M (list Review) :=
  forOfAcc files reviews
    (fun reviews file =>
       review <- ReviewBot.analyzeFile env file pullRequest ;;
       ret (match review with
            | Some r => (reviews ++ [r])%list
            | None => reviews
            end)).

(** The review [generateSummary] posts. *)
Definition summaryReview (prNumber : string) (reviews : list Review)
    (pullRequest : PullRequest) : Event :=
  let total := ReviewBot.totalIssuesOf reviews in
  let high := ReviewBot.highSeverityIssuesOf reviews in
  PullsCreateReview prNumber
    (SummaryComment reviews pullRequest
       (fst (ReviewBot.assessment total high)) (snd (ReviewBot.assessment total high))
       total high)
    (ReviewBot.reviewEvent high).

(** [reviewPullRequest] from the filtering of the files on. *)
Definition reviewRest (env : Env) (prNumber : string) (pullRequest : PullRequest)
    (files : list File) : M unit :=
  let filteredFiles := filterFiles files in
  if length filteredFiles =? 0 then
    ReviewBot.postSummaryComment env prNumber "No reviewable files found in this PR."
  else
    let filesToReview := slice0 config.reviewBot.maxFilesPerReview filteredFiles in
    reviews <- reviewLoop env pullRequest filesToReview [] ;;
    ReviewBot.generateSummary env prNumber reviews pullRequest ;;
    ReviewBot.postFileComments env prNumber reviews.

(** The requests of a review loop over [files]. *)
Definition reviewRequestOf (pullRequest : PullRequest) (files : list File)
    (ev : Event) : Prop :=
  exists artifact,
    In artifact files /\ eligible artifact /\
    ev = MessagesCreate (reviewPrompt pullRequest artifact).

(** A review in the result of a review loop over [files]. *)
Definition reviewOf (files : list File) (r : Review) : Prop :=
  In (file r) files /\ eligible (file r).

(** ** Comments among the events *)

Definition isComment (ev : Event) : bool :=
  match ev with IssuesCreateComment _ _ => true | _ => false end.

(** ** The steps of a review run *)

(** The statements inside the [try] of [reviewPullRequest]. *)
Definition reviewSteps (env : Env) (prNumber : string) : M unit :=
  MCPClient.initialize ;;
  isHealthy <- MCPClient.healthCheck env ;;
  if negb isHealthy then throw "MCP connection health check failed"
  else
    pullRequest <- GitHubClient.getPullRequest env prNumber ;;
    files <- GitHubClient.getPullRequestFiles env prNumber ;;
    reviewRest env prNumber pullRequest files.

(** The three tests a file passes before [analyzeFile] asks the model. *)
Definition eligibleb (file : File) : bool :=
  negb (1000 <? additions file + deletions file)
  && (String.eqb (status file) "added" || String.eqb (status file) "modified")
  && Str.truthy (Str.trim (patchText file)).

(** The requests of a review loop over [files], in their order. *)
Definition reviewRequests (pullRequest : PullRequest) (files : list File) : list Event :=
  map (fun file => MessagesCreate (reviewPrompt pullRequest file))
      (filter eligibleb files).

(** * Properties *)

(** ** Facts about the string built-ins *)

Module StrFacts.
Import Str.

Lemma startsWith_spec s t :
  startsWith s t = true <-> exists b, s = t ++ b.
Proof.
  revert s. induction t as [|c t IH]; intros s; simpl.
  - split; [intros _; now exists s | intros _; now destruct s].
  - destruct s as [|a s]; simpl.
    + split; [discriminate | intros [b Hb]; discriminate].
    + rewrite andb_true_iff, Ascii.eqb_eq, IH. split.
      * intros [-> [b ->]]. now exists b.
      * intros [b Hb]. injection Hb as -> ->. split; [reflexivity | now exists b].
Qed.

Lemma includes_spec s t : includes s t = true <-> Contains s t.
Proof.
  unfold Contains. induction s as [|c s IH]; simpl.
  - rewrite orb_false_r, startsWith_spec. split.
    + intros [b Hb]. now exists EmptyString, b.
    + intros [a [b Hab]]. destruct a; [now exists b | discriminate].
  - rewrite orb_true_iff, startsWith_spec, IH. split.
    + intros [[b Hb] | [a [b Hab]]].
      * now exists EmptyString, b.
      * exists (String c a), b. simpl. now rewrite Hab.
    + intros [a [b Hab]]. destruct a as [|a0 a]; simpl in Hab.
      * left. now exists b.
      * right. injection Hab as _ Hs. now exists a, b.
Qed.

Lemma append_assoc (a b c : string) : (a ++ b) ++ c = a ++ b ++ c.
Proof. induction a; simpl; [reflexivity | now rewrite IHa]. Qed.

Lemma Contains_trans s t u : Contains s t -> Contains t u -> Contains s u.
Proof.
  intros [a [b ->]] [a' [b' ->]]. exists (a ++ a'), (b' ++ b).
  now rewrite !append_assoc.
Qed.

Lemma includes_trans s t u :
  includes s t = true -> includes t u = true -> includes s u = true.
Proof. rewrite !includes_spec. apply Contains_trans. Qed.

End StrFacts.

Lemma Array_includes_In arr x : Array_includes arr x = true <-> In x arr.
Proof.
  unfold Array_includes. rewrite existsb_exists. split.
  - intros [y [Hy Heq]]. apply String.eqb_eq in Heq. now subst.
  - intros H. exists x. split; [assumption | apply String.eqb_refl].
Qed.

(** ** Trigger parsing *)

Lemma includes_false_iff s t : Str.includes s t = false <-> ~ Str.Contains s t.
Proof.
  rewrite <- StrFacts.includes_spec. destruct (Str.includes s t); split; congruence.
Qed.

(** The chain of conditions of [parseFixRequest], in terms of the substring
    relation on the lower-cased comment. *)
Lemma parseFixRequest_classification (c : string) :
  let n := Str.toLowerCase c in
  (~ Str.Contains n "@fixbot" -> parseFixRequest c = noRequest) /\
  (Str.Contains n "@fixbot" ->
   (Str.Contains n "apply" \/ Str.Contains n "fix") ->
   Str.Contains n "all" -> parseFixRequest c = generalAll) /\
  (Str.Contains n "@fixbot" ->
   (Str.Contains n "apply" \/ Str.Contains n "fix") ->
   ~ Str.Contains n "all" -> parseFixRequest c = specificTargeted) /\
  (Str.Contains n "@fixbot" ->
   ~ Str.Contains n "apply" -> ~ Str.Contains n "fix" ->
   parseFixRequest c = generalSuggested).
Proof.
  intros n. unfold parseFixRequest. fold n.
  repeat split.
  - intros H. apply includes_false_iff in H. now rewrite H.
  - intros Hm Hk Ha. apply StrFacts.includes_spec in Hm, Ha. rewrite Hm, Ha. simpl.
    destruct Hk as [Hk | Hk]; apply StrFacts.includes_spec in Hk; rewrite Hk;
      [reflexivity | now rewrite orb_true_r].
  - intros Hm Hk Ha. apply StrFacts.includes_spec in Hm.
    apply includes_false_iff in Ha. rewrite Hm, Ha. simpl.
    destruct Hk as [Hk | Hk]; apply StrFacts.includes_spec in Hk; rewrite Hk;
      [reflexivity | now rewrite orb_true_r].
  - intros Hm Hap Hf. apply StrFacts.includes_spec in Hm.
    apply includes_false_iff in Hap, Hf. now rewrite Hm, Hap, Hf.
Qed.

(** The examples of the specification that the code agrees with. *)
Lemma parseFixRequest_examples :
  parseFixRequest "please @fixbot apply all" = generalAll /\
  parseFixRequest "@fixbot fix this" = specificTargeted /\
  parseFixRequest "looks good" = noRequest /\
  parseFixRequest "@FixBot APPLY" = specificTargeted.
Proof. repeat split; reflexivity. Qed.

(** The mention token carries the keyword [fix] inside it. *)
Lemma mention_includes_fix (n : string) :
  Str.includes n "@fixbot" = true -> Str.includes n "fix" = true.
Proof.
  intros H. apply (StrFacts.includes_trans n "@fixbot" "fix" H). reflexivity.
Qed.

(** So the last branch of [parseFixRequest] is never taken. *)
Lemma parseFixRequest_never_suggested (c : string) :
  parseFixRequest c <> generalSuggested.
Proof.
  unfold parseFixRequest.
  destruct (Str.includes (Str.toLowerCase c) "@fixbot") eqn:Hm; simpl.
  - rewrite (mention_includes_fix _ Hm), orb_true_r.
    destruct (Str.includes (Str.toLowerCase c) "all"); discriminate.
  - discriminate.
Qed.

(** C1. A comment that is the bare mention [@fixbot] is classified as a
    specific request with scope [targeted], that is intent targeted, and not
    as a general request with scope [suggested]: the mention token itself
    contains [fix], and for the same reason no comment at all reaches the
    default branch that returns scope [suggested]. *)
Theorem parseFixRequest_bare_mention :
  parseFixRequest "@fixbot" = specificTargeted /\
  intentOf (parseFixRequest "@fixbot") = Targeted /\
  parseFixRequest "@fixbot" <> generalSuggested /\
  (forall c, scope (parseFixRequest c) <> Some "suggested").
Proof.
  repeat split; try reflexivity; try discriminate.
  intros c. unfold parseFixRequest.
  destruct (Str.includes (Str.toLowerCase c) "@fixbot") eqn:Hm; simpl.
  - rewrite (mention_includes_fix _ Hm), orb_true_r.
    destruct (Str.includes (Str.toLowerCase c) "all"); discriminate.
  - discriminate.
Qed.

(** ** Risk policy *)

(** C2. An issue is auto-fixable exactly when its type is one of style,
    performance and refactor and its severity is not high; so it is not
    auto-fixable when its severity is high, whatever its type, nor when its
    type is outside that set; and the issues the fixer works on are exactly
    the auto-fixable ones of the analysis, in their order. *)
Theorem isAutoFixable_policy :
  (forall issue,
     isAutoFixable issue = true <->
     In (issue_type issue) ["style"; "performance"; "refactor"]
     /\ issue_severity issue <> "high") /\
  (forall issue, issue_severity issue = "high" -> isAutoFixable issue = false) /\
  (forall issue,
     ~ In (issue_type issue) ["style"; "performance"; "refactor"] ->
     isAutoFixable issue = false) /\
  (forall analysis issue,
     In issue (fixableIssuesOf analysis) <->
     In issue (issues analysis) /\ isAutoFixable issue = true).
Proof.
  assert (Hiff : forall issue,
     isAutoFixable issue = true <->
     In (issue_type issue) ["style"; "performance"; "refactor"]
     /\ issue_severity issue <> "high").
  { intros issue. unfold isAutoFixable.
    rewrite andb_true_iff, Array_includes_In, negb_true_iff, String.eqb_neq.
    reflexivity. }
  split; [exact Hiff | split; [| split]].
  - intros issue Hhigh. destruct (isAutoFixable issue) eqn:E; [|reflexivity].
    apply Hiff in E. tauto.
  - intros issue Hnot. destruct (isAutoFixable issue) eqn:E; [|reflexivity].
    apply Hiff in E. tauto.
  - intros analysis issue. unfold fixableIssuesOf. rewrite filter_In. reflexivity.
Qed.

(** The premises of C2 are met by the mock issue and by a severe one. *)
Lemma isAutoFixable_policy_witness :
  isAutoFixable Stub.finding = true /\ isAutoFixable Stub.severe = false.
Proof.
  split.
  - apply (proj1 isAutoFixable_policy Stub.finding). split.
    + left. reflexivity.
    + discriminate.
  - apply (proj1 (proj2 isAutoFixable_policy) Stub.severe). reflexivity.
Defined.

(** ** Grouping issues by file *)

Module JsObjectFacts.
Import JsObject.

Lemma own_set_same {V} (obj : t V) key v : own (set obj key v) key = Some v.
Proof.
  induction obj as [|[k w] rest IH]; simpl.
  - now rewrite String.eqb_refl.
  - destruct (String.eqb k key) eqn:E; simpl; rewrite E; [reflexivity | exact IH].
Qed.

Lemma own_set_other {V} (obj : t V) key key' v :
  key <> key' -> own (set obj key v) key' = own obj key'.
Proof.
  intros Hne. induction obj as [|[k w] rest IH]; simpl.
  - apply String.eqb_neq in Hne. now rewrite Hne.
  - destruct (String.eqb k key) eqn:E; simpl.
    + apply String.eqb_eq in E. subst k.
      apply String.eqb_neq in Hne. now rewrite Hne.
    + destruct (String.eqb k key'); [reflexivity | exact IH].
Qed.

Lemma own_None_notin {V} (obj : t V) key :
  own obj key = None <-> ~ In key (map fst obj).
Proof.
  induction obj as [|[k w] rest IH]; simpl.
  - tauto.
  - destruct (String.eqb k key) eqn:E.
    + apply String.eqb_eq in E. split; [discriminate | tauto].
    + apply String.eqb_neq in E. rewrite IH. tauto.
Qed.

Lemma keys_set {V} (obj : t V) key v :
  map fst (set obj key v) =
  match own obj key with
  | Some _ => map fst obj
  | None => (map fst obj ++ [key])%list
  end.
Proof.
  induction obj as [|[k w] rest IH]; simpl.
  - reflexivity.
  - destruct (String.eqb k key) eqn:E; simpl.
    + reflexivity.
    + rewrite IH. now destruct (own rest key).
Qed.

Lemma NoDup_set {V} (obj : t V) key v :
  NoDup (map fst obj) -> NoDup (map fst (set obj key v)).
Proof.
  intros Hnd. rewrite keys_set. destruct (own obj key) eqn:E; [assumption|].
  apply own_None_notin in E.
  apply NoDup_app; [assumption | repeat constructor; simpl; tauto |].
  intros x Hx [<- | []]. contradiction.
Qed.

End JsObjectFacts.

Lemma filedUnder_snoc key seen issue :
  filedUnder key (seen ++ [issue]) =
  (filedUnder key seen ++
   if String.eqb (propertyKey (issue_filename issue)) key then [issue] else [])%list.
Proof. unfold filedUnder. rewrite filter_app. reflexivity. Qed.

Lemma groupStep_ok groups seen issue :
  groupsOf groups seen -> inheritedKey issue = false ->
  exists groups',
    groupStep groups issue = Ok groups' /\ groupsOf groups' (seen ++ [issue]).
Proof.
  intros [Hnd Hown] Hkey. unfold groupStep, JsObject.get.
  unfold inheritedKey in Hkey. rewrite Hkey.
  set (k := propertyKey (issue_filename issue)) in *.
  pose proof (Hown k) as Hk.
  destruct (JsObject.own groups k) as [arr|] eqn:E; eexists; (split; [reflexivity|]);
    (split; [now apply JsObjectFacts.NoDup_set|]);
    intros key; rewrite filedUnder_snoc; fold k;
    destruct (String.eqb k key) eqn:Ek.
  - apply String.eqb_eq in Ek. subst key. rewrite JsObjectFacts.own_set_same.
    destruct (filedUnder k seen); [discriminate|]. injection Hk as ->. reflexivity.
  - apply String.eqb_neq in Ek. rewrite JsObjectFacts.own_set_other by assumption.
    rewrite Hown, app_nil_r. reflexivity.
  - apply String.eqb_eq in Ek. subst key. rewrite JsObjectFacts.own_set_same.
    destruct (filedUnder k seen); [reflexivity | discriminate].
  - apply String.eqb_neq in Ek. rewrite JsObjectFacts.own_set_other by assumption.
    rewrite Hown, app_nil_r. reflexivity.
Qed.

Lemma reduce_groupStep_ok rest : forall groups seen,
  groupsOf groups seen ->
  (forall issue, In issue rest -> inheritedKey issue = false) ->
  exists groups',
    reduce groupStep rest groups = Ok groups' /\ groupsOf groups' (seen ++ rest).
Proof.
  induction rest as [|issue rest IH]; intros groups seen Hinv Hkeys; simpl.
  - exists groups. now rewrite app_nil_r.
  - destruct (groupStep_ok groups seen issue Hinv) as [groups1 [E1 Hinv1]].
    { apply Hkeys. now left. }
    rewrite E1.
    destruct (IH groups1 (seen ++ [issue])%list Hinv1) as [groups' [E' Hinv']].
    { intros i Hi. apply Hkeys. now right. }
    exists groups'. split; [exact E' |]. now rewrite <- app_assoc in Hinv'.
Qed.

(** When no file name is the name of a member of [Object.prototype], the
    grouping is a partition of the input: the keys are distinct, the group
    under a key is the list of the issues with that file name in their
    input order, and no group is empty. *)
Lemma groupIssuesByFile_partition (issues : list Issue) :
  (forall issue, In issue issues -> inheritedKey issue = false) ->
  exists groups,
    groupIssuesByFile issues = Ok groups /\
    NoDup (map fst groups) /\
    (forall key group,
       JsObject.own groups key = Some group <->
       group = filedUnder key issues /\ group <> []) /\
    (forall issue, In issue issues ->
       exists group,
         JsObject.own groups (propertyKey (issue_filename issue)) = Some group /\
         In issue group).
Proof.
  intros Hkeys.
  destruct (reduce_groupStep_ok issues [] []) as [groups [E [Hnd Hown]]];
    [split; [constructor | reflexivity] | exact Hkeys |].
  simpl in Hown. exists groups. split; [exact E | split; [exact Hnd | split]].
  - intros key group. rewrite Hown. destruct (filedUnder key issues) eqn:F.
    + split; [discriminate | intros [-> H]; congruence].
    + split; [intros [= <-]; split; [reflexivity | discriminate] | intros [-> _]; reflexivity].
  - intros issue Hin. rewrite Hown.
    assert (Hm : In issue (filedUnder (propertyKey (issue_filename issue)) issues)).
    { apply filter_In. split; [assumption | apply String.eqb_refl]. }
    destruct (filedUnder (propertyKey (issue_filename issue)) issues) eqn:F;
      [destruct Hm | eexists; split; [reflexivity | exact Hm]].
Qed.

(** No inherited name ever becomes an own property of the groups. *)
Lemma reduce_groupStep_throws rest : forall groups,
  (forall key, Array_includes JsObject.objectPrototypeKeys key = true ->
               JsObject.own groups key = None) ->
  (exists issue, In issue rest /\ inheritedKey issue = true) ->
  reduce groupStep rest groups = Throw "groups[filename].push is not a function".
Proof.
  induction rest as [|issue rest IH]; intros groups Hnone [bad [Hin Hbad]].
  - destruct Hin.
  - simpl. unfold groupStep at 1. unfold JsObject.get.
    destruct (inheritedKey issue) eqn:Hk.
    + unfold inheritedKey in Hk. rewrite (Hnone _ Hk), Hk. reflexivity.
    + assert (Hrest : exists i, In i rest /\ inheritedKey i = true).
      { destruct Hin as [-> | Hin]; [congruence | now exists bad]. }
      unfold inheritedKey in Hk. rewrite Hk.
      destruct (JsObject.own groups (propertyKey (issue_filename issue))) eqn:E;
        apply IH; try assumption;
        intros key Hkey;
        (rewrite JsObjectFacts.own_set_other; [now apply Hnone | congruence]).
Qed.

(** C10. Grouping does not return a partition for every list of issues: an
    issue of a file called [constructor] is put in no group, because the
    lookup [groups[filename]] finds the inherited member and the call of its
    [push] throws; the same happens for every list that holds an issue whose
    file name is the name of a member of [Object.prototype]. *)
Theorem groupIssuesByFile_inherited_name_throws :
  groupIssuesByFile [issueIn "constructor"]
    = Throw "groups[filename].push is not a function" /\
  groupIssuesByFile [issueIn "a.js"; issueIn "toString"; issueIn "a.js"]
    = Throw "groups[filename].push is not a function" /\
  (forall issues,
     (exists issue, In issue issues /\ inheritedKey issue = true) ->
     groupIssuesByFile issues = Throw "groups[filename].push is not a function").
Proof.
  split; [reflexivity | split; [reflexivity |]].
  intros issues H. apply reduce_groupStep_throws; [reflexivity | exact H].
Qed.

(** ** Artifact selection *)

Lemma configRegexes_compiled :
  all (fun pattern => Glob.RegExp (Glob.regexSource pattern))
      config.reviewBot.excludePatterns = Some configRegexes.
Proof. reflexivity. Qed.

(** What does hold of the selection for every list of expressions: it keeps
    the input order, holds no file an expression matches, and is the first
    [maxCount] survivors. *)
Lemma selection_order_and_bound (regexes : list Glob.Regex) (maxCount : nat)
    (files : list File) :
  let survivors := filterFilesBy regexes files in
  let selected := slice0 maxCount survivors in
  survivors = filter (fun file => negb (excluded regexes file)) files /\
  selected = firstn maxCount survivors /\
  length selected <= maxCount /\
  (exists rest, survivors = (selected ++ rest)%list) /\
  (forall file, In file selected -> In file files /\ excluded regexes file = false).
Proof.
  intros survivors selected. split; [reflexivity | split; [reflexivity | split; [| split]]].
  - apply firstn_le_length.
  - exists (skipn maxCount survivors). symmetry. apply firstn_skipn.
  - intros file Hin.
    assert (Hs : In file survivors).
    { rewrite <- (firstn_skipn maxCount survivors). apply in_or_app. now left. }
    apply filter_In in Hs. destruct Hs as [Hf Hex]. split; [assumption|].
    now apply negb_true_iff in Hex.
Qed.

(** C6. The selection returns a file whose path matches an exclusion
    pattern under the glob semantics of the specification: with the pattern
    [src/**/test.js] the file [src/a/b/test.js] survives. The second
    replacement rewrites the star of the [.*] the first one has written, so
    [**] ends up as one character followed by a run without separators. The
    same shows with the shipped patterns on the path [dist/]. *)
Theorem filterFiles_keeps_glob_match :
  GlobSpec.matches "src/**/test.js" "src/a/b/test.js" = true /\
  Glob.regexSource "src/**/test.js" = "src/.[^/]*/test.js" /\
  filterFilesWith ["src/**/test.js"] [fileAt "src/a/b/test.js"]
    = Some [fileAt "src/a/b/test.js"] /\
  slice0 config.reviewBot.maxFilesPerReview [fileAt "src/a/b/test.js"]
    = [fileAt "src/a/b/test.js"] /\
  GlobSpec.matches "dist/**" "dist/" = true /\
  In "dist/**" config.reviewBot.excludePatterns /\
  filterFiles [fileAt "dist/"] = [fileAt "dist/"].
Proof. repeat split; try reflexivity. simpl. tauto. Qed.

(** ** Verdict of the review *)

Lemma fold_left_sum {A} (f : A -> nat) (l : list A) (a : nat) :
  fold_left (fun sum x => sum + f x) l a = a + list_sum (map f l).
Proof.
  revert a. induction l as [|x l IH]; intros a; simpl; [lia | rewrite IH; lia].
Qed.

Lemma totalIssuesOf_global reviews :
  ReviewBot.totalIssuesOf reviews = length (allIssues reviews).
Proof.
  unfold ReviewBot.totalIssuesOf, allIssues.
  rewrite (fold_left_sum (fun review => length (issues (analysis review)))). simpl.
  induction reviews as [|r rs IH]; simpl; [reflexivity | rewrite length_app; lia].
Qed.

Lemma highSeverityIssuesOf_global reviews :
  ReviewBot.highSeverityIssuesOf reviews = length (filter isHigh (allIssues reviews)).
Proof.
  unfold ReviewBot.highSeverityIssuesOf, allIssues.
  rewrite (fold_left_sum
             (fun review => length (filter isHigh (issues (analysis review))))). simpl.
  induction reviews as [|r rs IH]; simpl; [reflexivity |].
  rewrite filter_app, length_app. lia.
Qed.

(** C3. [generateSummary] posts one review whose counts are the global
    numbers of issues and of high-severity issues, and whose verdict is the
    first match of: some high-severity issue, request changes; else more than
    five issues, a comment labelled needs improvement; else some issue, a
    comment labelled approved with suggestions; else a comment labelled
    approved. One high-severity issue is enough for request changes,
    whatever the total. *)
Theorem verdict_selection (env : Env) (prNumber : string) (reviews : list Review)
    (pullRequest : PullRequest) (tr : Trace) :
  let total := length (allIssues reviews) in
  let high := length (filter isHigh (allIssues reviews)) in
  exists label emoji verdict,
    ReviewBot.generateSummary env prNumber reviews pullRequest tr
      = (Ok tt,
         (tr ++ [PullsCreateReview prNumber
                   (SummaryComment reviews pullRequest label emoji total high)
                   verdict])%list) /\
    (0 < high ->
       verdict = "REQUEST_CHANGES" /\
       label = "❌ **CHANGES REQUESTED** - High severity issues found") /\
    (high = 0 -> 5 < total ->
       verdict = "COMMENT" /\
       label = "⚠️ **NEEDS IMPROVEMENT** - Multiple issues found") /\
    (high = 0 -> 0 < total <= 5 ->
       verdict = "COMMENT" /\
       label = "📝 **APPROVED WITH SUGGESTIONS** - Minor issues found") /\
    (high = 0 -> total = 0 ->
       verdict = "COMMENT" /\
       label = "✅ **APPROVED** - Code looks good!").
Proof.
  intros total high.
  exists (fst (ReviewBot.assessment total high)),
         (snd (ReviewBot.assessment total high)),
         (ReviewBot.reviewEvent high).
  split.
  - unfold ReviewBot.generateSummary.
    rewrite totalIssuesOf_global, highSeverityIssuesOf_global. fold total high.
    destruct (ReviewBot.assessment total high) as [label emoji]. simpl.
    unfold tryCatch, GitHubClient.createReview, tryCatch, call, throw, ret.
    destruct (pulls_createReview env tr prNumber _ _) as [[]|e]; reflexivity.
  - unfold ReviewBot.assessment, ReviewBot.reviewEvent.
    repeat split; intros;
      repeat match goal with
             | |- context [?a <? ?b] =>
                 let E := fresh "E" in
                 destruct (Nat.ltb_spec a b) as [E|E]; try lia
             end; reflexivity.
Qed.

(** The premises of C3 are met by one review with one high-severity issue:
    the review posted asks for changes although there is one issue in all. *)
Lemma verdict_selection_witness :
  exists label emoji,
    ReviewBot.generateSummary Stub.env0 "7" [Stub.severeReview] Stub.pr7 []
      = (Ok tt,
         [PullsCreateReview "7"
            (SummaryComment [Stub.severeReview] Stub.pr7 label emoji 1 1)
            "REQUEST_CHANGES"]) /\
    label = "❌ **CHANGES REQUESTED** - High severity issues found".
Proof.
  destruct (verdict_selection Stub.env0 "7" [Stub.severeReview] Stub.pr7 [])
    as [label [emoji [verdict [Hrun [Hhigh _]]]]].
  destruct (Hhigh (Nat.lt_0_succ 0)) as [Hverdict Hlabel].
  exists label, emoji. rewrite Hverdict in Hrun. split; [exact Hrun | exact Hlabel].
Defined.

(** ** Interpreting the reply of the model *)

Module JsonMatchFacts.
Import MCPClient.

Lemma uptoLastBrace_None (s : string) :
  uptoLastBrace s = None <-> Str.includes s "}" = false.
Proof.
  induction s as [|c s IH]; simpl.
  - tauto.
  - destruct (uptoLastBrace s) as [p|].
    + split; [discriminate |]. intros H. apply orb_false_iff in H.
      destruct H as [_ H]. apply IH in H. discriminate.
    + assert (Hs : Str.includes s "}" = false) by now apply IH.
      rewrite Hs, orb_false_r, andb_true_r.
      destruct (Ascii.eqb c "}"); split; congruence.
Qed.

(** No match exactly when no opening brace has a closing brace after it. *)
Lemma jsonMatch_None (s : string) :
  jsonMatch s = None <->
  ~ exists a b c, s = a ++ "{" ++ b ++ "}" ++ c.
Proof.
  induction s as [|ch s IH]; simpl.
  - split; [| reflexivity]. intros _ [a [b [c H]]].
    destruct a; discriminate.
  - destruct (Ascii.eqb ch "{") eqn:E.
    + apply Ascii.eqb_eq in E. subst ch.
      destruct (uptoLastBrace s) as [p|] eqn:U.
      * split; [discriminate |]. intros H. exfalso. apply H.
        assert (Hin : Str.includes s "}" = true).
        { destruct (Str.includes s "}") eqn:I; [reflexivity |].
          apply uptoLastBrace_None in I. congruence. }
        apply StrFacts.includes_spec in Hin. destruct Hin as [b [c ->]].
        now exists EmptyString, b, c.
      * rewrite IH. apply uptoLastBrace_None in U.
        split; intros H [a [b [c Habc]]]; apply H.
        -- destruct a as [|a0 a]; simpl in Habc.
           ++ injection Habc as Hs. exfalso.
              assert (Str.includes s "}" = true); [| congruence].
              apply StrFacts.includes_spec. now exists b, c.
           ++ injection Habc as _ Hs. now exists a, b, c.
        -- exists (String "{" a), b, c. simpl. now rewrite Habc.
    + rewrite IH. split; intros H [a [b [c Habc]]]; apply H.
      * destruct a as [|a0 a]; simpl in Habc.
        -- injection Habc as Hc _. subst ch. discriminate.
        -- injection Habc as _ Hs. now exists a, b, c.
      * exists (String ch a), b, c. simpl. now rewrite Habc.
Qed.

End JsonMatchFacts.

(** C4. [parseResponse] never throws. When the reply holds no opening
    brace followed by a closing brace, the result is the text fallback: the
    first 200 characters of the reply followed by three dots as summary, no
    issue, rating unknown, the one recommendation of a manual review. When
    there is such a substring and [JSON.parse] throws on it, or when the reply
    has no text, the result is the error fallback: summary [Error parsing
    response], no issue, rating unknown, no recommendation. [analyzeCode]
    returns what [parseResponse] makes of the reply it received. *)
Theorem parseResponse_fallbacks (env : Env) (response : Response) :
  (exists result, MCPClient.parseResponse env response = Ok result) /\
  (forall content,
     MCPClient.firstText response = Ok content ->
     MCPClient.jsonMatch content = None ->
     MCPClient.parseResponse env response =
       Ok {| summary := Str.substring0 200 content ++ "...";
             issues := [];
             overallRating := "unknown";
             recommendations := ["Manual review recommended"] |}) /\
  (forall content json,
     MCPClient.firstText response = Ok content ->
     MCPClient.jsonMatch content = Some json ->
     JSON_parse env json = None ->
     MCPClient.parseResponse env response =
       Ok {| summary := "Error parsing response";
             issues := [];
             overallRating := "unknown";
             recommendations := [] |}) /\
  (forall e,
     MCPClient.firstText response = Throw e ->
     MCPClient.parseResponse env response = Ok MCPClient.errorParsingResponse) /\
  (forall code context tr,
     messages_create env tr (AnalysisPrompt code context) = Ok response ->
     MCPClient.analyzeCode env code context tr =
       (MCPClient.parseResponse env response,
        (tr ++ [MessagesCreate (AnalysisPrompt code context)])%list)).
Proof.
  unfold MCPClient.parseResponse.
  split; [| split; [| split; [| split]]].
  - destruct (MCPClient.firstText response) as [content|e]; simpl; [| eauto].
    destruct (MCPClient.jsonMatch content) as [json|]; simpl; [| eauto].
    destruct (JSON_parse env json); simpl; eauto.
  - intros content -> H. simpl. now rewrite H.
  - intros content json -> H1 H2. simpl. now rewrite H1, H2.
  - intros e ->. reflexivity.
  - intros code context tr H.
    unfold MCPClient.analyzeCode, tryCatch, bind, call, lift, throw.
    rewrite H. unfold MCPClient.parseResponse.
    destruct (catch _ _); reflexivity.
Qed.

(** The premises of C4 are met by a reply of plain prose. *)
Lemma parseResponse_fallbacks_witness :
  MCPClient.parseResponse Stub.env0 (Stub.reply "LGTM") =
    Ok {| summary := Str.substring0 200 "LGTM" ++ "...";
          issues := [];
          overallRating := "unknown";
          recommendations := ["Manual review recommended"] |}.
Proof.
  apply (proj1 (proj2 (parseResponse_fallbacks Stub.env0 (Stub.reply "LGTM")))).
  - reflexivity.
  - reflexivity.
Defined.

(** C4, as first stated, fails: the summary of the text fallback is not the
    first 200 characters of the reply, and when parsing throws the result has
    another summary and no recommendation. *)
Lemma parseResponse_fallback_differs :
  MCPClient.jsonMatch "LGTM" = None /\
  MCPClient.parseResponse Stub.env0 (Stub.reply "LGTM") =
    Ok {| summary := "LGTM..."; issues := []; overallRating := "unknown";
          recommendations := ["Manual review recommended"] |} /\
  "LGTM..." <> Str.substring0 200 "LGTM" /\
  MCPClient.jsonMatch "see {x}" = Some "{x}" /\
  JSON_parse Stub.env0 "{x}" = None /\
  MCPClient.parseResponse Stub.env0 (Stub.reply "see {x}") =
    Ok {| summary := "Error parsing response"; issues := [];
          overallRating := "unknown"; recommendations := [] |} /\
  "Error parsing response" <> Str.substring0 200 "see {x}".
Proof. repeat split; try reflexivity; discriminate. Qed.

(** ** How the methods run *)

Lemma getCurrentFileContent_run env filename tr :
  FixBot.getCurrentFileContent env filename tr =
    (match fs_readFile env tr filename with
     | Ok content => Ok (Some content)
     | Throw _ => Ok None
     end, (tr ++ [FsReadFile filename])%list).
Proof.
  unfold FixBot.getCurrentFileContent. unfold_js.
  destruct (fs_readFile env tr filename); reflexivity.
Qed.

Lemma generateFixes_run env issues code context tr :
  MCPClient.generateFixes env issues code context tr =
    (match messages_create env tr (FixPrompt issues code context) with
     | Ok response => MCPClient.parseFixes response
     | Throw e => Throw e
     end, (tr ++ [MessagesCreate (FixPrompt issues code context)])%list).
Proof.
  unfold MCPClient.generateFixes. unfold_js.
  destruct (messages_create env tr _) as [response|e]; [| reflexivity].
  destruct (MCPClient.parseFixes response); reflexivity.
Qed.

Lemma analyzeCode_run env code context tr :
  MCPClient.analyzeCode env code context tr =
    (match messages_create env tr (AnalysisPrompt code context) with
     | Ok response => MCPClient.parseResponse env response
     | Throw e => Throw e
     end, (tr ++ [MessagesCreate (AnalysisPrompt code context)])%list).
Proof.
  unfold MCPClient.analyzeCode. unfold_js.
  destruct (messages_create env tr _) as [response|e]; [| reflexivity].
  destruct (MCPClient.parseResponse env response); reflexivity.
Qed.

Lemma writeFileContent_run env filename data tr :
  FixBot.writeFileContent env filename data tr =
    (fs_writeFile env tr filename data, (tr ++ [FsWriteFile filename data])%list).
Proof.
  unfold FixBot.writeFileContent. unfold_js.
  destruct (fs_writeFile env tr filename data) as [[]|e]; reflexivity.
Qed.

Lemma createComment_run env issueNumber body tr :
  GitHubClient.createComment env issueNumber body tr =
    (issues_createComment env tr issueNumber body,
     (tr ++ [IssuesCreateComment issueNumber body])%list).
Proof.
  unfold GitHubClient.createComment. unfold_js.
  destruct (issues_createComment env tr issueNumber body) as [[]|e]; reflexivity.
Qed.

Lemma writes_snoc (tr : Trace) (ev : Event) :
  writes (tr ++ [ev])%list = (writes tr ++ if isWrite ev then [ev] else [])%list.
Proof. unfold writes. rewrite filter_app. reflexivity. Qed.

Lemma inferences_snoc (tr : Trace) (ev : Event) :
  inferences (tr ++ [ev])%list = (inferences tr ++ if isInference ev then [ev] else [])%list.
Proof. unfold inferences. rewrite filter_app. reflexivity. Qed.

Lemma noFix_true fixed content :
  FixBot.noFix fixed content = true <->
  fixed = None \/ fixed = Some EmptyString \/ fixed = Some content.
Proof.
  unfold FixBot.noFix. destruct fixed as [f|]; simpl.
  - rewrite orb_true_iff, negb_true_iff, String.eqb_eq. split.
    + intros [H | ->]; [| tauto]. destruct f; [tauto | discriminate].
    + intros [H | [[= ->] | [= ->]]]; [discriminate | now left | now right].
  - tauto.
Qed.

Lemma noFix_false fixed content :
  FixBot.noFix fixed content = false ->
  exists f, fixed = Some f /\ f <> content /\ f <> EmptyString.
Proof.
  intros H. destruct fixed as [f|].
  - exists f. split; [reflexivity |].
    split; intros E; subst f;
      match type of H with
      | ?lhs = false => assert (T : lhs = true) by (apply noFix_true; tauto)
      end; congruence.
  - discriminate.
Qed.

(** What [fixFileIssues] does once the file is read and the model has
    answered. *)
Lemma fixFileIssues_run env filename issues pullRequest tr :
  FixBot.fixFileIssues env filename issues pullRequest tr =
    let tr1 := (tr ++ [FsReadFile filename])%list in
    match fs_readFile env tr filename with
    | Throw _ => (Ok failed, tr1)
    | Ok content =>
        if negb (Str.truthy content) then (Ok failed, tr1)
        else
          let prompt := FixPrompt issues content (FixBot.fixContext filename pullRequest) in
          let tr2 := (tr1 ++ [MessagesCreate prompt])%list in
          match messages_create env tr1 prompt with
          | Throw _ => (Ok failed, tr2)
          | Ok response =>
              match MCPClient.parseFixes response with
              | Throw _ => (Ok failed, tr2)
              | Ok fixed =>
                  if FixBot.noFix fixed content then (Ok failed, tr2)
                  else
                    match fixed with
                    | None => (Ok failed, tr2)
                    | Some f =>
                        (match fs_writeFile env tr2 filename f with
                         | Ok _ => Ok {| success := true; fixesApplied := length issues |}
                         | Throw _ => Ok failed
                         end, (tr2 ++ [FsWriteFile filename f])%list)
                    end
              end
          end
    end.
Proof.
  unfold FixBot.fixFileIssues. unfold tryCatch at 1. unfold bind at 1.
  rewrite getCurrentFileContent_run. cbv zeta.
  destruct (fs_readFile env tr filename) as [content|e]; [| reflexivity].
  destruct (Str.truthy content); simpl; [| reflexivity].
  unfold bind at 1. rewrite generateFixes_run.
  destruct (messages_create env _ _) as [response|e]; [| reflexivity].
  destruct (MCPClient.parseFixes response) as [[f|]|e]; try reflexivity.
  destruct (FixBot.noFix (Some f) content); [reflexivity |].
  unfold bind. rewrite writeFileContent_run.
  destruct (fs_writeFile env _ filename f) as [[]|e]; reflexivity.
Qed.

(** What [analyzeAndFixFile] does, call by call. *)
Lemma analyzeAndFixFile_run env file pullRequest tr :
  FixBot.analyzeAndFixFile env file pullRequest tr =
    if 500 <? additions file + deletions file then (Ok failed, tr)
    else
      let tr1 := (tr ++ [FsReadFile (filename file)])%list in
      match fs_readFile env tr (filename file) with
      | Throw _ => (Ok failed, tr1)
      | Ok content =>
          if negb (Str.truthy content) then (Ok failed, tr1)
          else if negb (supportedLanguage (detectLanguage (filename file)))
          then (Ok failed, tr1)
          else
            let context := FixBot.fixContext (filename file) pullRequest in
            let tr2 := (tr1 ++ [MessagesCreate (AnalysisPrompt content context)])%list in
            match messages_create env tr1 (AnalysisPrompt content context) with
            | Throw _ => (Ok failed, tr2)
            | Ok response =>
                match MCPClient.parseResponse env response with
                | Throw _ => (Ok failed, tr2)
                | Ok analysis =>
                    if length (issues analysis) =? 0 then (Ok failed, tr2)
                    else
                      let fixableIssues := filter isAutoFixable (issues analysis) in
                      if length fixableIssues =? 0 then (Ok failed, tr2)
                      else
                        let prompt := FixPrompt fixableIssues content context in
                        let tr3 := (tr2 ++ [MessagesCreate prompt])%list in
                        match messages_create env tr2 prompt with
                        | Throw _ => (Ok failed, tr3)
                        | Ok response' =>
                            match MCPClient.parseFixes response' with
                            | Throw _ => (Ok failed, tr3)
                            | Ok fixed =>
                                if FixBot.noFix fixed content then (Ok failed, tr3)
                                else
                                  match fixed with
                                  | None => (Ok failed, tr3)
                                  | Some f =>
                                      (match fs_writeFile env tr3 (filename file) f with
                                       | Ok _ =>
                                           Ok {| success := true;
                                                 fixesApplied := length fixableIssues |}
                                       | Throw _ => Ok failed
                                       end,
                                       (tr3 ++ [FsWriteFile (filename file) f])%list)
                                  end
                            end
                        end
                end
            end
      end.
Proof.
  unfold FixBot.analyzeAndFixFile. unfold tryCatch at 1.
  destruct (500 <? additions file + deletions file); [reflexivity |].
  unfold bind at 1. rewrite getCurrentFileContent_run. cbv zeta.
  destruct (fs_readFile env tr (filename file)) as [content|e]; [| reflexivity].
  destruct (Str.truthy content); simpl; [| reflexivity].
  destruct (supportedLanguage (detectLanguage (filename file))); simpl; [| reflexivity].
  unfold bind at 1. rewrite analyzeCode_run.
  destruct (messages_create env _ (AnalysisPrompt _ _)) as [response|e]; [| reflexivity].
  destruct (MCPClient.parseResponse env response) as [analysis|e]; [| reflexivity].
  destruct (length (issues analysis) =? 0); [reflexivity |].
  destruct (length (filter isAutoFixable (issues analysis)) =? 0); [reflexivity |].
  unfold bind at 1. rewrite generateFixes_run.
  destruct (messages_create env _ (FixPrompt _ _ _)) as [response'|e]; [| reflexivity].
  destruct (MCPClient.parseFixes response') as [[f|]|e]; try reflexivity.
  destruct (FixBot.noFix (Some f) content); [reflexivity |].
  unfold bind. rewrite writeFileContent_run.
  destruct (fs_writeFile env _ (filename file) f) as [[]|e]; reflexivity.
Qed.

(** ** A fix that changes nothing is not written *)

Lemma fixFileIssues_no_change env filename issues pullRequest tr content tr1 fixed tr2 :
  FixBot.getCurrentFileContent env filename tr = (Ok (Some content), tr1) ->
  Str.truthy content = true ->
  MCPClient.generateFixes env issues content
    (FixBot.fixContext filename pullRequest) tr1 = (Ok fixed, tr2) ->
  fixed = None \/ fixed = Some content ->
  FixBot.fixFileIssues env filename issues pullRequest tr = (Ok failed, tr2)
  /\ writes tr2 = writes tr.
Proof.
  rewrite getCurrentFileContent_run, generateFixes_run, fixFileIssues_run. cbv zeta.
  intros Hread Htruthy Hgen Hfixed.
  destruct (fs_readFile env tr filename) as [c|e]; [| discriminate].
  injection Hread as -> <-. rewrite Htruthy. simpl.
  destruct (messages_create env _ _) as [response|e]; [| discriminate].
  injection Hgen as -> <-.
  assert (Hno : FixBot.noFix fixed content = true) by (apply noFix_true; tauto).
  rewrite Hno. split; [reflexivity |].
  now rewrite !writes_snoc, !app_nil_r.
Qed.

Lemma analyzeAndFixFile_no_change env file pullRequest tr
    content tr1 analysis tr2 fixed tr3 :
  additions file + deletions file <= 500 ->
  FixBot.getCurrentFileContent env (filename file) tr = (Ok (Some content), tr1) ->
  Str.truthy content = true ->
  supportedLanguage (detectLanguage (filename file)) = true ->
  MCPClient.analyzeCode env content
    (FixBot.fixContext (filename file) pullRequest) tr1 = (Ok analysis, tr2) ->
  filter isAutoFixable (issues analysis) <> [] ->
  MCPClient.generateFixes env (filter isAutoFixable (issues analysis)) content
    (FixBot.fixContext (filename file) pullRequest) tr2 = (Ok fixed, tr3) ->
  fixed = None \/ fixed = Some content ->
  FixBot.analyzeAndFixFile env file pullRequest tr = (Ok failed, tr3)
  /\ writes tr3 = writes tr.
Proof.
  rewrite getCurrentFileContent_run, analyzeCode_run, generateFixes_run,
    analyzeAndFixFile_run. cbv zeta.
  intros Hsize Hread Htruthy Hlang Hana Hfixable Hgen Hfixed.
  destruct (Nat.ltb_spec 500 (additions file + deletions file)); [lia |].
  destruct (fs_readFile env tr (filename file)) as [c|e]; [| discriminate].
  injection Hread as -> <-. rewrite Htruthy, Hlang. simpl.
  destruct (messages_create env _ (AnalysisPrompt _ _)) as [response|e]; [| discriminate].
  injection Hana as Hparse <-. rewrite Hparse.
  destruct (issues analysis) as [|i0 is0] eqn:Hissues; [now destruct Hfixable |].
  simpl length at 1. simpl Nat.eqb at 1. cbv iota.
  destruct (filter isAutoFixable (i0 :: is0)) as [|f0 fs0] eqn:Hfilter;
    [now destruct Hfixable |].
  simpl length at 1. simpl Nat.eqb at 1. cbv iota.
  destruct (messages_create env _ (FixPrompt _ _ _)) as [response'|e]; [| discriminate].
  injection Hgen as -> <-.
  assert (Hno : FixBot.noFix fixed content = true) by (apply noFix_true; tauto).
  rewrite Hno. split; [reflexivity |].
  now rewrite !writes_snoc, !app_nil_r.
Qed.

Lemma fixFileIssues_write_only_when env filename issues pullRequest tr :
  let out := FixBot.fixFileIssues env filename issues pullRequest tr in
  (fst out = Ok failed /\ writes (snd out) = writes tr) \/
  (exists content fixed tr1 tr2,
     FixBot.getCurrentFileContent env filename tr = (Ok (Some content), tr1) /\
     MCPClient.generateFixes env issues content
       (FixBot.fixContext filename pullRequest) tr1 = (Ok (Some fixed), tr2) /\
     fixed <> content /\
     writes (snd out) = (writes tr ++ [FsWriteFile filename fixed])%list /\
     (fst out = Ok failed \/
      fst out = Ok {| success := true; fixesApplied := length issues |})).
Proof.
  cbv zeta. rewrite fixFileIssues_run. cbv zeta.
  destruct (fs_readFile env tr filename) as [content|e] eqn:Hread;
    [| left; simpl; now rewrite writes_snoc, app_nil_r].
  destruct (Str.truthy content) eqn:Htruthy; simpl;
    [| left; now rewrite writes_snoc, app_nil_r].
  destruct (messages_create env _ _) as [response|e] eqn:Hcreate;
    [| left; simpl; now rewrite !writes_snoc, !app_nil_r].
  destruct (MCPClient.parseFixes response) as [fixed|e] eqn:Hparse;
    [| left; simpl; now rewrite !writes_snoc, !app_nil_r].
  destruct (FixBot.noFix fixed content) eqn:Hno;
    [left; simpl; now rewrite !writes_snoc, !app_nil_r |].
  destruct (noFix_false _ _ Hno) as [f [-> [Hne _]]].
  right. exists content, f. do 2 eexists.
  split; [rewrite getCurrentFileContent_run, Hread; reflexivity |].
  split; [rewrite generateFixes_run, Hcreate, Hparse; reflexivity |].
  split; [exact Hne |]. simpl.
  split; [now rewrite !writes_snoc, !app_nil_r |].
  destruct (fs_writeFile env _ filename f); tauto.
Qed.

Lemma analyzeAndFixFile_write_only_when env file pullRequest tr :
  let out := FixBot.analyzeAndFixFile env file pullRequest tr in
  (fst out = Ok failed /\ writes (snd out) = writes tr) \/
  (exists content analysis fixed tr1 tr2 tr3,
     FixBot.getCurrentFileContent env (filename file) tr = (Ok (Some content), tr1) /\
     MCPClient.analyzeCode env content
       (FixBot.fixContext (filename file) pullRequest) tr1 = (Ok analysis, tr2) /\
     MCPClient.generateFixes env (filter isAutoFixable (issues analysis)) content
       (FixBot.fixContext (filename file) pullRequest) tr2 = (Ok (Some fixed), tr3) /\
     fixed <> content /\
     writes (snd out) = (writes tr ++ [FsWriteFile (filename file) fixed])%list /\
     (fst out = Ok failed \/
      fst out = Ok {| success := true;
                      fixesApplied := length (filter isAutoFixable (issues analysis)) |})).
Proof.
  cbv zeta. rewrite analyzeAndFixFile_run. cbv zeta.
  destruct (500 <? additions file + deletions file); [left; tauto |].
  destruct (fs_readFile env tr (filename file)) as [content|e] eqn:Hread;
    [| left; simpl; now rewrite writes_snoc, app_nil_r].
  destruct (Str.truthy content) eqn:Htruthy; simpl;
    [| left; now rewrite writes_snoc, app_nil_r].
  destruct (supportedLanguage _); simpl;
    [| left; now rewrite writes_snoc, app_nil_r].
  destruct (messages_create env _ (AnalysisPrompt _ _)) as [response|e] eqn:Hcreate;
    [| left; simpl; now rewrite !writes_snoc, !app_nil_r].
  destruct (MCPClient.parseResponse env response) as [analysis|e] eqn:Hparse;
    [| left; simpl; now rewrite !writes_snoc, !app_nil_r].
  destruct (length (issues analysis) =? 0);
    [left; simpl; now rewrite !writes_snoc, !app_nil_r |].
  destruct (length (filter isAutoFixable (issues analysis)) =? 0);
    [left; simpl; now rewrite !writes_snoc, !app_nil_r |].
  destruct (messages_create env _ (FixPrompt _ _ _)) as [response'|e] eqn:Hcreate';
    [| left; simpl; now rewrite !writes_snoc, !app_nil_r].
  destruct (MCPClient.parseFixes response') as [fixed|e] eqn:Hparse';
    [| left; simpl; now rewrite !writes_snoc, !app_nil_r].
  destruct (FixBot.noFix fixed content) eqn:Hno;
    [left; simpl; now rewrite !writes_snoc, !app_nil_r |].
  destruct (noFix_false _ _ Hno) as [f [-> [Hne _]]].
  right. exists content, analysis, f. do 3 eexists.
  split; [rewrite getCurrentFileContent_run, Hread; reflexivity |].
  split; [rewrite analyzeCode_run, Hcreate, Hparse; reflexivity |].
  split; [rewrite generateFixes_run, Hcreate', Hparse'; reflexivity |].
  split; [exact Hne |]. simpl.
  split; [now rewrite !writes_snoc, !app_nil_r |].
  destruct (fs_writeFile env _ (filename file) f); tauto.
Qed.

(** C5. In the targeted fixer ([fixFileIssues]) and in the blanket fixer
    ([analyzeAndFixFile]) alike: when [generateFixes] returns [null] or the
    content the file already has, the outcome is the failed one with zero
    fixes applied and the trace holds no new write; and whenever a run does
    write, [generateFixes] has returned a content that is not [null] and
    differs from the one read, and that content is what is written. *)
Theorem unchanged_fix_is_not_written (env : Env) (pullRequest : PullRequest) (tr : Trace) :
  (forall filename issues content tr1 fixed tr2,
     FixBot.getCurrentFileContent env filename tr = (Ok (Some content), tr1) ->
     Str.truthy content = true ->
     MCPClient.generateFixes env issues content
       (FixBot.fixContext filename pullRequest) tr1 = (Ok fixed, tr2) ->
     fixed = None \/ fixed = Some content ->
     FixBot.fixFileIssues env filename issues pullRequest tr = (Ok failed, tr2)
     /\ success failed = false /\ fixesApplied failed = 0
     /\ writes tr2 = writes tr) /\
  (forall file content tr1 analysis tr2 fixed tr3,
     additions file + deletions file <= 500 ->
     FixBot.getCurrentFileContent env (filename file) tr = (Ok (Some content), tr1) ->
     Str.truthy content = true ->
     supportedLanguage (detectLanguage (filename file)) = true ->
     MCPClient.analyzeCode env content
       (FixBot.fixContext (filename file) pullRequest) tr1 = (Ok analysis, tr2) ->
     filter isAutoFixable (issues analysis) <> [] ->
     MCPClient.generateFixes env (filter isAutoFixable (issues analysis)) content
       (FixBot.fixContext (filename file) pullRequest) tr2 = (Ok fixed, tr3) ->
     fixed = None \/ fixed = Some content ->
     FixBot.analyzeAndFixFile env file pullRequest tr = (Ok failed, tr3)
     /\ writes tr3 = writes tr) /\
  (forall filename issues,
     let out := FixBot.fixFileIssues env filename issues pullRequest tr in
     (fst out = Ok failed /\ writes (snd out) = writes tr) \/
     (exists content fixed tr1 tr2,
        FixBot.getCurrentFileContent env filename tr = (Ok (Some content), tr1) /\
        MCPClient.generateFixes env issues content
          (FixBot.fixContext filename pullRequest) tr1 = (Ok (Some fixed), tr2) /\
        fixed <> content /\
        writes (snd out) = (writes tr ++ [FsWriteFile filename fixed])%list /\
        (fst out = Ok failed \/
         fst out = Ok {| success := true; fixesApplied := length issues |}))) /\
  (forall file,
     let out := FixBot.analyzeAndFixFile env file pullRequest tr in
     (fst out = Ok failed /\ writes (snd out) = writes tr) \/
     (exists content analysis fixed tr1 tr2 tr3,
        FixBot.getCurrentFileContent env (filename file) tr = (Ok (Some content), tr1) /\
        MCPClient.analyzeCode env content
          (FixBot.fixContext (filename file) pullRequest) tr1 = (Ok analysis, tr2) /\
        MCPClient.generateFixes env (filter isAutoFixable (issues analysis)) content
          (FixBot.fixContext (filename file) pullRequest) tr2 = (Ok (Some fixed), tr3) /\
        fixed <> content /\
        writes (snd out) = (writes tr ++ [FsWriteFile (filename file) fixed])%list /\
        (fst out = Ok failed \/
         fst out = Ok {| success := true;
                         fixesApplied :=
                           length (filter isAutoFixable (issues analysis)) |}))).
Proof.
  split; [| split; [| split]].
  - intros filename issues content tr1 fixed tr2 H1 H2 H3 H4.
    destruct (fixFileIssues_no_change _ _ _ _ _ _ _ _ _ H1 H2 H3 H4) as [Ha Hb].
    repeat split; assumption.
  - intros. eapply analyzeAndFixFile_no_change; eassumption.
  - intros. apply fixFileIssues_write_only_when.
  - intros. apply analyzeAndFixFile_write_only_when.
Qed.

(** The premises of C5 are met when the model returns the code as it is. *)
Lemma unchanged_fix_is_not_written_witness :
  FixBot.fixFileIssues Stub.envUnchanged "example.js" FixBot.mockIssues Stub.pr7 []
    = (Ok failed,
       [FsReadFile "example.js";
        MessagesCreate (FixPrompt FixBot.mockIssues "let a = 1"
                          (FixBot.fixContext "example.js" Stub.pr7))])
  /\ success failed = false /\ fixesApplied failed = 0
  /\ writes [FsReadFile "example.js";
             MessagesCreate (FixPrompt FixBot.mockIssues "let a = 1"
                               (FixBot.fixContext "example.js" Stub.pr7))] = writes [].
Proof.
  apply (proj1 (unchanged_fix_is_not_written Stub.envUnchanged Stub.pr7 []))
    with (content := "let a = 1") (tr1 := [FsReadFile "example.js"])
         (fixed := Some "let a = 1").
  - reflexivity.
  - reflexivity.
  - reflexivity.
  - right. reflexivity.
Defined.

(** ** Artifacts that are skipped *)

(** C7. In the review pipeline a file whose status is removed, or whose
    patch is missing or blank, or which has more than 1000 added plus deleted
    lines, is skipped: [analyzeFile] returns [null] without throwing and
    without any call, so without a call of the model. In the fix pipeline the
    status of a file is not looked at: a file that cannot be read from the
    working tree, as a removed file cannot after a checkout of the head, is
    given the failed outcome by [analyzeAndFixFile] and by [fixFileIssues]
    with no call of the model and no write. *)
Theorem skipped_artifacts (env : Env) (pullRequest : PullRequest) (tr : Trace) :
  (forall file,
     status file = "removed" \/
     Str.trim (patchText file) = EmptyString \/
     1000 < additions file + deletions file ->
     ReviewBot.analyzeFile env file pullRequest tr = (Ok None, tr)) /\
  (forall file e,
     fs_readFile env tr (filename file) = Throw e ->
     let out := FixBot.analyzeAndFixFile env file pullRequest tr in
     fst out = Ok failed /\
     inferences (snd out) = inferences tr /\
     writes (snd out) = writes tr) /\
  (forall filename issues e,
     fs_readFile env tr filename = Throw e ->
     let out := FixBot.fixFileIssues env filename issues pullRequest tr in
     fst out = Ok failed /\
     inferences (snd out) = inferences tr /\
     writes (snd out) = writes tr).
Proof.
  split; [| split].
  - intros file H. unfold ReviewBot.analyzeFile, tryCatch.
    destruct (Nat.ltb_spec 1000 (additions file + deletions file)) as [Hbig|Hsmall];
      [reflexivity |].
    destruct H as [H | [H | H]]; [| | lia].
    + rewrite H. reflexivity.
    + unfold patchText in H.
      destruct (String.eqb (status file) "added" || String.eqb (status file) "modified").
      * rewrite H. reflexivity.
      * destruct (String.eqb (status file) "removed"); reflexivity.
  - intros file e H. cbv zeta. rewrite analyzeAndFixFile_run. cbv zeta. rewrite H.
    destruct (500 <? additions file + deletions file); simpl;
      rewrite ?inferences_snoc, ?writes_snoc, ?app_nil_r; auto.
  - intros filename issues e H. cbv zeta. rewrite fixFileIssues_run. cbv zeta. rewrite H.
    simpl. rewrite ?inferences_snoc, ?writes_snoc, ?app_nil_r; auto.
Qed.

(** The premises of C7 are met by a removed file that is absent from the
    working tree. *)
Lemma skipped_artifacts_witness :
  ReviewBot.analyzeFile Stub.envEmptyTree Stub.gone Stub.pr7 [] = (Ok None, []) /\
  fst (FixBot.analyzeAndFixFile Stub.envEmptyTree Stub.gone Stub.pr7 []) = Ok failed /\
  inferences (snd (FixBot.analyzeAndFixFile Stub.envEmptyTree Stub.gone Stub.pr7 []))
    = inferences [] /\
  writes (snd (FixBot.analyzeAndFixFile Stub.envEmptyTree Stub.gone Stub.pr7 []))
    = writes [].
Proof.
  split.
  - apply (proj1 (skipped_artifacts Stub.envEmptyTree Stub.pr7 [])).
    left. reflexivity.
  - exact (proj1 (proj2 (skipped_artifacts Stub.envEmptyTree Stub.pr7 []))
             Stub.gone "ENOENT: no such file or directory" eq_refl).
Defined.

(** C7, as first stated, fails in the fix pipeline: a file with status
    removed that can still be read from the working tree is sent to the
    model for analysis and for a fix, and the fix is written. *)
Lemma removed_file_is_fixed :
  status Stub.gone = "removed" /\
  FixBot.analyzeAndFixFile Stub.env0 Stub.gone Stub.pr7 [] =
    (Ok {| success := true; fixesApplied := 1 |},
     [FsReadFile "gone.js";
      MessagesCreate (AnalysisPrompt "let a = 1" (FixBot.fixContext "gone.js" Stub.pr7));
      MessagesCreate (FixPrompt [Stub.finding] "let a = 1"
                        (FixBot.fixContext "gone.js" Stub.pr7));
      FsWriteFile "gone.js" "let a = 1;"]).
Proof. split; reflexivity. Qed.

(** ** Exceptions in a review run *)

Lemma tryCatch_rethrow {A} (m : M A) tr :
  tryCatch m (fun error => throw error) tr = m tr.
Proof. unfold tryCatch, throw. destruct (m tr) as [[a|e] tr']; reflexivity. Qed.

Lemma review_postErrorComment_run env prNumber message tr :
  ReviewBot.postErrorComment env prNumber message tr =
    (Ok tt,
     (tr ++ [IssuesCreateComment prNumber (Text (ReviewBot.errorComment message))])%list).
Proof.
  unfold ReviewBot.postErrorComment, tryCatch. rewrite createComment_run.
  destruct (issues_createComment env tr prNumber _) as [[]|e]; reflexivity.
Qed.

Lemma errorComment_contains message :
  Str.Contains (ReviewBot.errorComment message) message.
Proof.
  exists ("## ❌ ReviewBot Error" ++ nl ++ nl ++
          "An error occurred during the analysis:" ++ nl ++ nl ++ "```" ++ nl),
         (nl ++ "```" ++ nl ++ nl ++ "Please check the action logs for more details.").
  reflexivity.
Qed.

Lemma healthCheck_run env tr :
  MCPClient.healthCheck env tr =
    (match messages_create env tr HealthPrompt with
     | Ok response =>
         match MCPClient.firstText response with
         | Ok content => Ok (Str.includes content "healthy")
         | Throw _ => Ok false
         end
     | Throw _ => Ok false
     end, (tr ++ [MessagesCreate HealthPrompt])%list).
Proof.
  unfold MCPClient.healthCheck. unfold_js.
  destruct (messages_create env tr HealthPrompt) as [response|e]; [| reflexivity].
  destruct (MCPClient.firstText response); reflexivity.
Qed.

Lemma reviewPullRequest_returns env prNumber tr :
  fst (ReviewBot.reviewPullRequest env prNumber tr) = Ok tt.
Proof.
  unfold ReviewBot.reviewPullRequest. unfold tryCatch at 1.
  match goal with |- context [match ?m with _ => _ end] => destruct m as [[[]|e] tr'] end.
  - reflexivity.
  - now rewrite review_postErrorComment_run.
Qed.

Lemma analyzeFile_returns env file pullRequest tr :
  exists review, fst (ReviewBot.analyzeFile env file pullRequest tr) = Ok review.
Proof.
  unfold ReviewBot.analyzeFile. unfold tryCatch at 1.
  match goal with |- context [match ?m with _ => _ end] => destruct m as [[r|e] tr'] end;
    eexists; reflexivity.
Qed.

(** The two posting steps of a review run. *)

Lemma forOf_app_run {A} (body : A -> M unit) (l : list A) (f : A -> Event) :
  (forall x tr, body x tr = (Ok tt, (tr ++ [f x])%list)) ->
  forall tr, forOf l body tr = (Ok tt, (tr ++ map f l)%list).
Proof.
  intros Hbody. induction l as [|x l IH]; intros tr; simpl.
  - unfold ret. now rewrite app_nil_r.
  - unfold bind. rewrite Hbody, IH. now rewrite <- app_assoc.
Qed.

Lemma postFileComments_run (env : Env) (prNumber : string)
    (reviews : list Review) (tr : Trace) :
  ReviewBot.postFileComments env prNumber reviews tr
    = (Ok tt, (tr ++ issueComments prNumber reviews)%list).
Proof.
  unfold ReviewBot.postFileComments. revert tr.
  induction reviews as [|review reviews IH]; intros tr.
  - simpl. unfold ret. now rewrite app_nil_r.
  - cbn [forOf issueComments flat_map]. unfold bind at 1.
    assert (Hinner :
      (if length (issues (analysis review)) =? 0 then ret tt
       else forOf (issues (analysis review))
              (fun issue =>
                 tryCatch
                   (GitHubClient.createComment env prNumber
                      (IssueComment issue (filename (file review))))
                   (fun _ => ret tt))) tr
      = (Ok tt,
         (tr ++ map (fun issue =>
                       IssuesCreateComment prNumber
                         (IssueComment issue (filename (file review))))
                    (issues (analysis review)))%list)).
    { destruct (issues (analysis review)) as [|i0 is0] eqn:E.
      + simpl. unfold ret. now rewrite app_nil_r.
      + cbn [length Nat.eqb].
        apply (forOf_app_run _ (i0 :: is0)
                 (fun issue => IssuesCreateComment prNumber
                                 (IssueComment issue (filename (file review))))).
        intros issue tr0. unfold tryCatch. rewrite createComment_run.
        destruct (issues_createComment env tr0 prNumber _) as [[]|e]; reflexivity. }
    rewrite Hinner. rewrite IH. fold (issueComments prNumber reviews).
    now rewrite <- app_assoc.
Qed.

Lemma generateSummary_run env prNumber reviews pullRequest tr :
  ReviewBot.generateSummary env prNumber reviews pullRequest tr =
    (Ok tt, (tr ++ [summaryReview prNumber reviews pullRequest])%list).
Proof.
  unfold ReviewBot.generateSummary, summaryReview. cbv zeta.
  destruct (ReviewBot.assessment _ _) as [label emoji]. cbn [fst snd].
  unfold tryCatch, GitHubClient.createReview, tryCatch, call, throw, ret.
  destruct (pulls_createReview env tr prNumber _ _) as [[]|e]; reflexivity.
Qed.

(** C8. [reviewPullRequest] catches everything: it returns normally, and
    so the entry points exit with code 0 once the constructors have
    succeeded. When the run fails at its top level, on a failed health check,
    on fetching the pull request or on listing its files, nothing more is
    done than to post one comment, and its text contains the message of the
    exception. The run is the statements of its [try] under that handler,
    and the handler does the same for whatever these statements throw, and
    adds nothing when they return. Not every exception gets there. An
    exception during the analysis of a file is caught for that file alone:
    [analyzeFile] returns [null] and no comment is posted for it. For
    analyses that follow the schema, a failure of the call that posts the
    review is caught in [generateSummary], which returns normally after that
    one call, and a failure of the call that posts the comment of an issue is
    caught for that comment alone, the comments of the other issues being
    posted all the same. Only an exception of a constructor, a missing
    setting, gives exit code 1, and then no comment is posted. *)
Theorem review_run_exceptions (env : Env) (prNumber : string) (tr : Trace) :
  fst (ReviewBot.reviewPullRequest env prNumber tr) = Ok tt /\
  (forall penv,
     construct penv = Ok prNumber ->
     fst (ReviewMain.main env penv tr) = 0 /\
     fst (LetThemReview.runCommandReview env penv tr) = 0) /\
  (forall tr1,
     MCPClient.healthCheck env tr = (Ok false, tr1) ->
     ReviewBot.reviewPullRequest env prNumber tr =
       (Ok tt,
        (tr1 ++ [IssuesCreateComment prNumber
                   (Text (ReviewBot.errorComment
                            "MCP connection health check failed"))])%list)) /\
  (forall tr1 e,
     MCPClient.healthCheck env tr = (Ok true, tr1) ->
     pulls_get env tr1 prNumber = Throw e ->
     ReviewBot.reviewPullRequest env prNumber tr =
       (Ok tt,
        (tr1 ++ [PullsGet prNumber;
                 IssuesCreateComment prNumber (Text (ReviewBot.errorComment e))])%list)) /\
  (forall tr1 pullRequest e,
     MCPClient.healthCheck env tr = (Ok true, tr1) ->
     pulls_get env tr1 prNumber = Ok pullRequest ->
     pulls_listFiles env (tr1 ++ [PullsGet prNumber])%list prNumber = Throw e ->
     ReviewBot.reviewPullRequest env prNumber tr =
       (Ok tt,
        (tr1 ++ [PullsGet prNumber; PullsListFiles prNumber;
                 IssuesCreateComment prNumber (Text (ReviewBot.errorComment e))])%list)) /\
  (forall e, Str.Contains (ReviewBot.errorComment e) e) /\
  (forall penv e, construct penv = Throw e -> ReviewMain.main env penv tr = (1, tr)) /\
  (forall file pullRequest tr0,
     exists review, fst (ReviewBot.analyzeFile env file pullRequest tr0) = Ok review) /\
  (forall file pullRequest tr0 e,
     additions file + deletions file <= 1000 ->
     status file = "added" \/ status file = "modified" ->
     Str.trim (patchText file) <> EmptyString ->
     let prompt :=
       AnalysisPrompt (patchText file)
         (ReviewBot.reviewContext file (detectLanguage (filename file)) pullRequest) in
     messages_create env tr0 prompt = Throw e ->
     ReviewBot.analyzeFile env file pullRequest tr0 =
       (Ok None, (tr0 ++ [MessagesCreate prompt])%list)) /\
  ReviewBot.reviewPullRequest env prNumber =
    tryCatch (reviewSteps env prNumber)
             (fun error => ReviewBot.postErrorComment env prNumber error) /\
  (forall (steps : M unit) tr0 e tr1,
     steps tr0 = (Throw e, tr1) ->
     tryCatch steps (fun error => ReviewBot.postErrorComment env prNumber error) tr0 =
       (Ok tt,
        (tr1 ++ [IssuesCreateComment prNumber (Text (ReviewBot.errorComment e))])%list)) /\
  (forall (steps : M unit) tr0 tr1,
     steps tr0 = (Ok tt, tr1) ->
     tryCatch steps (fun error => ReviewBot.postErrorComment env prNumber error) tr0 =
       (Ok tt, tr1)) /\
  (forall reviews pullRequest tr0,
     ReviewBot.generateSummary env prNumber reviews pullRequest tr0 =
       (Ok tt, (tr0 ++ [summaryReview prNumber reviews pullRequest])%list)) /\
  (forall reviews pullRequest tr0 body event e,
     summaryReview prNumber reviews pullRequest = PullsCreateReview prNumber body event ->
     pulls_createReview env tr0 prNumber body event = Throw e ->
     ReviewBot.generateSummary env prNumber reviews pullRequest tr0 =
       (Ok tt, (tr0 ++ [PullsCreateReview prNumber body event])%list)) /\
  (forall reviews tr0,
     ReviewBot.postFileComments env prNumber reviews tr0 =
       (Ok tt, (tr0 ++ issueComments prNumber reviews)%list)) /\
  (forall issue name tr0 e,
     issues_createComment env tr0 prNumber (IssueComment issue name) = Throw e ->
     forall rest review,
       issues (analysis review) = issue :: rest ->
       filename (file review) = name ->
       ReviewBot.postFileComments env prNumber [review] tr0 =
         (Ok tt,
          (tr0 ++ IssuesCreateComment prNumber (IssueComment issue name)
               :: map (fun other => IssuesCreateComment prNumber (IssueComment other name))
                      rest)%list)).
Proof.
  split; [apply reviewPullRequest_returns |].
  split.
  { intros penv Hc. unfold ReviewMain.main, LetThemReview.runCommandReview,
      LetThemReview.runReviewBot. rewrite tryCatch_rethrow.
    unfold bind, lift. rewrite Hc.
    pose proof (reviewPullRequest_returns env prNumber tr) as H.
    destruct (ReviewBot.reviewPullRequest env prNumber tr) as [r tr'].
    simpl in H. subst r. split; reflexivity. }
  split.
  { intros tr1 Hh. unfold ReviewBot.reviewPullRequest, MCPClient.initialize.
    unfold tryCatch at 1. unfold bind at 1. unfold ret at 1. unfold bind at 1.
    rewrite Hh. simpl. unfold throw. now rewrite review_postErrorComment_run. }
  split.
  { intros tr1 e Hh Hget. unfold ReviewBot.reviewPullRequest, MCPClient.initialize.
    unfold tryCatch at 1. unfold bind at 1. unfold ret at 1. unfold bind at 1.
    rewrite Hh. simpl. unfold bind at 1.
    unfold GitHubClient.getPullRequest. rewrite tryCatch_rethrow. unfold call at 1.
    rewrite Hget. rewrite review_postErrorComment_run.
    now rewrite <- app_assoc. }
  split.
  { intros tr1 pullRequest e Hh Hget Hlist.
    unfold ReviewBot.reviewPullRequest, MCPClient.initialize.
    unfold tryCatch at 1. unfold bind at 1. unfold ret at 1. unfold bind at 1.
    rewrite Hh. simpl. unfold bind at 1.
    unfold GitHubClient.getPullRequest. rewrite tryCatch_rethrow. unfold call at 1.
    rewrite Hget. unfold bind at 1.
    unfold GitHubClient.getPullRequestFiles. rewrite tryCatch_rethrow. unfold call at 1.
    rewrite Hlist. rewrite review_postErrorComment_run.
    now rewrite <- !app_assoc. }
  split; [apply errorComment_contains |].
  split.
  { intros penv e Hc. unfold ReviewMain.main, bind, lift. now rewrite Hc. }
  split; [intros; apply analyzeFile_returns |].
  split.
  { intros file pullRequest tr0 e Hsize Hstatus Htrim prompt Hcreate.
    unfold ReviewBot.analyzeFile. unfold tryCatch at 1.
    destruct (Nat.ltb_spec 1000 (additions file + deletions file)); [lia |].
    assert (Hs : String.eqb (status file) "added" || String.eqb (status file) "modified"
                 = true).
    { destruct Hstatus as [-> | ->]; reflexivity. }
    rewrite Hs. fold (patchText file).
    destruct (Str.trim (patchText file)) eqn:Ht; [now destruct Htrim |].
    cbn [negb Str.truthy]. unfold bind. rewrite analyzeCode_run.
    fold prompt. rewrite Hcreate. reflexivity. }
  split; [reflexivity |].
  split.
  { intros steps tr0 e tr1 Hsteps.
    unfold tryCatch. rewrite Hsteps. apply review_postErrorComment_run. }
  split.
  { intros steps tr0 tr1 Hsteps. unfold tryCatch. now rewrite Hsteps. }
  split; [intros; apply generateSummary_run |].
  split.
  { intros reviews pullRequest tr0 body event e Hreview _.
    rewrite generateSummary_run. now rewrite Hreview. }
  split; [intros; apply postFileComments_run |].
  intros issue name tr0 e _ rest review Hissues Hname.
  rewrite postFileComments_run. unfold issueComments. cbn [flat_map].
  rewrite Hissues, Hname, app_nil_r. reflexivity.
Qed.

(** The premises of C8 are met when GitHub fails to return the pull
    request. *)
Lemma review_run_exceptions_witness :
  fst (ReviewMain.main Stub.envNoPullRequest Stub.penv []) = 0 /\
  fst (LetThemReview.runCommandReview Stub.envNoPullRequest Stub.penv []) = 0.
Proof.
  apply (proj1 (proj2 (review_run_exceptions Stub.envNoPullRequest "7" []))).
  reflexivity.
Defined.

(** C8, as first stated, fails: after an exception the run ends with exit
    code 0, not with a non-zero one; and an exception raised while a file is
    analysed produces no error comment at all, the run going on to post an
    approving review. *)
Lemma review_exception_exits_zero :
  ReviewMain.main Stub.envNoPullRequest Stub.penv [] =
    (0, [MessagesCreate HealthPrompt; PullsGet "7";
         IssuesCreateComment "7" (Text (ReviewBot.errorComment "boom"))]) /\
  LetThemReview.runCommandReview Stub.envNoPullRequest Stub.penv [] =
    (0, [MessagesCreate HealthPrompt; PullsGet "7";
         IssuesCreateComment "7" (Text (ReviewBot.errorComment "boom"))]) /\
  messages_create Stub.envModelDown
    [MessagesCreate HealthPrompt; PullsGet "7"; PullsListFiles "7"]
    (AnalysisPrompt "+let a = 1"
       (ReviewBot.reviewContext Stub.touched (Lang "javascript") Stub.pr7))
    = Throw "overloaded" /\
  ReviewMain.main Stub.envModelDown Stub.penv [] =
    (0, [MessagesCreate HealthPrompt; PullsGet "7"; PullsListFiles "7";
         MessagesCreate
           (AnalysisPrompt "+let a = 1"
              (ReviewBot.reviewContext Stub.touched (Lang "javascript") Stub.pr7));
         PullsCreateReview "7"
           (SummaryComment [] Stub.pr7 "✅ **APPROVED** - Code looks good!" "✅" 0 0)
           "COMMENT"]).
Proof. repeat split; reflexivity. Qed.

(** ** The issues of a targeted fix *)

Lemma fixFileIssues_returns env filename issues pullRequest tr :
  exists outcome,
    fst (FixBot.fixFileIssues env filename issues pullRequest tr) = Ok outcome.
Proof.
  unfold FixBot.fixFileIssues. unfold tryCatch at 1.
  match goal with |- context [match ?m with _ => _ end] => destruct m as [[r|e] tr'] end;
    eexists; reflexivity.
Qed.

Lemma postFixSummary_run env prNumber fixedFiles totalFixes totalFiles tr :
  FixBot.postFixSummary env prNumber fixedFiles totalFixes totalFiles tr =
    (Ok tt,
     (tr ++ [IssuesCreateComment prNumber
               (FixSummary fixedFiles totalFixes totalFiles)])%list).
Proof.
  unfold FixBot.postFixSummary, tryCatch. rewrite createComment_run.
  destruct (issues_createComment env tr prNumber _) as [[]|e]; reflexivity.
Qed.

Lemma postFixComment_run env prNumber message tr :
  FixBot.postFixComment env prNumber message tr =
    (Ok tt,
     (tr ++ [IssuesCreateComment prNumber (Text (FixBot.fixComment message))])%list).
Proof.
  unfold FixBot.postFixComment, tryCatch. rewrite createComment_run.
  destruct (issues_createComment env tr prNumber _) as [[]|e]; reflexivity.
Qed.

(** C9. The issues of a targeted fix do not come from any analysis:
    [extractIssuesFromComments] returns the same one mock issue on
    [example.js] whatever has happened before. [applySpecificFixes] does hold
    the guard for an empty list, which posts the one comment that no issue
    was found and that ReviewBot should analyse first, with no call of the
    model and no write; but with the list it is given it always goes on to
    fix [example.js] and to post a fix summary for one file. *)
Theorem targeted_fix_issue_source (env : Env) (prNumber : string)
    (fixRequest : FixRequest) (pullRequest : PullRequest) (tr : Trace) :
  (forall tr0, FixBot.extractIssuesFromComments tr0 = (Ok FixBot.mockIssues, tr0)) /\
  (let out := FixBot.applySpecificFixesOn env prNumber [] pullRequest tr in
   out = (Ok tt,
          (tr ++ [IssuesCreateComment prNumber
                    (Text (FixBot.fixComment FixBot.noIssuesMessage))])%list) /\
   inferences (snd out) = inferences tr /\
   writes (snd out) = writes tr) /\
  FixBot.applySpecificFixes env prNumber fixRequest pullRequest tr =
    FixBot.applySpecificFixesOn env prNumber FixBot.mockIssues pullRequest tr /\
  (exists outcome tr1,
     FixBot.fixFileIssues env "example.js" FixBot.mockIssues pullRequest tr
       = (Ok outcome, tr1) /\
     FixBot.applySpecificFixes env prNumber fixRequest pullRequest tr =
       (Ok tt,
        (tr1 ++ [IssuesCreateComment prNumber
                   (FixSummary (fst (FixBot.tally (0, 0) outcome))
                               (snd (FixBot.tally (0, 0) outcome)) 1)])%list)).
Proof.
  assert (Hsame :
    FixBot.applySpecificFixes env prNumber fixRequest pullRequest tr =
    FixBot.applySpecificFixesOn env prNumber FixBot.mockIssues pullRequest tr).
  { unfold FixBot.applySpecificFixes. rewrite tryCatch_rethrow. reflexivity. }
  split; [reflexivity |].
  split.
  { cbv zeta.
    change (FixBot.applySpecificFixesOn env prNumber [] pullRequest tr)
      with (FixBot.postFixComment env prNumber FixBot.noIssuesMessage tr).
    rewrite postFixComment_run. simpl.
    rewrite inferences_snoc, writes_snoc, !app_nil_r. auto. }
  split; [exact Hsame |].
  rewrite Hsame.
  destruct (fixFileIssues_returns env "example.js" FixBot.mockIssues pullRequest tr)
    as [outcome Hout].
  destruct (FixBot.fixFileIssues env "example.js" FixBot.mockIssues pullRequest tr)
    as [r tr1] eqn:Hrun.
  simpl in Hout. subst r. exists outcome, tr1. split; [reflexivity |].
  change (FixBot.applySpecificFixesOn env prNumber FixBot.mockIssues pullRequest tr)
    with ((counts <- (acc <- (result <- FixBot.fixFileIssues env "example.js"
                                          FixBot.mockIssues pullRequest ;;
                              ret (FixBot.tally (0, 0) result)) ;;
                      ret acc) ;;
           FixBot.postFixSummary env prNumber (fst counts) (snd counts) 1) tr).
  unfold bind, ret. rewrite Hrun, postFixSummary_run. reflexivity.
Qed.

(** The same on the stub environment: in a run that starts with no
    analysis result at all, a targeted fix posts no such comment; it asks the
    model for a fix of [example.js] and writes the file. *)
Lemma targeted_fix_without_analysis :
  FixBot.applySpecificFixes Stub.env0 "7" (parseFixRequest "@fixbot apply") Stub.pr7 [] =
    (Ok tt,
     [FsReadFile "example.js";
      MessagesCreate (FixPrompt FixBot.mockIssues "let a = 1"
                        (FixBot.fixContext "example.js" Stub.pr7));
      FsWriteFile "example.js" "let a = 1;";
      IssuesCreateComment "7" (FixSummary 1 1 1)]).
Proof. reflexivity. Qed.

(** * Further properties of the code *)

(** ** Trigger parsing *)

Lemma lowerChar_idempotent (c : ascii) :
  Str.lowerChar (Str.lowerChar c) = Str.lowerChar c.
Proof. destruct c as [[] [] [] [] [] [] [] []]; reflexivity. Qed.

Lemma toLowerCase_idempotent (s : string) :
  Str.toLowerCase (Str.toLowerCase s) = Str.toLowerCase s.
Proof.
  induction s as [|c s IH]; simpl; [reflexivity |].
  now rewrite lowerChar_idempotent, IH.
Qed.

Lemma toLowerCase_app (a b : string) :
  Str.toLowerCase (a ++ b) = Str.toLowerCase a ++ Str.toLowerCase b.
Proof. induction a as [|c a IH]; simpl; [reflexivity | now rewrite IH]. Qed.

Lemma Contains_app_l s t u : Str.Contains s u -> Str.Contains (s ++ t) u.
Proof.
  intros [a [b ->]]. exists a, (b ++ t). now rewrite !StrFacts.append_assoc.
Qed.

Lemma Contains_app_r s t u : Str.Contains t u -> Str.Contains (s ++ t) u.
Proof.
  intros [a [b ->]]. exists (s ++ a), b. now rewrite !StrFacts.append_assoc.
Qed.

Lemma shouldFix_iff_mention (c : string) :
  shouldFix (parseFixRequest c) = Str.includes (Str.toLowerCase c) "@fixbot".
Proof.
  unfold parseFixRequest.
  destruct (Str.includes (Str.toLowerCase c) "@fixbot"); simpl; [| reflexivity].
  destruct (_ || _); [destruct (Str.includes _ "all") |]; reflexivity.
Qed.

(** X1. The classification of a comment does not depend on the case of
    its letters; and a comment that asks for a fix still does so with any
    text put before and after it, as when it is quoted in a reply, and it
    then asks for all fixes as soon as the text before it or after it holds
    the letters [all]. *)
Theorem parseFixRequest_case_and_context :
  (forall c, parseFixRequest (Str.toLowerCase c) = parseFixRequest c) /\
  (forall c before after,
     shouldFix (parseFixRequest c) = true ->
     shouldFix (parseFixRequest (before ++ c ++ after)) = true) /\
  (forall c before after,
     shouldFix (parseFixRequest c) = true ->
     Str.Contains (Str.toLowerCase before) "all"
     \/ Str.Contains (Str.toLowerCase after) "all" ->
     parseFixRequest (before ++ c ++ after) = generalAll).
Proof.
  split; [| split].
  - intros c. unfold parseFixRequest. now rewrite toLowerCase_idempotent.
  - intros c before after. rewrite !shouldFix_iff_mention, !toLowerCase_app.
    rewrite !StrFacts.includes_spec. intros H.
    apply Contains_app_r, Contains_app_l, H.
  - intros c before after. rewrite shouldFix_iff_mention, StrFacts.includes_spec.
    intros Hm Hall.
    apply (proj1 (proj2 (parseFixRequest_classification (before ++ c ++ after)))).
    + rewrite !toLowerCase_app. apply Contains_app_r, Contains_app_l, Hm.
    + right. rewrite !toLowerCase_app. apply Contains_app_r, Contains_app_l.
      apply (StrFacts.Contains_trans _ "@fixbot"); [exact Hm |].
      apply StrFacts.includes_spec. reflexivity.
    + rewrite !toLowerCase_app. destruct Hall as [H | H].
      * apply Contains_app_l, H.
      * apply Contains_app_r, Contains_app_r, H.
Qed.

(** X1 at a reply that quotes a request and goes on about a call. *)
Lemma parseFixRequest_case_and_context_witness :
  parseFixRequest ("> " ++ "@FixBot apply" ++ " - but not the call in line 3") = generalAll.
Proof.
  apply (proj2 (proj2 parseFixRequest_case_and_context)).
  - reflexivity.
  - right. apply StrFacts.includes_spec. reflexivity.
Defined.

(** ** Language detection *)

Lemma includes_cons_false c r t :
  Str.includes (String c r) t = false -> Str.includes r t = false.
Proof. simpl. intros H. now apply orb_false_iff in H. Qed.

Lemma lastDotSegment_no_dot (s : string) :
  Str.includes s "." = false -> lastDotSegment s = s.
Proof.
  destruct s as [|c r]; [reflexivity |]. intros H. simpl.
  rewrite (includes_cons_false _ _ _ H).
  simpl in H. apply orb_false_iff in H. destruct H as [H _].
  rewrite andb_true_r in H. now rewrite H.
Qed.

Lemma lastDotSegment_app (base ext : string) :
  Str.includes ext "." = false -> lastDotSegment (base ++ "." ++ ext) = ext.
Proof.
  intros H. induction base as [|c base IH]; simpl.
  - now rewrite H.
  - assert (Hin : Str.includes (base ++ String "." ext) "." = true).
    { apply StrFacts.includes_spec. now exists base, ext. }
    rewrite Hin. exact IH.
Qed.

(** X2. The language of a file is decided by what follows the last dot of
    its path, whatever the case of the letters, and by nothing else: two
    paths with the same extension get the same language, and a path without
    any dot is taken whole as its own extension, so that a file called [go]
    or [GO] counts as a Go source. *)
Theorem detectLanguage_by_extension :
  (forall base ext,
     Str.includes ext "." = false ->
     detectLanguage (base ++ "." ++ ext) = detectLanguage ext) /\
  (forall base ext,
     Str.includes ext "." = false ->
     detectLanguage (base ++ "." ++ Str.toLowerCase ext) = detectLanguage (base ++ "." ++ ext)) /\
  (forall name, Str.includes name "." = false ->
     detectLanguage name = detectLanguage (Str.toLowerCase name)) /\
  detectLanguage "go" = Lang "go" /\
  detectLanguage "src/main.GO" = Lang "go".
Proof.
  assert (Hlow : forall s, Str.includes s "." = false ->
                           Str.includes (Str.toLowerCase s) "." = false).
  { induction s as [|c s IH]; [reflexivity |]. simpl. intros H.
    apply orb_false_iff in H. destruct H as [Hc Hs].
    rewrite (IH Hs), orb_false_r, andb_true_r in *.
    destruct c as [[] [] [] [] [] [] [] []]; try reflexivity; discriminate. }
  split; [| split; [| split; [| split]]]; try reflexivity.
  - intros base ext H. unfold detectLanguage.
    now rewrite lastDotSegment_app, lastDotSegment_no_dot.
  - intros base ext H. unfold detectLanguage.
    rewrite !lastDotSegment_app by auto. now rewrite toLowerCase_idempotent.
  - intros name H. unfold detectLanguage.
    rewrite !lastDotSegment_no_dot by auto. now rewrite toLowerCase_idempotent.
Qed.

(** X2 at a path with two dots. *)
Lemma detectLanguage_by_extension_witness :
  detectLanguage ("pkg/util.test" ++ "." ++ "ts") = detectLanguage "ts".
Proof. apply (proj1 detectLanguage_by_extension). reflexivity. Defined.

(** ** The text fallback *)

Lemma length_append (a b : string) :
  String.length (a ++ b) = String.length a + String.length b.
Proof. induction a as [|c a IH]; simpl; [reflexivity | now rewrite IH]. Qed.

Lemma length_substring0 (n : nat) (s : string) :
  String.length (Str.substring0 n s) = Nat.min n (String.length s).
Proof.
  revert s. induction n as [|n IH]; intros s; [reflexivity |].
  destruct s as [|c s]; simpl; [reflexivity | now rewrite IH].
Qed.

Lemma substring0_prefix (n : nat) (s : string) :
  exists rest, s = Str.substring0 n s ++ rest.
Proof.
  revert s. induction n as [|n IH]; intros s; [now exists s |].
  destruct s as [|c s]; simpl; [now exists EmptyString |].
  destruct (IH s) as [rest Hrest]. exists rest. now rewrite <- Hrest.
Qed.

Lemma substring0_all (n : nat) (s : string) :
  String.length s <= n -> Str.substring0 n s = s.
Proof.
  revert s. induction n as [|n IH]; intros s H.
  - destruct s; [reflexivity | simpl in H; lia].
  - destruct s as [|c s]; simpl; [reflexivity |]. rewrite IH; [reflexivity |].
    simpl in H. lia.
Qed.

(** X3. The summary of the text fallback is never longer than 203
    characters: it is a prefix of the reply, cut at 200 characters, with three
    dots added, and the dots are added also when nothing was cut, so that a
    short reply comes back whole with three dots after it. *)
Theorem parseTextResponse_summary_bound (content : string) :
  let result := MCPClient.parseTextResponse content in
  String.length (summary result) = Nat.min 200 (String.length content) + 3 /\
  String.length (summary result) <= 203 /\
  (exists prefix rest, content = prefix ++ rest /\ summary result = prefix ++ "...") /\
  (String.length content <= 200 -> summary result = content ++ "...").
Proof.
  cbv zeta. unfold MCPClient.parseTextResponse. cbn [summary].
  rewrite length_append, length_substring0. cbn [String.length].
  split; [reflexivity | split; [lia | split]].
  - destruct (substring0_prefix 200 content) as [rest Hrest].
    exists (Str.substring0 200 content), rest. split; [exact Hrest | reflexivity].
  - intros H. now rewrite substring0_all.
Qed.

(** X3 at a short reply. *)
Lemma parseTextResponse_summary_bound_witness :
  summary (MCPClient.parseTextResponse "LGTM") = "LGTM" ++ "...".
Proof.
  apply (proj2 (proj2 (proj2 (parseTextResponse_summary_bound "LGTM")))).
  simpl. lia.
Defined.

(** ** Grouping issues by file *)

(** X4. When no issue has a file name that names a member of
    [Object.prototype], grouping succeeds and is a partition of the input:
    the keys are distinct, the group under a key is exactly the issues with
    that file name (an issue without file name goes under [undefined]) in
    their input order, no group is empty, and each issue is found in the
    group of its own file name. *)
Theorem groupIssuesByFile_is_partition (issues : list Issue) :
  forallb (fun issue => negb (inheritedKey issue)) issues = true ->
  exists groups,
    groupIssuesByFile issues = Ok groups /\
    NoDup (map fst groups) /\
    (forall key group,
       JsObject.own groups key = Some group <->
       group = filedUnder key issues /\ group <> []) /\
    (forall issue, In issue issues ->
       exists group,
         JsObject.own groups (propertyKey (issue_filename issue)) = Some group /\
         In issue group) /\
    (forall key group, In (key, group) groups -> group = filedUnder key issues).
Proof.
  intros H. rewrite forallb_forall in H.
  destruct (groupIssuesByFile_partition issues) as [groups [E [Hnd [Hown Hin]]]].
  { intros issue Hi. apply H in Hi. now apply negb_true_iff in Hi. }
  exists groups. repeat (split; [assumption |]).
  intros key group Hkg.
  assert (Hk : JsObject.own groups key = Some group).
  { clear -Hnd Hkg. induction groups as [|[k g] rest IH]; [destruct Hkg |].
    simpl in *. inversion Hnd as [|? ? Hnot Hnd']; subst.
    destruct Hkg as [[= -> ->] | Hkg].
    - now rewrite String.eqb_refl.
    - destruct (String.eqb k key) eqn:Ek.
      + apply String.eqb_eq in Ek. subst k. exfalso. apply Hnot.
        apply in_map_iff. now exists (key, group).
      + now apply IH. }
  now apply Hown in Hk.
Qed.

(** X4 at three issues of two files. *)
Lemma groupIssuesByFile_is_partition_witness :
  exists groups,
    groupIssuesByFile [issueIn "a.js"; issueIn "b.js"; issueIn "a.js"] = Ok groups /\
    JsObject.own groups "a.js" = Some [issueIn "a.js"; issueIn "a.js"] /\
    JsObject.own groups "b.js" = Some [issueIn "b.js"].
Proof.
  destruct (groupIssuesByFile_is_partition
              [issueIn "a.js"; issueIn "b.js"; issueIn "a.js"] eq_refl)
    as [groups [E [_ [Hown _]]]].
  exists groups. split; [exact E |]. split; apply Hown; split;
    try reflexivity; discriminate.
Defined.

(** ** Exclusion patterns *)

Module GlobFacts.
Import Glob.

Lemma matchHere_star (regex : Regex) (s : string) :
  matchHere (NotSlashStar :: regex) s =
  matchHere regex s ||
  match s with
  | String a s' => negb (Ascii.eqb a "/") && matchHere (NotSlashStar :: regex) s'
  | EmptyString => false
  end.
Proof. destruct s; reflexivity. Qed.

(** A match of a prefix is not lost when the string goes on. *)
Lemma matchHere_app (regex : Regex) : forall s post,
  matchHere regex s = true -> matchHere regex (s ++ post) = true.
Proof.
  induction regex as [|atom regex IH]; intros s post H; [reflexivity |].
  destruct atom.
  - destruct s as [|a s]; [discriminate |]. simpl in *.
    apply andb_true_iff in H. destruct H as [-> H]. now apply IH.
  - destruct s as [|a s]; [discriminate |]. simpl in *.
    apply andb_true_iff in H. destruct H as [-> H]. now apply IH.
  - destruct s as [|a s]; [discriminate |]. simpl in *.
    apply andb_true_iff in H. destruct H as [-> H]. now apply IH.
  - induction s as [|a s IHs].
    + rewrite matchHere_star in H. rewrite orb_false_r in H.
      rewrite matchHere_star. apply (IH _ post) in H. now rewrite H.
    + rewrite matchHere_star in H. apply orb_true_iff in H.
      change (String a s ++ post) with (String a (s ++ post)).
      rewrite matchHere_star. destruct H as [H | H].
      * apply (IH _ post) in H. change (String a s ++ post) with (String a (s ++ post)) in H.
        now rewrite H.
      * apply andb_true_iff in H. destruct H as [-> H].
        rewrite (IHs H). apply orb_true_r.
Qed.

Lemma test_app (regex : Regex) (before s after : string) :
  matchHere regex s = true -> test regex (before ++ s ++ after) = true.
Proof.
  intros H. induction before as [|c before IH].
  - simpl. destruct (s ++ after) eqn:E; simpl;
      rewrite <- ?E, (matchHere_app regex s after H); reflexivity.
  - simpl. rewrite IH. apply orb_true_r.
Qed.

Lemma not_syntax_neq (c d : ascii) :
  isSyntaxCharacter c = false -> isSyntaxCharacter d = true -> Ascii.eqb c d = false.
Proof.
  intros Hc Hd. destruct (Ascii.eqb c d) eqn:E; [| reflexivity].
  apply Ascii.eqb_eq in E. congruence.
Qed.

Lemma replaceStar_plain (p : string) :
  plainPattern p = true -> replaceStar p = p.
Proof.
  unfold plainPattern. induction p as [|c p IH]; [reflexivity |]. simpl.
  intros H. apply andb_true_iff in H. destruct H as [Hc Hp].
  apply negb_true_iff in Hc.
  rewrite (not_syntax_neq c "*" Hc eq_refl). now rewrite IH.
Qed.

Lemma replaceStarStar_plain (p : string) :
  plainPattern p = true -> replaceStarStar p = p.
Proof.
  unfold plainPattern. induction p as [|c p IH]; [reflexivity |]. simpl.
  intros H. apply andb_true_iff in H. destruct H as [Hc Hp].
  apply negb_true_iff in Hc.
  rewrite (not_syntax_neq c "*" Hc eq_refl). simpl.
  destruct p; [reflexivity |]. now rewrite (IH Hp).
Qed.

Lemma parseRegex_plain (p : string) : forall fuel,
  plainPattern p = true -> String.length p < fuel ->
  parseRegex fuel p = Some (map Lit (chars p)).
Proof.
  unfold plainPattern. induction p as [|c p IH]; intros fuel H Hfuel.
  - destruct fuel; [inversion Hfuel | reflexivity].
  - destruct fuel as [|fuel]; [inversion Hfuel |].
    simpl in H. apply andb_true_iff in H. destruct H as [Hc Hp].
    apply negb_true_iff in Hc. simpl.
    rewrite (not_syntax_neq c "[" Hc eq_refl). simpl.
    rewrite (not_syntax_neq c "." Hc eq_refl), Hc.
    rewrite (IH fuel Hp); [reflexivity | simpl in Hfuel; lia].
Qed.

Lemma matchHere_literal (p s : string) :
  matchHere (map Lit (chars p)) s = Str.startsWith s p.
Proof.
  revert s. induction p as [|c p IH]; intros s; [reflexivity |].
  destruct s as [|a s]; [reflexivity |]. simpl. now rewrite IH.
Qed.

Lemma test_literal (p s : string) :
  test (map Lit (chars p)) s = Str.includes s p.
Proof.
  induction s as [|a s IH]; simpl; rewrite matchHere_literal; [reflexivity |].
  now rewrite IH.
Qed.

End GlobFacts.

(** X5. The exclusion patterns are searched for anywhere in a path: a
    file is dropped as soon as the expression of one pattern matches some
    stretch of its path, at the start or in the middle. With the shipped
    patterns this drops every path that holds [node_modules/], [dist/] or
    [build/] followed by one more character that is not a line terminator,
    in whatever directory, and every path that holds [min] and then [js] with
    one character that is not a line terminator before each, as [admin.js]
    does. The dot the patterns end up with matches no line terminator. *)
Theorem exclusion_is_by_containment :
  (forall regexes regex files file before matched after,
     In regex regexes ->
     Glob.matchHere regex matched = true ->
     filename file = before ++ matched ++ after ->
     ~ In file (filterFilesBy regexes files)) /\
  (forall files file before dir c after,
     In dir ["node_modules/"; "dist/"; "build/"] ->
     Glob.isLineTerminator c = false ->
     filename file = before ++ (dir ++ String c EmptyString) ++ after ->
     ~ In file (filterFiles files)) /\
  (forall files file before c d after,
     Glob.isLineTerminator c = false ->
     Glob.isLineTerminator d = false ->
     filename file = before ++ (String c "min" ++ String d "js") ++ after ->
     ~ In file (filterFiles files)).
Proof.
  assert (Hgen : forall regexes regex files file before matched after,
     In regex regexes ->
     Glob.matchHere regex matched = true ->
     filename file = before ++ matched ++ after ->
     ~ In file (filterFilesBy regexes files)).
  { intros regexes regex files file before matched after Hin Hm Hname Hfile.
    apply filter_In in Hfile. destruct Hfile as [_ Hex].
    apply negb_true_iff in Hex.
    assert (Ht : excluded regexes file = true); [| congruence].
    apply existsb_exists. exists regex. split; [assumption |].
    rewrite Hname. now apply GlobFacts.test_app. }
  split; [exact Hgen | split].
  - intros files file before dir c after Hdir Hc Hname.
    unfold filterFiles.
    destruct Hdir as [<- | [<- | [<- | []]]].
    + apply (Hgen _ (nth 0 configRegexes []) _ _ _ _ _) with (3 := Hname);
        [simpl; tauto | simpl; now rewrite Hc].
    + apply (Hgen _ (nth 1 configRegexes []) _ _ _ _ _) with (3 := Hname);
        [simpl; tauto | simpl; now rewrite Hc].
    + apply (Hgen _ (nth 2 configRegexes []) _ _ _ _ _) with (3 := Hname);
        [simpl; tauto | simpl; now rewrite Hc].
  - intros files file before c d after Hc Hd Hname.
    unfold filterFiles.
    apply (Hgen _ (nth 3 configRegexes []) _ _ _ _ _) with (3 := Hname);
      [simpl; tauto | simpl; now rewrite Hc, Hd].
Qed.

(** X5 at a stylesheet helper of an admin page. *)
Lemma exclusion_is_by_containment_witness :
  ~ In (fileAt "src/admin_js_helpers.py")
       (filterFiles [fileAt "src/a.py"; fileAt "src/admin_js_helpers.py"]).
Proof.
  apply (proj2 (proj2 exclusion_is_by_containment)) with
    (before := "src/a") (c := "d"%char) (d := "_"%char) (after := "_helpers.py");
    reflexivity.
Defined.

(** X6. A pattern made of ordinary characters only, without star, dot or
    any other syntax character, excludes exactly the files whose path holds
    the pattern somewhere as a substring; so the pattern [dist] also drops
    [src/distance.js]. *)
Theorem plain_pattern_excludes_by_substring (pattern : string) (files : list File) :
  plainPattern pattern = true ->
  filterFilesWith [pattern] files =
    Some (filter (fun file => negb (Str.includes (filename file) pattern)) files).
Proof.
  intros H. unfold filterFilesWith, Glob.regexSource, Glob.RegExp. cbn [all].
  rewrite GlobFacts.replaceStarStar_plain, GlobFacts.replaceStar_plain by assumption.
  rewrite GlobFacts.parseRegex_plain by (assumption || lia). cbn [option_map].
  f_equal. unfold filterFilesBy. apply filter_ext. intros file.
  unfold excluded. cbn [existsb]. now rewrite orb_false_r, GlobFacts.test_literal.
Qed.

(** X6 at the pattern [dist]. *)
Lemma plain_pattern_excludes_by_substring_witness :
  filterFilesWith ["dist"] [fileAt "src/distance.js"; fileAt "src/a.js"]
    = Some [fileAt "src/a.js"].
Proof.
  apply (plain_pattern_excludes_by_substring "dist"
           [fileAt "src/distance.js"; fileAt "src/a.js"]).
  reflexivity.
Defined.

(** ** Finding the JSON object in a reply *)

Module JsonRoundTrip.
Import MCPClient.

Lemma includes_app_false a b t :
  Str.includes (a ++ b) t = false -> Str.includes a t = false /\ Str.includes b t = false.
Proof.
  intros H. split.
  - destruct (Str.includes a t) eqn:E; [| reflexivity].
    apply StrFacts.includes_spec in E.
    apply (Contains_app_l a b t) in E. apply StrFacts.includes_spec in E. congruence.
  - destruct (Str.includes b t) eqn:E; [| reflexivity].
    apply StrFacts.includes_spec in E.
    apply (Contains_app_r a b t) in E. apply StrFacts.includes_spec in E. congruence.
Qed.

Lemma uptoLastBrace_app (q c : string) :
  Str.includes c "}" = false ->
  uptoLastBrace (q ++ "}" ++ c) = Some (q ++ "}").
Proof.
  intros H. induction q as [|x q IH]; simpl.
  - apply JsonMatchFacts.uptoLastBrace_None in H. now rewrite H.
  - simpl in IH. now rewrite IH.
Qed.

Lemma uptoLastBrace_Some (s p : string) :
  uptoLastBrace s = Some p ->
  exists q c, p = q ++ "}" /\ s = p ++ c /\ Str.includes c "}" = false.
Proof.
  revert p. induction s as [|x s IH]; intros p H; [discriminate |].
  simpl in H. destruct (uptoLastBrace s) as [p'|] eqn:U.
  - injection H as <-. destruct (IH p' eq_refl) as [q [c [-> [-> Hc]]]].
    exists (String x q), c. repeat split; assumption.
  - destruct (Ascii.eqb x "}") eqn:E; [| discriminate].
    injection H as <-. apply Ascii.eqb_eq in E. subst x.
    exists EmptyString, s. repeat split.
    now apply JsonMatchFacts.uptoLastBrace_None.
Qed.

Lemma jsonMatch_skip (a rest : string) :
  Str.includes a "{" = false -> jsonMatch (a ++ rest) = jsonMatch rest.
Proof.
  induction a as [|x a IH]; intros H; [reflexivity |]. simpl in *.
  apply orb_false_iff in H. destruct H as [Hx Ha].
  rewrite andb_true_r in Hx. rewrite Hx. now apply IH.
Qed.

Lemma jsonMatch_found (a q c : string) :
  Str.includes a "{" = false -> Str.includes c "}" = false ->
  jsonMatch (a ++ ("{" ++ q ++ "}") ++ c) = Some ("{" ++ q ++ "}").
Proof.
  intros Ha Hc. rewrite jsonMatch_skip by assumption.
  rewrite !StrFacts.append_assoc. simpl.
  change (String "}" c) with ("}" ++ c). now rewrite uptoLastBrace_app.
Qed.

Lemma jsonMatch_Some (s m : string) :
  jsonMatch s = Some m ->
  exists a q c,
    s = a ++ m ++ c /\ m = "{" ++ q ++ "}" /\
    Str.includes a "{" = false /\ Str.includes c "}" = false.
Proof.
  revert m. induction s as [|x s IH]; intros m H; [discriminate |].
  simpl in H. destruct (Ascii.eqb x "{") eqn:E.
  - apply Ascii.eqb_eq in E. subst x.
    destruct (uptoLastBrace s) as [p|] eqn:U.
    + injection H as <-. destruct (uptoLastBrace_Some _ _ U) as [q [c [-> [-> Hc]]]].
      exists EmptyString, q, c. repeat split; assumption.
    + destruct (IH m H) as [a [q [c [-> [-> [Ha Hc]]]]]].
      exfalso. apply JsonMatchFacts.uptoLastBrace_None in U.
      apply includes_app_false in U. destruct U as [_ U].
      apply includes_app_false in U. destruct U as [U _].
      rewrite <- StrFacts.append_assoc in U.
      apply includes_app_false in U. destruct U as [_ U]. discriminate.
  - destruct (IH m H) as [a [q [c [-> [-> [Ha Hc]]]]]].
    exists (String x a), q, c. repeat split; try assumption.
    simpl. now rewrite E, andb_false_l, Ha.
Qed.

End JsonRoundTrip.

(** X7. What [parseResponse] hands to [JSON.parse] is the stretch of the
    reply from its first opening brace to its last closing brace: the match
    starts at the first opening brace and ends at the last closing one, so
    closing braces in the prose after an object are taken into the text that
    is parsed. *)
Theorem jsonMatch_first_to_last_brace (s m : string) :
  MCPClient.jsonMatch s = Some m <->
  exists a q c,
    s = a ++ m ++ c /\ m = "{" ++ q ++ "}" /\
    Str.includes a "{" = false /\ Str.includes c "}" = false.
Proof.
  split.
  - apply JsonRoundTrip.jsonMatch_Some.
  - intros [a [q [c [-> [-> [Ha Hc]]]]]]. now apply JsonRoundTrip.jsonMatch_found.
Qed.

(** X7 at an object followed by prose with a closing brace. *)
Lemma jsonMatch_first_to_last_brace_witness :
  MCPClient.jsonMatch "ok: {x} and a set {1}." = Some "{x} and a set {1}".
Proof.
  apply (proj2 (jsonMatch_first_to_last_brace
                  "ok: {x} and a set {1}." "{x} and a set {1}")).
  exists "ok: ", "x} and a set {1", ".". repeat split; reflexivity.
Defined.

(** X8. A reply that wraps one JSON object in prose, with no opening
    brace before it and no closing brace after it, is interpreted as that
    object: [parseResponse] returns what [JSON.parse] makes of the object
    text, and [analyzeCode] returns it for the reply it received. *)
Theorem parseResponse_object_in_prose (env : Env) (before object after : string)
    (more : list ContentBlock) (parsed : AnalysisResult) :
  Str.includes before "{" = false ->
  Str.includes after "}" = false ->
  JSON_parse env ("{" ++ object ++ "}") = Some parsed ->
  let response :=
    {| content := {| text := Some (before ++ ("{" ++ object ++ "}") ++ after) |} :: more |} in
  MCPClient.parseResponse env response = Ok parsed /\
  (forall code context tr,
     messages_create env tr (AnalysisPrompt code context) = Ok response ->
     MCPClient.analyzeCode env code context tr =
       (Ok parsed, (tr ++ [MessagesCreate (AnalysisPrompt code context)])%list)).
Proof.
  intros Hb Ha Hp response.
  assert (Hparse : MCPClient.parseResponse env response = Ok parsed).
  { unfold MCPClient.parseResponse, response. cbn [MCPClient.firstText content text andThen].
    rewrite JsonRoundTrip.jsonMatch_found by assumption. now rewrite Hp. }
  split; [exact Hparse |].
  intros code context tr Hc. rewrite analyzeCode_run, Hc. now rewrite Hparse.
Qed.

(** X8 at the stub analysis wrapped in a sentence. *)
Lemma parseResponse_object_in_prose_witness :
  MCPClient.parseResponse Stub.env0
    (Stub.reply ("Here is my review: " ++ Stub.analysisJson ++ " Thanks."))
  = Ok Stub.analysisObject.
Proof.
  apply (parseResponse_object_in_prose Stub.env0 "Here is my review: "
           (Glob.drop 1 (Str.substring0 (String.length Stub.analysisJson - 1)
                           Stub.analysisJson))
           " Thanks." [] Stub.analysisObject); reflexivity.
Defined.

(** ** Finding the fenced code in a reply *)

Module FenceFacts.
Import MCPClient.

Lemma substring_all (s : string) : String.substring 0 (String.length s) s = s.
Proof. induction s as [|c s IH]; simpl; [reflexivity | now rewrite IH]. Qed.

Lemma drop3 (a b c : ascii) (s : string) :
  Glob.drop 3 (String a (String b (String c s))) = s.
Proof. unfold Glob.drop. simpl. rewrite Nat.sub_0_r. apply substring_all. Qed.

Lemma codeMatch_skip (before rest : string) :
  Str.includes before "`" = false -> codeMatch (before ++ rest) = codeMatch rest.
Proof.
  induction before as [|x before IH]; intros H; [reflexivity |].
  simpl in H. apply orb_false_iff in H. destruct H as [Hx Hb].
  rewrite andb_true_r in Hx.
  change (String x before ++ rest) with (String x (before ++ rest)).
  cbn [codeMatch]. cbn [Str.startsWith]. rewrite Hx. cbn [andb]. now apply IH.
Qed.

Lemma skipWord_word (lang rest : string) :
  wordOrEmpty lang = true -> skipWord (lang ++ nl ++ rest) = nl ++ rest.
Proof.
  unfold wordOrEmpty. induction lang as [|x lang IH]; intros H; [reflexivity |].
  simpl in H. apply andb_true_iff in H. destruct H as [Hx Hl].
  simpl. rewrite Hx. now apply IH.
Qed.

(** The closing fence cannot begin inside the code and end outside it. *)
Lemma beforeFirst_closing (code rest : string) :
  Str.includes code closingFence = false ->
  beforeFirst closingFence (code ++ closingFence ++ rest) = Some code.
Proof.
  induction code as [|x code IH]; intros H; [reflexivity |].
  assert (Hs : Str.startsWith (String x code ++ closingFence ++ rest) closingFence = false).
  { simpl in H. apply orb_false_iff in H. destruct H as [H _].
    unfold closingFence, nl in *. simpl in *.
    destruct (Ascii.eqb x "010"); [| reflexivity]. simpl in *.
    destruct code as [|c1 code]; [reflexivity |]. simpl in *.
    destruct (Ascii.eqb c1 "`") eqn:E1; [| reflexivity]. simpl in *.
    destruct code as [|c2 code]; [reflexivity |]. simpl in *.
    destruct (Ascii.eqb c2 "`") eqn:E2; [| reflexivity]. simpl in *.
    destruct code as [|c3 code]; [reflexivity |]. simpl in *.
    destruct (Ascii.eqb c3 "`") eqn:E3; [discriminate | reflexivity]. }
  change (String x code ++ closingFence ++ rest) with (String x (code ++ closingFence ++ rest)) in *.
  cbn [beforeFirst]. rewrite Hs.
  rewrite IH; [reflexivity |]. now apply includes_cons_false in H.
Qed.

Lemma codeMatch_fenced (before lang code after : string) :
  Str.includes before "`" = false ->
  wordOrEmpty lang = true ->
  Str.includes code closingFence = false ->
  codeMatch (before ++ openingFence ++ lang ++ nl ++ code ++ closingFence ++ after) = Some code.
Proof.
  intros Hb Hl Hc. rewrite codeMatch_skip by assumption.
  unfold openingFence. cbn [append]. cbn [codeMatch]. cbn [Str.startsWith Ascii.eqb Bool.eqb andb].
  rewrite drop3. unfold fenced. rewrite skipWord_word by assumption.
  unfold nl at 1. cbn [append]. cbn [Ascii.eqb Bool.eqb andb].
  now rewrite beforeFirst_closing.
Qed.

End FenceFacts.

(** X9. From a reply that holds one fenced block, with no backquote
    before the opening fence, an optional language word after it, and a code
    in which no line starts with a fence, [parseFixes] returns the code
    between the fences and nothing of the prose around them; and
    [generateFixes] returns that code for the reply it received. A reply
    without such a block is returned whole. *)
Theorem parseFixes_fenced_block (env : Env) (before lang code after : string)
    (more : list ContentBlock) :
  Str.includes before "`" = false ->
  wordOrEmpty lang = true ->
  Str.includes code (nl ++ "```") = false ->
  let response :=
    {| content :=
         {| text := Some (before ++ "```" ++ lang ++ nl ++ code ++ (nl ++ "```") ++ after) |}
         :: more |} in
  MCPClient.parseFixes response = Ok (Some code) /\
  (forall issues original context tr,
     messages_create env tr (FixPrompt issues original context) = Ok response ->
     MCPClient.generateFixes env issues original context tr =
       (Ok (Some code),
        (tr ++ [MessagesCreate (FixPrompt issues original context)])%list)) /\
  (forall content,
     MCPClient.codeMatch content = None ->
     MCPClient.parseFixes {| content := {| text := Some content |} :: more |}
       = Ok (Some content)).
Proof.
  intros Hb Hl Hc response.
  assert (Hparse : MCPClient.parseFixes response = Ok (Some code)).
  { unfold MCPClient.parseFixes, response. cbn [MCPClient.firstText content text andThen].
    pose proof (FenceFacts.codeMatch_fenced before lang code after Hb Hl Hc) as E.
    unfold openingFence, closingFence in E. rewrite E. reflexivity. }
  split; [exact Hparse | split].
  - intros issues original context tr Hcreate.
    now rewrite generateFixes_run, Hcreate, Hparse.
  - intros content0 Hnone. unfold MCPClient.parseFixes.
    cbn [MCPClient.firstText content text andThen]. now rewrite Hnone.
Qed.

(** X9 at a reply with a sentence before and after the block. *)
Lemma parseFixes_fenced_block_witness :
  MCPClient.parseFixes
    (Stub.reply ("Fixed: " ++ "```" ++ "js" ++ nl ++ ("let a = 1;" ++ nl ++ "let b;")
                 ++ (nl ++ "```") ++ " Done."))
  = Ok (Some ("let a = 1;" ++ nl ++ "let b;")).
Proof.
  apply (proj1 (parseFixes_fenced_block Stub.env0 "Fixed: " "js"
                  ("let a = 1;" ++ nl ++ "let b;") " Done." []
                  eq_refl eq_refl eq_refl)).
Defined.

(** ** The text of an issue comment *)

Lemma Contains_refl (s : string) : Str.Contains s s.
Proof.
  exists EmptyString, EmptyString. simpl.
  induction s as [|c s IH]; simpl; [reflexivity | now rewrite <- IH].
Qed.

Lemma buildIssueComment_hint (toUpperCase memberText : string -> string)
    (issue : Issue) (filename : string) :
  exists before,
    IssueText.buildIssueComment toUpperCase memberText issue filename
      = before ++ IssueText.fixHint.
Proof. unfold IssueText.buildIssueComment. eexists. reflexivity. Qed.

Lemma buildIssueComment_description (toUpperCase memberText : string -> string)
    (issue : Issue) (filename : string) :
  Str.Contains (IssueText.buildIssueComment toUpperCase memberText issue filename)
    ("**Issue:** " ++ issue_description issue).
Proof.
  unfold IssueText.buildIssueComment.
  do 3 apply Contains_app_l. apply Contains_app_r.
  exists EmptyString, (nl ++ nl). now rewrite !StrFacts.append_assoc.
Qed.

(** X10. The comment posted for an issue names the file, the severity,
    the description and the suggestion of the issue, and ends with the hint
    to reply [@fixbot apply]. It shows the line when the issue has a line
    number other than zero; an issue with line zero gets the same comment as
    an issue without line. *)
Theorem buildIssueComment_content (toUpperCase memberText : string -> string)
    (issue : Issue) (filename : string) :
  let comment := IssueText.buildIssueComment toUpperCase memberText issue filename in
  Str.Contains comment ("**File:** `" ++ filename ++ "`") /\
  Str.Contains comment ("**Severity:** " ++ issue_severity issue) /\
  Str.Contains comment ("**Issue:** " ++ issue_description issue) /\
  Str.Contains comment ("**Suggestion:** " ++ issue_suggestion issue) /\
  (exists before, comment = before ++ IssueText.fixHint) /\
  (forall n, issue_line issue = Some (S n) ->
     Str.Contains comment ("**Line:** " ++ decimal (S n) ++ nl)) /\
  IssueText.buildIssueComment toUpperCase memberText (withLine (Some 0) issue) filename
    = IssueText.buildIssueComment toUpperCase memberText (withLine None issue) filename.
Proof.
  cbv zeta. unfold IssueText.buildIssueComment.
  split; [| split; [| split; [| split; [| split; [| split]]]]].
  - destruct (issue_line issue) as [[|n]|]; do 5 apply Contains_app_l;
      [| apply Contains_app_l |]; apply Contains_app_r;
      exists EmptyString, nl; now rewrite !StrFacts.append_assoc.
  - do 4 apply Contains_app_l. apply Contains_app_r.
    exists EmptyString, (nl ++ nl). now rewrite !StrFacts.append_assoc.
  - do 3 apply Contains_app_l. apply Contains_app_r.
    exists EmptyString, (nl ++ nl). now rewrite !StrFacts.append_assoc.
  - do 2 apply Contains_app_l. apply Contains_app_r.
    exists EmptyString, (nl ++ nl). now rewrite !StrFacts.append_assoc.
  - eexists. reflexivity.
  - intros n ->. do 5 apply Contains_app_l. apply Contains_app_r. apply Contains_refl.
  - reflexivity.
Qed.

(** X10 at an issue in line 12. *)
Lemma buildIssueComment_content_witness :
  Str.Contains
    (IssueText.buildIssueComment Str.toLowerCase (fun key => key)
       (withLine (Some 12) Stub.finding) "a.js")
    ("**Line:** " ++ decimal 12 ++ nl).
Proof.
  apply (proj1 (proj2 (proj2 (proj2 (proj2 (proj2
           (buildIssueComment_content Str.toLowerCase (fun key => key)
              (withLine (Some 12) Stub.finding) "a.js"))))))) with (n := 11).
  reflexivity.
Defined.

(** X11. Every comment ReviewBot posts for an issue is itself a fix
    request in the eyes of [parseFixRequest], since it ends with the hint that
    holds the mention: read as a comment it is a specific request, and a
    request for all fixes as soon as its text holds the letters [all], for
    instance in the description of the issue. *)
Theorem issue_comment_is_fix_request (toUpperCase memberText : string -> string)
    (issue : Issue) (filename : string) :
  let request :=
    parseFixRequest (IssueText.buildIssueComment toUpperCase memberText issue filename) in
  shouldFix request = true /\
  (request = specificTargeted \/ request = generalAll) /\
  (Str.Contains (Str.toLowerCase (issue_description issue)) "all" ->
   request = generalAll).
Proof.
  cbv zeta.
  set (comment := IssueText.buildIssueComment toUpperCase memberText issue filename).
  assert (Hhint : Str.Contains (Str.toLowerCase comment) "@fixbot").
  { destruct (buildIssueComment_hint toUpperCase memberText issue filename)
      as [before Hb].
    fold comment in Hb. rewrite Hb, toLowerCase_app. apply Contains_app_r.
    apply StrFacts.includes_spec. reflexivity. }
  assert (Hfix : Str.Contains (Str.toLowerCase comment) "fix").
  { apply (StrFacts.Contains_trans _ "@fixbot"); [exact Hhint |].
    apply StrFacts.includes_spec. reflexivity. }
  pose proof (parseFixRequest_classification comment) as [_ [Hall [Hspec _]]].
  split; [| split].
  - rewrite shouldFix_iff_mention. now apply StrFacts.includes_spec.
  - destruct (Str.includes (Str.toLowerCase comment) "all") eqn:E.
    + right. apply Hall; [assumption | now right | now apply StrFacts.includes_spec].
    + left. apply Hspec; [assumption | now right |].
      now apply includes_false_iff.
  - intros Hd. apply Hall; [assumption | now right |].
    destruct (buildIssueComment_description toUpperCase memberText issue filename)
      as [a [b Hab]].
    fold comment in Hab. rewrite Hab, !toLowerCase_app.
    apply Contains_app_r, Contains_app_l. apply Contains_app_r. exact Hd.
Qed.

(** X11 at an issue about a function call. *)
Lemma issue_comment_is_fix_request_witness :
  parseFixRequest
    (IssueText.buildIssueComment Str.toLowerCase (fun key => key)
       {| issue_filename := None; issue_type := "bug"; issue_severity := "high";
          issue_line := Some 3; issue_description := "Unchecked call of fetch";
          issue_suggestion := "Check the result" |} "a.js")
  = generalAll.
Proof.
  apply (proj2 (proj2 (issue_comment_is_fix_request Str.toLowerCase (fun key => key)
           {| issue_filename := None; issue_type := "bug"; issue_severity := "high";
              issue_line := Some 3; issue_description := "Unchecked call of fetch";
              issue_suggestion := "Check the result" |} "a.js"))).
  apply StrFacts.includes_spec. reflexivity.
Defined.

(** ** The comments of a review *)

(** X12. For reviews whose analyses follow the schema, each with a list
    of issue objects, [postFileComments] calls GitHub exactly once for each
    issue of each review, in the order of the reviews and of their issues,
    each call with the comment of that issue and the file of its review. A
    call that GitHub refuses is caught for that comment alone: the calls for
    the other issues are made all the same and the method returns normally. *)
Theorem postFileComments_one_per_issue (env : Env) (prNumber : string)
    (reviews : list Review) (tr : Trace) :
  ReviewBot.postFileComments env prNumber reviews tr
    = (Ok tt, (tr ++ issueComments prNumber reviews)%list) /\
  length (issueComments prNumber reviews) = length (allIssues reviews).
Proof.
  split.
  - apply postFileComments_run.
  - unfold issueComments, allIssues.
    induction reviews as [|review reviews IH]; [reflexivity |].
    simpl. rewrite !length_app, length_map. now rewrite IH.
Qed.

(** ** A review with nothing to review *)

Lemma postSummaryComment_run env prNumber message tr :
  ReviewBot.postSummaryComment env prNumber message tr =
    (Ok tt, (tr ++ [IssuesCreateComment prNumber (Text (summaryNote message))])%list).
Proof.
  unfold ReviewBot.postSummaryComment, tryCatch. rewrite createComment_run.
  destruct (issues_createComment env tr prNumber _) as [[]|e]; reflexivity.
Qed.

(** The run of [reviewPullRequest] up to the list of files. *)
Lemma reviewPullRequest_start env prNumber tr tr1 pullRequest files :
  MCPClient.healthCheck env tr = (Ok true, tr1) ->
  pulls_get env tr1 prNumber = Ok pullRequest ->
  pulls_listFiles env (tr1 ++ [PullsGet prNumber])%list prNumber = Ok files ->
  forall rest : PullRequest -> list File -> M unit,
    tryCatch
      (MCPClient.initialize ;;
       isHealthy <- MCPClient.healthCheck env ;;
       if negb isHealthy then throw "MCP connection health check failed"
       else
         pullRequest <- GitHubClient.getPullRequest env prNumber ;;
         files <- GitHubClient.getPullRequestFiles env prNumber ;;
         rest pullRequest files)
      (fun error => ReviewBot.postErrorComment env prNumber error) tr
    = tryCatch (rest pullRequest files)
        (fun error => ReviewBot.postErrorComment env prNumber error)
        (tr1 ++ [PullsGet prNumber; PullsListFiles prNumber])%list.
Proof.
  intros Hh Hget Hlist rest. unfold MCPClient.initialize.
  unfold tryCatch at 1. unfold bind at 1. unfold ret at 1. unfold bind at 1.
  rewrite Hh. cbn [negb]. unfold bind at 1.
  unfold GitHubClient.getPullRequest. rewrite tryCatch_rethrow. unfold call at 1.
  rewrite Hget. unfold bind at 1.
  unfold GitHubClient.getPullRequestFiles. rewrite tryCatch_rethrow. unfold call at 1.
  rewrite Hlist. rewrite <- app_assoc. reflexivity.
Qed.

(** X13. When the health check passes and the pull request and its files
    are fetched, but the exclusion patterns leave no file, the review run
    posts the one note that no reviewable file was found and stops: no file
    is analysed and no review is posted. *)
Theorem review_without_reviewable_files (env : Env) (prNumber : string)
    (tr tr1 : Trace) (pullRequest : PullRequest) (files : list File) :
  MCPClient.healthCheck env tr = (Ok true, tr1) ->
  pulls_get env tr1 prNumber = Ok pullRequest ->
  pulls_listFiles env (tr1 ++ [PullsGet prNumber])%list prNumber = Ok files ->
  filterFiles files = [] ->
  ReviewBot.reviewPullRequest env prNumber tr =
    (Ok tt,
     (tr1 ++ [PullsGet prNumber; PullsListFiles prNumber;
              IssuesCreateComment prNumber
                (Text (summaryNote "No reviewable files found in this PR."))])%list).
Proof.
  intros Hh Hget Hlist Hnone.
  pose proof (reviewPullRequest_start env prNumber tr tr1 pullRequest files Hh Hget Hlist
             (fun pullRequest files =>
                let filteredFiles := filterFiles files in
                if length filteredFiles =? 0 then
                  ReviewBot.postSummaryComment env prNumber
                    "No reviewable files found in this PR."
                else
                  let filesToReview :=
                    slice0 config.reviewBot.maxFilesPerReview filteredFiles in
                  reviews <- forOfAcc filesToReview []
                               (fun reviews file =>
                                  review <- ReviewBot.analyzeFile env file pullRequest ;;
                                  ret (match review with
                                       | Some r => (reviews ++ [r])%list
                                       | None => reviews
                                       end)) ;;
                  ReviewBot.generateSummary env prNumber reviews pullRequest ;;
                  ReviewBot.postFileComments env prNumber reviews)) as E.
  match type of E with _ = ?rhs => transitivity rhs; [exact E |] end.
  cbv beta zeta. rewrite Hnone. cbn [length Nat.eqb].
  unfold tryCatch. rewrite postSummaryComment_run. now rewrite <- app_assoc.
Qed.

(** X13 at a pull request that touches vendored files only. *)
Lemma review_without_reviewable_files_witness :
  ReviewBot.reviewPullRequest Stub2.envVendored "7" [] =
    (Ok tt,
     [MessagesCreate HealthPrompt; PullsGet "7"; PullsListFiles "7";
      IssuesCreateComment "7"
        (Text (summaryNote "No reviewable files found in this PR."))]).
Proof.
  apply (review_without_reviewable_files Stub2.envVendored "7" []
           [MessagesCreate HealthPrompt] Stub.pr7
           [fileAt "node_modules/left-pad/index.js"; fileAt "yarn.lock"]);
    reflexivity.
Defined.

(** ** A fix run before it dispatches *)

Lemma fix_postErrorComment_run env prNumber message tr :
  FixBot.postErrorComment env prNumber message tr =
    (Ok tt, (tr ++ [IssuesCreateComment prNumber (Text (fixErrorComment message))])%list).
Proof.
  unfold FixBot.postErrorComment, tryCatch. rewrite createComment_run.
  destruct (issues_createComment env tr prNumber _) as [[]|e]; reflexivity.
Qed.

Lemma processFixRequest_returns env prNumber commentBody tr :
  fst (FixBot.processFixRequest env prNumber commentBody tr) = Ok tt.
Proof.
  unfold FixBot.processFixRequest. unfold tryCatch at 1.
  match goal with |- context [match ?m with _ => _ end] => destruct m as [[[]|e] tr'] end.
  - reflexivity.
  - now rewrite fix_postErrorComment_run.
Qed.

(** X14. [processFixRequest] never throws. It asks the model for the
    health check before it looks at the comment: when the check fails it
    posts an error comment whatever the comment says, also for a comment
    without the mention; when the check passes and the comment holds no
    mention, nothing more is done at all. *)
Theorem processFixRequest_before_dispatch (env : Env) (prNumber commentBody : string)
    (tr : Trace) :
  fst (FixBot.processFixRequest env prNumber commentBody tr) = Ok tt /\
  (exists healthy,
     MCPClient.healthCheck env tr = (Ok healthy, (tr ++ [MessagesCreate HealthPrompt])%list)) /\
  (MCPClient.healthCheck env tr = (Ok false, (tr ++ [MessagesCreate HealthPrompt])%list) ->
   FixBot.processFixRequest env prNumber commentBody tr =
     (Ok tt,
      (tr ++ [MessagesCreate HealthPrompt;
              IssuesCreateComment prNumber
                (Text (fixErrorComment "MCP connection health check failed"))])%list)) /\
  (MCPClient.healthCheck env tr = (Ok true, (tr ++ [MessagesCreate HealthPrompt])%list) ->
   Str.includes (Str.toLowerCase commentBody) "@fixbot" = false ->
   FixBot.processFixRequest env prNumber commentBody tr =
     (Ok tt, (tr ++ [MessagesCreate HealthPrompt])%list)).
Proof.
  split; [apply processFixRequest_returns |].
  split.
  { rewrite healthCheck_run.
    destruct (messages_create env tr HealthPrompt) as [response|e]; [| eauto].
    destruct (MCPClient.firstText response); eauto. }
  split.
  - intros Hh. unfold FixBot.processFixRequest, MCPClient.initialize.
    unfold tryCatch at 1. unfold bind at 1. unfold ret at 1. unfold bind at 1.
    rewrite Hh. cbn [negb]. unfold throw.
    rewrite fix_postErrorComment_run. now rewrite <- app_assoc.
  - intros Hh Hno. unfold FixBot.processFixRequest, MCPClient.initialize.
    unfold tryCatch at 1. unfold bind at 1. unfold ret at 1. unfold bind at 1.
    rewrite Hh. cbn [negb].
    rewrite shouldFix_iff_mention, Hno. reflexivity.
Qed.

(** X14 at a comment without mention while the model is down. *)
Lemma processFixRequest_before_dispatch_witness :
  FixBot.processFixRequest Stub2.envUnhealthy "7" "looks good" [] =
    (Ok tt,
     [MessagesCreate HealthPrompt;
      IssuesCreateComment "7"
        (Text (fixErrorComment "MCP connection health check failed"))]).
Proof.
  apply (proj1 (proj2 (proj2
           (processFixRequest_before_dispatch Stub2.envUnhealthy "7" "looks good" [])))).
  reflexivity.
Defined.

(** ** A blanket fix run *)

Lemma count_app p (a b : list Event) : count p (a ++ b) = count p a + count p b.
Proof. unfold count. now rewrite filter_app, length_app. Qed.

Lemma forallb_filter {A} (p : A -> bool) (l : list A) : forallb p (filter p l) = true.
Proof.
  induction l as [|x l IH]; [reflexivity |]. simpl.
  destruct (p x) eqn:E; [simpl; now rewrite E | exact IH].
Qed.

Ltac trace_shape :=
  first [ rewrite <- ?app_assoc; reflexivity
        | rewrite app_nil_r; reflexivity ].

Ltac all_of :=
  repeat (apply Forall_cons; [assumption |]); apply Forall_nil.

(** What one file adds to the trace of a blanket fix. *)
Lemma analyzeAndFixFile_events env file pullRequest tr :
  exists new outcome,
    FixBot.analyzeAndFixFile env file pullRequest tr = (Ok outcome, (tr ++ new)%list) /\
    Forall (fixEventOf pullRequest file) new /\
    count isRead new <= 1 /\ count isInference new <= 2 /\ count isWrite new <= 1 /\
    (success outcome = true -> count isWrite new = 1).
Proof.
  rewrite analyzeAndFixFile_run. cbv zeta.
  destruct (Nat.ltb_spec 500 (additions file + deletions file)) as [Hbig|Hsize].
  { exists [], failed. rewrite app_nil_r.
    repeat split; try (unfold count; simpl; lia); try discriminate. constructor. }
  assert (Hr : fixEventOf pullRequest file (FsReadFile (filename file))) by (split; auto).
  destruct (fs_readFile env tr (filename file)) as [content|e].
  2:{ exists [FsReadFile (filename file)], failed.
      repeat split; try (unfold count; simpl; lia); try discriminate. all_of. }
  destruct (Str.truthy content); cbn [negb].
  2:{ exists [FsReadFile (filename file)], failed.
      repeat split; try (unfold count; simpl; lia); try discriminate. all_of. }
  destruct (supportedLanguage (detectLanguage (filename file))) eqn:Hlang; cbn [negb].
  2:{ exists [FsReadFile (filename file)], failed.
      repeat split; try (unfold count; simpl; lia); try discriminate. all_of. }
  set (context := FixBot.fixContext (filename file) pullRequest).
  assert (Ha : fixEventOf pullRequest file (MessagesCreate (AnalysisPrompt content context)))
    by (split; auto).
  assert (Hstop : exists new outcome,
     (Ok failed,
      ((tr ++ [FsReadFile (filename file)]) ++
       [MessagesCreate (AnalysisPrompt content context)])%list)
       = (Ok outcome, (tr ++ new)%list) /\
     Forall (fixEventOf pullRequest file) new /\
     count isRead new <= 1 /\ count isInference new <= 2 /\ count isWrite new <= 1 /\
     (success outcome = true -> count isWrite new = 1)).
  { exists [FsReadFile (filename file); MessagesCreate (AnalysisPrompt content context)],
           failed.
    split; [trace_shape |].
    repeat split; try (unfold count; simpl; lia); try discriminate. all_of. }
  destruct (messages_create env _ (AnalysisPrompt _ _)) as [response|e]; [| exact Hstop].
  destruct (MCPClient.parseResponse env response) as [analysis|e]; [| exact Hstop].
  destruct (length (issues analysis) =? 0); [exact Hstop |].
  destruct (length (filter isAutoFixable (issues analysis)) =? 0) eqn:Hfix;
    [exact Hstop |].
  set (fixable := filter isAutoFixable (issues analysis)) in *.
  assert (Hf : fixEventOf pullRequest file
                 (MessagesCreate (FixPrompt fixable content context))).
  { split; [assumption |]. repeat split; auto.
    - intros E. rewrite E in Hfix. discriminate.
    - apply forallb_filter. }
  assert (Hstop2 : exists new outcome,
     (Ok failed,
      (((tr ++ [FsReadFile (filename file)]) ++
        [MessagesCreate (AnalysisPrompt content context)]) ++
       [MessagesCreate (FixPrompt fixable content context)])%list)
       = (Ok outcome, (tr ++ new)%list) /\
     Forall (fixEventOf pullRequest file) new /\
     count isRead new <= 1 /\ count isInference new <= 2 /\ count isWrite new <= 1 /\
     (success outcome = true -> count isWrite new = 1)).
  { exists [FsReadFile (filename file); MessagesCreate (AnalysisPrompt content context);
            MessagesCreate (FixPrompt fixable content context)], failed.
    split; [trace_shape |].
    repeat split; try (unfold count; simpl; lia); try discriminate. all_of. }
  destruct (messages_create env _ (FixPrompt _ _ _)) as [response'|e]; [| exact Hstop2].
  destruct (MCPClient.parseFixes response') as [fixed|e]; [| exact Hstop2].
  destruct (FixBot.noFix fixed content); [exact Hstop2 |].
  destruct fixed as [f|]; [| exact Hstop2].
  exists [FsReadFile (filename file); MessagesCreate (AnalysisPrompt content context);
          MessagesCreate (FixPrompt fixable content context);
          FsWriteFile (filename file) f].
  assert (Hw : fixEventOf pullRequest file (FsWriteFile (filename file) f))
    by (split; auto).
  destruct (fs_writeFile env _ (filename file) f); eexists;
    (split; [f_equal; trace_shape |]);
    repeat split; try (unfold count; simpl; lia); try reflexivity; all_of.
Qed.

Lemma In_slice0 {A} (n : nat) (l : list A) (x : A) : In x (slice0 n l) -> In x l.
Proof.
  unfold slice0. intros H. rewrite <- (firstn_skipn n l). apply in_or_app. now left.
Qed.

Lemma length_slice0 {A} (n : nat) (l : list A) : length (slice0 n l) <= n.
Proof. unfold slice0. apply firstn_le_length. Qed.

(** What the loop of a blanket fix adds to the trace. *)
Lemma generalFixLoop_events env pullRequest files : forall counts tr,
  exists new counts',
    generalFixLoop env pullRequest files counts tr = (Ok counts', (tr ++ new)%list) /\
    Forall (fun ev => exists file, In file files /\ fixEventOf pullRequest file ev) new /\
    count isRead new <= length files /\
    count isInference new <= 2 * length files /\
    count isWrite new <= length files /\
    fst counts' <= fst counts + count isWrite new.
Proof.
  induction files as [|file files IH]; intros counts tr.
  - exists [], counts. cbn. unfold ret. rewrite app_nil_r.
    repeat split; try (unfold count; simpl; lia). constructor.
  - unfold generalFixLoop. cbn [forOfAcc]. unfold bind at 1. unfold bind at 1.
    destruct (analyzeAndFixFile_events env file pullRequest tr)
      as [new1 [outcome [E1 [Hall1 [Hr1 [Hi1 [Hw1 Hs1]]]]]]].
    rewrite E1. unfold ret at 1.
    destruct (IH (FixBot.tally counts outcome) (tr ++ new1)%list)
      as [new2 [counts' [E2 [Hall2 [Hr2 [Hi2 [Hw2 Hc2]]]]]]].
    unfold generalFixLoop in E2. rewrite E2.
    exists (new1 ++ new2)%list, counts'.
    split; [now rewrite app_assoc |].
    split.
    { apply Forall_app. split.
      - eapply Forall_impl; [| exact Hall1]. intros ev Hev. exists file. split; [now left | exact Hev].
      - eapply Forall_impl; [| exact Hall2]. intros ev [f [Hf Hev]].
        exists f. split; [now right | exact Hev]. }
    rewrite !count_app. cbn [length].
    repeat split; try lia.
    assert (Ht : fst (FixBot.tally counts outcome) <= fst counts + count isWrite new1).
    { unfold FixBot.tally. destruct counts as [fixedFiles totalFixes].
      destruct (success outcome) eqn:S; cbn [fst]; [rewrite (Hs1 eq_refl) |]; lia. }
    lia.
Qed.

(** X15. A blanket fix works on the first ten files that the exclusion
    patterns leave, and on nothing else: every file read or written and every
    request to the model belongs to one of them; a file is written only if it
    is not excluded, has at most 500 changed lines and is in a supported
    language; the model is asked to fix auto-fixable issues only; the run
    makes at most ten reads, twenty requests to the model and ten writes; and
    it ends with one summary whose count of modified files is at most the
    number of writes and whose count of processed files is the number of all
    files left by the patterns, also when that exceeds ten. *)
Theorem blanket_fix_run (env : Env) (prNumber : string) (pullRequest : PullRequest)
    (tr : Trace) (files : list File) :
  pulls_listFiles env tr prNumber = Ok files ->
  let selected := slice0 config.fixBot.maxChangesPerRun (filterFiles files) in
  exists new fixedFiles totalFixes,
    FixBot.applyGeneralFixes env prNumber pullRequest tr =
      (Ok tt,
       (tr ++ [PullsListFiles prNumber] ++ new ++
        [IssuesCreateComment prNumber
           (FixSummary fixedFiles totalFixes (length (filterFiles files)))])%list) /\
    Forall (fun ev => exists file, In file selected /\ fixEventOf pullRequest file ev) new /\
    (forall path data,
       In (FsWriteFile path data) new ->
       exists file,
         In file files /\ filename file = path /\
         excluded configRegexes file = false /\
         additions file + deletions file <= 500 /\
         supportedLanguage (detectLanguage path) = true) /\
    (forall issues code context issue,
       In (MessagesCreate (FixPrompt issues code context)) new ->
       In issue issues -> isAutoFixable issue = true) /\
    count isRead new <= 10 /\ count isInference new <= 20 /\ count isWrite new <= 10 /\
    fixedFiles <= count isWrite new.
Proof.
  intros Hlist selected.
  destruct (generalFixLoop_events env pullRequest selected (0, 0)
              (tr ++ [PullsListFiles prNumber])%list)
    as [new [counts [E [Hall [Hr [Hi [Hw Hc]]]]]]].
  exists new, (fst counts), (snd counts).
  assert (Hlen : length selected <= 10) by apply length_slice0.
  split.
  { unfold FixBot.applyGeneralFixes. rewrite tryCatch_rethrow.
    unfold bind at 1. unfold GitHubClient.getPullRequestFiles.
    rewrite tryCatch_rethrow. unfold call at 1. rewrite Hlist. cbv zeta.
    unfold bind at 1. unfold generalFixLoop in E. fold selected. rewrite E.
    rewrite postFixSummary_run. now rewrite <- !app_assoc. }
  split; [exact Hall |].
  split.
  { intros path data Hin. rewrite Forall_forall in Hall.
    destruct (Hall _ Hin) as [file [Hsel [Hsize [Hpath Hlang]]]].
    apply In_slice0 in Hsel. apply filter_In in Hsel. destruct Hsel as [Hf Hex].
    exists file. rewrite Hpath. repeat split; auto. now apply negb_true_iff in Hex. }
  split.
  { intros issues code context issue Hin Hissue. rewrite Forall_forall in Hall.
    destruct (Hall _ Hin) as [file [_ [_ [_ [_ [_ Hfix]]]]]].
    rewrite forallb_forall in Hfix. now apply Hfix. }
  cbn [fst] in Hc. repeat split; lia.
Qed.

(** X15 at a pull request with one source file and one vendored file. *)
Lemma blanket_fix_run_witness :
  exists new fixedFiles totalFixes,
    FixBot.applyGeneralFixes Stub3.envMixed "7" Stub.pr7 [] =
      (Ok tt,
       ([] ++ [PullsListFiles "7"] ++ new ++
        [IssuesCreateComment "7" (FixSummary fixedFiles totalFixes 1)])%list) /\
    count isWrite new <= 10.
Proof.
  destruct (blanket_fix_run Stub3.envMixed "7" Stub.pr7 []
              [Stub.touched; fileAt "node_modules/x.js"] eq_refl)
    as [new [fixedFiles [totalFixes [E [_ [_ [_ [_ [_ [Hw _]]]]]]]]]].
  exists new, fixedFiles, totalFixes. split; [exact E | exact Hw].
Defined.

(** ** A review run *)

(** What one file adds to the trace of a review. *)
Lemma analyzeFile_events env artifact pullRequest tr :
  (ReviewBot.analyzeFile env artifact pullRequest tr = (Ok None, tr)) \/
  (eligible artifact /\
   exists review,
     ReviewBot.analyzeFile env artifact pullRequest tr =
       (Ok review, (tr ++ [MessagesCreate (reviewPrompt pullRequest artifact)])%list) /\
     forall r, review = Some r ->
       file r = artifact /\
       exists response,
         messages_create env tr (reviewPrompt pullRequest artifact) = Ok response /\
         MCPClient.parseResponse env response = Ok (analysis r)).
Proof.
  unfold ReviewBot.analyzeFile. unfold tryCatch at 1 2.
  destruct (Nat.ltb_spec 1000 (additions artifact + deletions artifact)) as [Hbig|Hsize];
    [now left |].
  destruct (String.eqb (status artifact) "added" || String.eqb (status artifact) "modified")
    eqn:Hs.
  2:{ left. destruct (String.eqb (status artifact) "removed"); reflexivity. }
  fold (patchText artifact).
  destruct (Str.trim (patchText artifact)) eqn:Ht; [now left |].
  cbn [negb Str.truthy]. right. split.
  { split; [assumption |]. split.
    - apply orb_true_iff in Hs. destruct Hs as [H | H]; apply String.eqb_eq in H; auto.
    - rewrite Ht. discriminate. }
  unfold bind. rewrite analyzeCode_run. fold (reviewPrompt pullRequest artifact).
  destruct (messages_create env tr (reviewPrompt pullRequest artifact)) as [response|e].
  - destruct (MCPClient.parseResponse env response) as [result|e] eqn:Hp.
    + eexists. split; [reflexivity |]. intros r [= <-]. cbn [file analysis].
      split; [reflexivity |]. now exists response.
    + exists None. split; [reflexivity |]. discriminate.
  - exists None. split; [reflexivity |]. discriminate.
Qed.

Lemma reviewLoop_events env pullRequest files : forall reviews tr,
  exists new added,
    reviewLoop env pullRequest files reviews tr
      = (Ok (reviews ++ added)%list, (tr ++ new)%list) /\
    Forall (reviewRequestOf pullRequest files) new /\
    Forall (reviewOf files) added /\
    length added <= length new /\ length new <= length files.
Proof.
  induction files as [|artifact files IH]; intros reviews tr.
  - exists [], []. cbn. unfold ret. rewrite !app_nil_r. repeat split; auto.
  - unfold reviewLoop. cbn [forOfAcc]. unfold bind at 1. unfold bind at 1.
    assert (Hweak1 : forall new,
              Forall (reviewRequestOf pullRequest files) new ->
              Forall (reviewRequestOf pullRequest (artifact :: files)) new).
    { intros new H. eapply Forall_impl; [| exact H].
      intros ev [a [Ha [He Hev]]]. exists a. split; [now right | auto]. }
    assert (Hweak2 : forall added,
              Forall (reviewOf files) added ->
              Forall (reviewOf (artifact :: files)) added).
    { intros added H. eapply Forall_impl; [| exact H].
      intros r [Hr He]. split; [now right | auto]. }
    destruct (analyzeFile_events env artifact pullRequest tr)
      as [E | [Hel [review [E Hrev]]]]; rewrite E; unfold ret at 1.
    + destruct (IH reviews tr) as [new [added [E2 [Hn [Ha [Hl1 Hl2]]]]]].
      unfold reviewLoop in E2. rewrite E2. exists new, added.
      repeat split; auto. cbn [length]. lia.
    + assert (Hreq : reviewRequestOf pullRequest (artifact :: files)
                       (MessagesCreate (reviewPrompt pullRequest artifact))).
      { exists artifact. split; [now left | auto]. }
      destruct review as [r|].
      * destruct (Hrev r eq_refl) as [Hfile _].
        destruct (IH (reviews ++ [r])%list
                     (tr ++ [MessagesCreate (reviewPrompt pullRequest artifact)])%list)
          as [new [added [E2 [Hn [Ha [Hl1 Hl2]]]]]].
        unfold reviewLoop in E2. rewrite E2.
        exists (MessagesCreate (reviewPrompt pullRequest artifact) :: new), (r :: added).
        split; [now rewrite <- !app_assoc |].
        split; [constructor; auto |].
        split.
        { constructor; [| auto]. split; rewrite Hfile; [now left | assumption]. }
        cbn [length]. lia.
      * destruct (IH reviews
                     (tr ++ [MessagesCreate (reviewPrompt pullRequest artifact)])%list)
          as [new [added [E2 [Hn [Ha [Hl1 Hl2]]]]]].
        unfold reviewLoop in E2. rewrite E2.
        exists (MessagesCreate (reviewPrompt pullRequest artifact) :: new), added.
        split; [now rewrite <- !app_assoc |].
        split; [constructor; auto |].
        split; [auto |]. cbn [length]. lia.
Qed.

(** The run of [reviewPullRequest] once some file is left to review. *)
Lemma reviewRest_run env prNumber pullRequest files tr :
  filterFiles files <> [] ->
  exists new reviews,
    reviewRest env prNumber pullRequest files tr =
      (Ok tt,
       (tr ++ new ++ [summaryReview prNumber reviews pullRequest]
           ++ issueComments prNumber reviews)%list) /\
    Forall (reviewRequestOf pullRequest
              (slice0 config.reviewBot.maxFilesPerReview (filterFiles files))) new /\
    Forall (reviewOf (slice0 config.reviewBot.maxFilesPerReview (filterFiles files)))
           reviews /\
    length reviews <= length new /\ length new <= 50.
Proof.
  intros Hsome. unfold reviewRest. cbv zeta.
  destruct (filterFiles files) as [|f0 fs0] eqn:Hf; [now destruct Hsome |].
  cbn [length Nat.eqb].
  destruct (reviewLoop_events env pullRequest
              (slice0 config.reviewBot.maxFilesPerReview (f0 :: fs0)) [] tr)
    as [new [reviews [E [Hn [Hr [Hl1 Hl2]]]]]].
  exists new, reviews. split.
  - unfold bind at 1. rewrite E. cbn [app]. unfold bind.
    rewrite generateSummary_run.
    rewrite postFileComments_run.
    now rewrite <- !app_assoc.
  - repeat split; auto.
    pose proof (length_slice0 config.reviewBot.maxFilesPerReview (f0 :: fs0)) as H.
    change config.reviewBot.maxFilesPerReview with 50 in H at 2. lia.
Qed.

Lemma count_zero p (events : list Event) :
  Forall (fun ev => p ev = false) events -> count p events = 0.
Proof.
  unfold count. induction 1 as [|ev events Hev _ IH]; [reflexivity |].
  simpl. now rewrite Hev.
Qed.

Lemma count_issueComments p prNumber reviews :
  (forall n b, p (IssuesCreateComment n b) = false) ->
  count p (issueComments prNumber reviews) = 0.
Proof.
  intros Hp. apply count_zero. apply Forall_forall. intros ev Hin.
  unfold issueComments in Hin. apply in_flat_map in Hin.
  destruct Hin as [review [_ Hin]]. apply in_map_iff in Hin.
  destruct Hin as [issue [<- _]]. apply Hp.
Qed.

(** What one file adds to the trace of a review: the one request, and
    only when the file passes the three tests. *)
Lemma analyzeFile_trace env artifact pullRequest tr :
  exists review,
    ReviewBot.analyzeFile env artifact pullRequest tr =
      (Ok review,
       (tr ++ if eligibleb artifact
              then [MessagesCreate (reviewPrompt pullRequest artifact)] else [])%list).
Proof.
  unfold ReviewBot.analyzeFile, eligibleb. unfold tryCatch at 1.
  destruct (1000 <? additions artifact + deletions artifact).
  { exists None. cbn. now rewrite app_nil_r. }
  cbn [negb andb].
  destruct (String.eqb (status artifact) "added" || String.eqb (status artifact) "modified").
  2:{ exists None. cbn [andb]. rewrite app_nil_r.
      destruct (String.eqb (status artifact) "removed"); reflexivity. }
  cbn [andb]. fold (patchText artifact).
  destruct (Str.truthy (Str.trim (patchText artifact))).
  2:{ exists None. cbn. now rewrite app_nil_r. }
  cbn [negb]. unfold bind. rewrite analyzeCode_run.
  fold (reviewPrompt pullRequest artifact).
  destruct (messages_create env tr (reviewPrompt pullRequest artifact)) as [response|e].
  - destruct (MCPClient.parseResponse env response) as [result|e];
      eexists; reflexivity.
  - exists None. reflexivity.
Qed.

Lemma reviewLoop_trace env pullRequest files : forall reviews tr,
  exists reviews',
    reviewLoop env pullRequest files reviews tr =
      (Ok reviews', (tr ++ reviewRequests pullRequest files)%list).
Proof.
  induction files as [|artifact files IH]; intros reviews tr.
  - exists reviews. cbn. unfold ret. now rewrite app_nil_r.
  - unfold reviewLoop. cbn [forOfAcc]. unfold bind at 1. unfold bind at 1.
    destruct (analyzeFile_trace env artifact pullRequest tr) as [review E].
    rewrite E. unfold ret at 1.
    destruct (IH (match review with
                  | Some r => (reviews ++ [r])%list
                  | None => reviews
                  end)
                 (tr ++ if eligibleb artifact
                        then [MessagesCreate (reviewPrompt pullRequest artifact)]
                        else [])%list) as [reviews' E2].
    unfold reviewLoop in E2. rewrite E2. exists reviews'.
    unfold reviewRequests. cbn [filter].
    destruct (eligibleb artifact); cbn [map]; now rewrite <- app_assoc.
Qed.

Lemma eligibleb_eligible artifact : eligibleb artifact = true <-> eligible artifact.
Proof.
  unfold eligibleb, eligible. split.
  - intros H.
    apply andb_true_iff in H. destruct H as [H Ht].
    apply andb_true_iff in H. destruct H as [Hsize Hs].
    split.
    { apply negb_true_iff in Hsize. apply Nat.ltb_ge in Hsize. exact Hsize. }
    split.
    { apply orb_true_iff in Hs. destruct Hs as [H | H]; apply String.eqb_eq in H; auto. }
    intros E. rewrite E in Ht. discriminate.
  - intros [Hsize [Hs Ht]].
    apply andb_true_iff. split; [apply andb_true_iff; split |].
    + apply negb_true_iff. now apply Nat.ltb_ge.
    + destruct Hs as [-> | ->]; reflexivity.
    + destruct (Str.trim (patchText artifact)); [now destruct Ht | reflexivity].
Qed.

(** X16. Which files a review run sends to the model does not depend on
    what the model answers. Once the health check has passed and the pull
    request and its files are fetched, the run asks the model about the first
    fifty files left by the exclusion patterns, in their order, and of these
    about exactly the ones that are added or modified, have a patch that is
    not blank and at most 1000 changed lines: one request for each of them,
    none for a removed file, at most fifty in all. Every request is made
    before anything is posted, and what follows the requests is posts only,
    with at most one review among them. *)
Theorem review_run (env : Env) (prNumber : string) (tr tr1 : Trace)
    (pullRequest : PullRequest) (files : list File) :
  MCPClient.healthCheck env tr = (Ok true, tr1) ->
  pulls_get env tr1 prNumber = Ok pullRequest ->
  pulls_listFiles env (tr1 ++ [PullsGet prNumber])%list prNumber = Ok files ->
  let selected := slice0 config.reviewBot.maxFilesPerReview (filterFiles files) in
  let requests := reviewRequests pullRequest selected in
  exists posts,
    ReviewBot.reviewPullRequest env prNumber tr =
      (Ok tt,
       (tr1 ++ [PullsGet prNumber; PullsListFiles prNumber] ++ requests ++ posts)%list) /\
    Forall (fun ev => isReview ev = true \/ isComment ev = true) posts /\
    count isReview posts <= 1 /\
    length requests <= 50 /\
    (forall artifact,
       In artifact selected ->
       In artifact files /\ excluded configRegexes artifact = false) /\
    (forall artifact,
       eligibleb artifact = true <->
       additions artifact + deletions artifact <= 1000 /\
       (status artifact = "added" \/ status artifact = "modified") /\
       Str.trim (patchText artifact) <> EmptyString) /\
    (forall artifact, status artifact = "removed" -> eligibleb artifact = false).
Proof.
  intros Hh Hget Hlist selected requests.
  assert (Hposts : forall reviews,
            Forall (fun ev => isReview ev = true \/ isComment ev = true)
                   (summaryReview prNumber reviews pullRequest
                      :: issueComments prNumber reviews) /\
            count isReview (summaryReview prNumber reviews pullRequest
                              :: issueComments prNumber reviews) <= 1).
  { intros reviews. split.
    - constructor; [now left |]. apply Forall_forall. intros ev Hin.
      unfold issueComments in Hin. apply in_flat_map in Hin.
      destruct Hin as [review [_ Hin]]. apply in_map_iff in Hin.
      destruct Hin as [issue [<- _]]. now right.
    - change (summaryReview prNumber reviews pullRequest :: issueComments prNumber reviews)
        with ([summaryReview prNumber reviews pullRequest]
                ++ issueComments prNumber reviews)%list.
      rewrite count_app, (count_issueComments isReview) by reflexivity.
      unfold count, summaryReview. simpl. lia. }
  assert (Hrun : exists posts,
            ReviewBot.reviewPullRequest env prNumber tr =
              (Ok tt,
               (tr1 ++ [PullsGet prNumber; PullsListFiles prNumber]
                    ++ requests ++ posts)%list) /\
            Forall (fun ev => isReview ev = true \/ isComment ev = true) posts /\
            count isReview posts <= 1).
  { pose proof (reviewPullRequest_start env prNumber tr tr1 pullRequest files
                  Hh Hget Hlist (reviewRest env prNumber)) as S.
    match type of S with
    | _ = ?rhs => replace (ReviewBot.reviewPullRequest env prNumber tr) with rhs
                    by (symmetry; exact S)
    end.
    clear S. unfold tryCatch, reviewRest. cbv zeta.
    destruct (filterFiles files) as [|f0 fs0] eqn:Hf.
    - cbn [length Nat.eqb]. rewrite postSummaryComment_run.
      subst requests selected. cbn.
      eexists. split; [rewrite <- app_assoc; reflexivity |].
      split; [constructor; [now right | constructor] |].
      unfold count. simpl. lia.
    - cbn [length Nat.eqb]. fold selected.
      destruct (reviewLoop_trace env pullRequest selected []
                  (tr1 ++ [PullsGet prNumber; PullsListFiles prNumber])%list)
        as [reviews E].
      unfold bind at 1. rewrite E. unfold bind at 1.
      rewrite generateSummary_run, postFileComments_run.
      destruct (Hposts reviews) as [Hall Hcount].
      exists (summaryReview prNumber reviews pullRequest
                :: issueComments prNumber reviews).
      split; [| split; assumption].
      fold requests. now rewrite <- !app_assoc. }
  destruct Hrun as [posts [E [Hall Hcount]]].
  exists posts. split; [exact E |]. split; [exact Hall |]. split; [exact Hcount |].
  split.
  { subst requests. unfold reviewRequests. rewrite length_map.
    etransitivity; [apply filter_length_le |]. apply length_slice0. }
  split.
  { intros artifact Hin.
    apply In_slice0 in Hin. apply filter_In in Hin. destruct Hin as [Hin Hex].
    apply negb_true_iff in Hex. auto. }
  split; [intros artifact; apply eligibleb_eligible |].
  intros artifact Hs. unfold eligibleb. rewrite Hs. cbn.
  now rewrite andb_false_r.
Qed.

(** X16 at a pull request with one modified file and one vendored file: the
    one request is for the modified file. *)
Lemma review_run_witness :
  exists posts,
    ReviewBot.reviewPullRequest Stub3.envMixed "7" [] =
      (Ok tt,
       ([MessagesCreate HealthPrompt] ++ [PullsGet "7"; PullsListFiles "7"]
          ++ [MessagesCreate (reviewPrompt Stub.pr7 Stub.touched)] ++ posts)%list) /\
    count isReview posts <= 1.
Proof.
  destruct (review_run Stub3.envMixed "7" [] [MessagesCreate HealthPrompt] Stub.pr7
              [Stub.touched; fileAt "node_modules/x.js"] eq_refl eq_refl eq_refl)
    as [posts [E [_ [H _]]]].
  exists posts. split; [exact E | exact H].
Defined.

(** ** What a review run costs and never does *)

Lemma count_requests p pullRequest files new :
  Forall (reviewRequestOf pullRequest files) new ->
  (forall prompt, p (MessagesCreate prompt) = false) ->
  count p new = 0.
Proof.
  intros H Hp. apply count_zero. eapply Forall_impl; [| exact H].
  intros ev [a [_ [_ ->]]]. apply Hp.
Qed.

Lemma count_inferences_le (events : list Event) : count isInference events <= length events.
Proof. unfold count. apply filter_length_le. Qed.

Lemma healthCheck_answers env tr :
  exists healthy,
    MCPClient.healthCheck env tr = (Ok healthy, (tr ++ [MessagesCreate HealthPrompt])%list).
Proof.
  rewrite healthCheck_run.
  destruct (messages_create env tr HealthPrompt) as [response|e]; [| now exists false].
  destruct (MCPClient.firstText response); eexists; reflexivity.
Qed.

(** X17. Whatever GitHub and the model answer, a review run never reads
    or writes a file of the working tree, asks the model at most 51 times,
    once for the health check and once for each of at most fifty files, and
    posts at most one review. *)
Theorem review_run_footprint (env : Env) (prNumber : string) (tr : Trace) :
  exists new,
    snd (ReviewBot.reviewPullRequest env prNumber tr) = (tr ++ new)%list /\
    count isRead new = 0 /\ count isWrite new = 0 /\
    count isInference new <= 51 /\ count isReview new <= 1.
Proof.
  destruct (healthCheck_answers env tr) as [healthy Hh].
  set (tr1 := (tr ++ [MessagesCreate HealthPrompt])%list) in *.
  destruct healthy.
  2:{ unfold ReviewBot.reviewPullRequest, MCPClient.initialize.
      unfold tryCatch at 1. unfold bind at 1. unfold ret at 1. unfold bind at 1.
      rewrite Hh. cbn [negb]. unfold throw.
      rewrite review_postErrorComment_run. cbn [snd]. unfold tr1.
      rewrite <- app_assoc. eexists. split; [reflexivity |].
      unfold count. simpl. repeat split; lia. }
  destruct (pulls_get env tr1 prNumber) as [pullRequest|e] eqn:Hget.
  2:{ unfold ReviewBot.reviewPullRequest, MCPClient.initialize.
      unfold tryCatch at 1. unfold bind at 1. unfold ret at 1. unfold bind at 1.
      rewrite Hh. cbn [negb]. unfold bind at 1.
      unfold GitHubClient.getPullRequest. rewrite tryCatch_rethrow. unfold call at 1.
      rewrite Hget.
      rewrite review_postErrorComment_run. cbn [snd]. unfold tr1.
      rewrite <- !app_assoc. eexists. split; [reflexivity |].
      unfold count. simpl. repeat split; lia. }
  destruct (pulls_listFiles env (tr1 ++ [PullsGet prNumber])%list prNumber)
    as [files|e] eqn:Hlist.
  2:{ unfold ReviewBot.reviewPullRequest, MCPClient.initialize.
      unfold tryCatch at 1. unfold bind at 1. unfold ret at 1. unfold bind at 1.
      rewrite Hh. cbn [negb]. unfold bind at 1.
      unfold GitHubClient.getPullRequest. rewrite tryCatch_rethrow. unfold call at 1.
      rewrite Hget. unfold bind at 1.
      unfold GitHubClient.getPullRequestFiles. rewrite tryCatch_rethrow. unfold call at 1.
      rewrite Hlist.
      rewrite review_postErrorComment_run. cbn [snd]. unfold tr1.
      rewrite <- !app_assoc. eexists. split; [reflexivity |].
      unfold count. simpl. repeat split; lia. }
  pose proof (reviewPullRequest_start env prNumber tr tr1 pullRequest files
                Hh Hget Hlist (reviewRest env prNumber)) as S.
  match type of S with
  | _ = ?rhs => replace (ReviewBot.reviewPullRequest env prNumber tr) with rhs
                  by (symmetry; exact S)
  end.
  clear S. unfold tryCatch.
  destruct (filterFiles files) as [|f0 fs0] eqn:Hf.
  - unfold reviewRest. cbv zeta. rewrite Hf. cbn [length Nat.eqb].
    rewrite postSummaryComment_run. cbn [snd]. unfold tr1.
    rewrite <- !app_assoc. eexists. split; [reflexivity |].
    unfold count. simpl. repeat split; lia.
  - destruct (reviewRest_run env prNumber pullRequest files
                (tr1 ++ [PullsGet prNumber; PullsListFiles prNumber])%list)
      as [new [reviews [E [Hn [_ [_ Hl]]]]]]; [rewrite Hf; discriminate |].
    rewrite E. cbn [snd]. unfold tr1. rewrite <- !app_assoc.
    eexists. split; [reflexivity |].
    rewrite !count_app.
    rewrite !(count_issueComments _ prNumber reviews) by reflexivity.
    rewrite (count_requests isRead _ _ _ Hn), (count_requests isWrite _ _ _ Hn),
      (count_requests isReview _ _ _ Hn) by reflexivity.
    pose proof (count_inferences_le new).
    unfold summaryReview. unfold count in *. simpl.
    repeat split; lia.
Qed.

(** ** What a fix run costs and never does *)

(** A targeted fix is the fix of [example.js] followed by one summary. *)
Lemma applySpecificFixes_run env prNumber fixRequest pullRequest tr :
  exists outcome tr1,
    FixBot.fixFileIssues env "example.js" FixBot.mockIssues pullRequest tr
      = (Ok outcome, tr1) /\
    FixBot.applySpecificFixes env prNumber fixRequest pullRequest tr =
      (Ok tt,
       (tr1 ++ [IssuesCreateComment prNumber
                  (FixSummary (fst (FixBot.tally (0, 0) outcome))
                              (snd (FixBot.tally (0, 0) outcome)) 1)])%list).
Proof.
  assert (Hsame :
    FixBot.applySpecificFixes env prNumber fixRequest pullRequest tr =
    FixBot.applySpecificFixesOn env prNumber FixBot.mockIssues pullRequest tr).
  { unfold FixBot.applySpecificFixes. rewrite tryCatch_rethrow. reflexivity. }
  rewrite Hsame.
  destruct (fixFileIssues_returns env "example.js" FixBot.mockIssues pullRequest tr)
    as [outcome Hout].
  destruct (FixBot.fixFileIssues env "example.js" FixBot.mockIssues pullRequest tr)
    as [r tr1] eqn:Hrun.
  simpl in Hout. subst r. exists outcome, tr1. split; [reflexivity |].
  change (FixBot.applySpecificFixesOn env prNumber FixBot.mockIssues pullRequest tr)
    with ((counts <- (acc <- (result <- FixBot.fixFileIssues env "example.js"
                                          FixBot.mockIssues pullRequest ;;
                              ret (FixBot.tally (0, 0) result)) ;;
                      ret acc) ;;
           FixBot.postFixSummary env prNumber (fst counts) (snd counts) 1) tr).
  unfold bind, ret. rewrite Hrun, postFixSummary_run. reflexivity.
Qed.

(** The fix of one named file adds a read, a request and a write at most. *)
Lemma fixFileIssues_events env filename issues pullRequest tr :
  exists new,
    snd (FixBot.fixFileIssues env filename issues pullRequest tr) = (tr ++ new)%list /\
    count isReview new = 0 /\ count isComment new = 0 /\
    count isRead new <= 1 /\ count isWrite new <= 1 /\ count isInference new <= 1.
Proof.
  rewrite fixFileIssues_run. cbv zeta.
  destruct (fs_readFile env tr filename) as [content|e].
  2:{ eexists. split; [reflexivity |]. unfold count. simpl. repeat split; lia. }
  destruct (negb (Str.truthy content)).
  { eexists. split; [reflexivity |]. unfold count. simpl. repeat split; lia. }
  destruct (messages_create env _ _) as [response|e].
  2:{ cbn [snd]. rewrite <- app_assoc. eexists. split; [reflexivity |].
      unfold count. simpl. repeat split; lia. }
  destruct (MCPClient.parseFixes response) as [fixed|e].
  2:{ cbn [snd]. rewrite <- app_assoc. eexists. split; [reflexivity |].
      unfold count. simpl. repeat split; lia. }
  destruct (FixBot.noFix fixed content).
  { cbn [snd]. rewrite <- app_assoc. eexists. split; [reflexivity |].
    unfold count. simpl. repeat split; lia. }
  destruct fixed as [f|].
  2:{ cbn [snd]. rewrite <- app_assoc. eexists. split; [reflexivity |].
      unfold count. simpl. repeat split; lia. }
  cbn [snd]. rewrite <- !app_assoc. eexists. split; [reflexivity |].
  unfold count. simpl. repeat split; lia.
Qed.

(** A blanket fix, whether the list of files arrives or not. *)
Lemma applyGeneralFixes_events env prNumber pullRequest tr :
  exists r new,
    FixBot.applyGeneralFixes env prNumber pullRequest tr = (r, (tr ++ new)%list) /\
    count isReview new = 0 /\
    match r with
    | Ok _ => count isComment new = 1
    | Throw _ => count isComment new = 0
    end /\
    count isRead new <= 10 /\ count isWrite new <= 10 /\ count isInference new <= 20.
Proof.
  unfold FixBot.applyGeneralFixes. rewrite tryCatch_rethrow.
  unfold bind at 1. unfold GitHubClient.getPullRequestFiles.
  rewrite tryCatch_rethrow. unfold call at 1.
  destruct (pulls_listFiles env tr prNumber) as [files|e].
  2:{ eexists. eexists. split; [reflexivity |].
      unfold count. simpl. repeat split; lia. }
  cbv zeta.
  set (selected := slice0 config.fixBot.maxChangesPerRun (filterFiles files)).
  destruct (generalFixLoop_events env pullRequest selected (0, 0)
              (tr ++ [PullsListFiles prNumber])%list)
    as [new [counts [E [Hall [Hr [Hi [Hw Hc]]]]]]].
  assert (Hlen : length selected <= 10) by apply length_slice0.
  unfold generalFixLoop in E. unfold bind at 1. rewrite E.
  rewrite postFixSummary_run. rewrite <- !app_assoc.
  eexists. eexists. split; [reflexivity |].
  assert (Hnone : Forall (fun ev => isReview ev = false /\ isComment ev = false) new).
  { eapply Forall_impl; [| exact Hall].
    intros ev [artifact [_ [_ Hev]]]. destruct ev; try contradiction; auto. }
  rewrite !count_app.
  rewrite (count_zero isReview new), (count_zero isComment new).
  - unfold count in *. simpl. repeat split; lia.
  - eapply Forall_impl; [| exact Hnone]. now intros ev [_ H].
  - eapply Forall_impl; [| exact Hnone]. now intros ev [H _].
Qed.

(** X18. Whatever GitHub, the model and the working tree answer, and
    whatever the comment says, a fix run never posts a review, posts at most
    one comment, reads at most ten files, writes at most ten files and asks
    the model at most 21 times. *)
Theorem fix_run_footprint (env : Env) (prNumber commentBody : string) (tr : Trace) :
  exists new,
    snd (FixBot.processFixRequest env prNumber commentBody tr) = (tr ++ new)%list /\
    count isReview new = 0 /\ count isComment new <= 1 /\
    count isRead new <= 10 /\ count isWrite new <= 10 /\
    count isInference new <= 21.
Proof.
  destruct (healthCheck_answers env tr) as [healthy Hh].
  unfold FixBot.processFixRequest, MCPClient.initialize.
  unfold tryCatch at 1. unfold bind at 1. unfold ret at 1. unfold bind at 1.
  rewrite Hh. destruct healthy; cbn [negb].
  2:{ unfold throw. rewrite fix_postErrorComment_run. cbn [snd].
      rewrite <- app_assoc. eexists. split; [reflexivity |].
      unfold count. simpl. repeat split; lia. }
  cbv zeta. destruct (negb (shouldFix (parseFixRequest commentBody))).
  { unfold ret. cbn [snd]. eexists. split; [reflexivity |].
    unfold count. simpl. repeat split; lia. }
  unfold bind at 1. unfold GitHubClient.getPullRequest. rewrite tryCatch_rethrow.
  unfold call at 1.
  destruct (pulls_get env _ prNumber) as [pullRequest|e].
  2:{ rewrite fix_postErrorComment_run. cbn [snd].
      rewrite <- !app_assoc. eexists. split; [reflexivity |].
      unfold count. simpl. repeat split; lia. }
  set (tr2 := ((tr ++ [MessagesCreate HealthPrompt]) ++ [PullsGet prNumber])%list).
  assert (Hnothing :
    exists new, snd (Ok tt, tr2) = (tr ++ new)%list /\
      count isReview new = 0 /\ count isComment new <= 1 /\
      count isRead new <= 10 /\ count isWrite new <= 10 /\ count isInference new <= 21).
  { unfold tr2. cbn [snd]. rewrite <- !app_assoc. eexists. split; [reflexivity |].
    unfold count. simpl. repeat split; lia. }
  destruct (req_type (parseFixRequest commentBody)) as [type|]; [| exact Hnothing].
  destruct (String.eqb type "specific").
  { destruct (applySpecificFixes_run env prNumber (parseFixRequest commentBody)
                pullRequest tr2) as [outcome [tr3 [Hfix Hrun]]].
    rewrite Hrun. cbn [snd].
    destruct (fixFileIssues_events env "example.js" FixBot.mockIssues pullRequest tr2)
      as [new [Hnew [H1 [H2 [H3 [H4 H5]]]]]].
    rewrite Hfix in Hnew. cbn [snd] in Hnew. subst tr3. unfold tr2.
    rewrite <- !app_assoc. eexists. split; [reflexivity |].
    rewrite !count_app. unfold count in *. simpl. repeat split; lia. }
  destruct (String.eqb type "general"); [| exact Hnothing].
  destruct (applyGeneralFixes_events env prNumber pullRequest tr2)
    as [r [new [Hrun [H1 [H2 [H3 [H4 H5]]]]]]].
  rewrite Hrun. destruct r as [[]|e].
  - cbn [snd]. unfold tr2.
    rewrite <- !app_assoc. eexists. split; [reflexivity |].
    rewrite !count_app. unfold count in *. simpl. repeat split; lia.
  - rewrite fix_postErrorComment_run. cbn [snd].
    unfold tr2. rewrite <- !app_assoc. eexists. split; [reflexivity |].
    rewrite !count_app. unfold count in *. simpl. repeat split; lia.
Qed.
